(** * SEACE ProjectFinder: the extraction-and-ingestion pipeline

    A shallow embedding of
    - [backend-nodejs/src/scraper/SeaceScraper.js] (form driving, paginated
      table extraction, record normalisation), and
    - the ETL service ([mapScrapeDataToProcesoSchema], [performScraping]),
    together with the properties the specification states about them.

    Conventions.
    - A JavaScript string is a [string]; one [ascii] stands for one UTF-16
      code unit below 256 (the Latin-1 range).  Texts of log messages are
      opaque labels: nothing depends on their characters.
    - A JavaScript number is [NaN], an infinity, or a finite value kept as
      the reduced fraction the decimal literal denotes; the rounding of a
      literal to an IEEE-754 double is not part of the model.  The one
      quotient the code prints, the average of records per page, is rounded
      as a double is.
    - [await] is sequencing: a job drives its browser strictly one call
      after the other. *)

From Stdlib Require Import ZArith QArith Ascii String List Lia Bool.
From stdpp Require Import base option gmap strings list pretty.

Local Open Scope string_scope.
Local Open Scope list_scope.

(** ** JavaScript strings *)

Module JS.

Definition isWhiteSpace (c : ascii) : bool :=
  let n := nat_of_ascii c in
  ((9 <=? n)%nat && (n <=? 13)%nat) || (n =? 32)%nat || (n =? 160)%nat.

Definition isDigit (c : ascii) : bool :=
  let n := nat_of_ascii c in (48 <=? n)%nat && (n <=? 57)%nat.

Definition digitValue (c : ascii) : Z := (Z.of_nat (nat_of_ascii c) - 48)%Z.

(** Value of a character as a hexadecimal digit, when it is one. *)
Definition hexValue (c : ascii) : option Z :=
  let n := nat_of_ascii c in
  if isDigit c then Some (Z.of_nat n - 48)%Z
  else if (97 <=? n)%nat && (n <=? 102)%nat then Some (Z.of_nat n - 87)%Z
  else if (65 <=? n)%nat && (n <=? 70)%nat then Some (Z.of_nat n - 55)%Z
  else None.

Fixpoint trimStart (s : string) : string :=
  match s with
  | String c r => if isWhiteSpace c then trimStart r else s
  | EmptyString => EmptyString
  end.

Fixpoint rev_onto (s acc : string) : string :=
  match s with
  | EmptyString => acc
  | String c r => rev_onto r (String c acc)
  end.

Definition reverseText (s : string) : string := rev_onto s EmptyString.

Definition trimEnd (s : string) : string := reverseText (trimStart (reverseText s)).

(** [String.prototype.trim]. *)
Definition trim (s : string) : string := trimEnd (trimStart s).

(** [s.split(sep)] for a one-character separator. *)
Fixpoint split (sep : ascii) (s : string) : list string :=
  match s with
  | EmptyString => [EmptyString]
  | String c r =>
      if Ascii.eqb c sep then EmptyString :: split sep r
      else match split sep r with
           | h :: t => String c h :: t
           | [] => [String c EmptyString]
           end
  end.

(** [s.replace(/c/g, '')]. *)
Fixpoint removeAll (c : ascii) (s : string) : string :=
  match s with
  | EmptyString => EmptyString
  | String d r => if Ascii.eqb d c then removeAll c r else String d (removeAll c r)
  end.

(** [s.replace(/c/g, d)] for a one-character replacement. *)
Fixpoint replaceAll (c d : ascii) (s : string) : string :=
  match s with
  | EmptyString => EmptyString
  | String e r => String (if Ascii.eqb e c then d else e) (replaceAll c d r)
  end.

Fixpoint repeat_char (c : ascii) (n : nat) : string :=
  match n with
  | O => EmptyString
  | S k => String c (repeat_char c k)
  end.

(** [s.padStart(n, c)] for a one-character filler. *)
Definition padStart (n : nat) (c : ascii) (s : string) : string :=
  repeat_char c (n - String.length s) +:+ s.

Definition lowerChar (c : ascii) : ascii :=
  let n := nat_of_ascii c in
  if ((65 <=? n)%nat && (n <=? 90)%nat)
     || ((192 <=? n)%nat && (n <=? 222)%nat && negb (n =? 215)%nat)
  then ascii_of_nat (n + 32) else c.

Fixpoint toLowerCase (s : string) : string :=
  match s with
  | EmptyString => EmptyString
  | String c r => String (lowerChar c) (toLowerCase r)
  end.

(** Longest prefix of decimal digits, and what follows it. *)
Fixpoint spanDigits (s : string) : string * string :=
  match s with
  | String c r =>
      if isDigit c then let '(d, rest) := spanDigits r in (String c d, rest)
      else (EmptyString, s)
  | EmptyString => (EmptyString, EmptyString)
  end.

Fixpoint digitsValue (acc : Z) (s : string) : Z :=
  match s with
  | EmptyString => acc
  | String c r => digitsValue (10 * acc + digitValue c)%Z r
  end.

(** Longest prefix of hexadecimal digits, read as a number. *)
Fixpoint hexPrefix (acc : option Z) (s : string) : option Z :=
  match s with
  | String c r =>
      match hexValue c with
      | Some d => hexPrefix (Some (16 * default 0 acc + d)%Z) r
      | None => acc
      end
  | EmptyString => acc
  end.

Definition splitSign (s : string) : bool * string :=
  match s with
  | String "-" r => (true, r)
  | String "+" r => (false, r)
  | _ => (false, s)
  end.

(** [parseInt(s)] with no radix: [None] is [NaN], [Some z] the integer read
    (before its conversion to a double). *)
Definition parseInt (s : string) : option Z :=
  let '(neg, t) := splitSign (trimStart s) in
  let magnitude :=
    match t with
    | String "0" (String x r) =>
        if Ascii.eqb x "x" || Ascii.eqb x "X" then hexPrefix None r
        else Some (digitsValue 0%Z (fst (spanDigits t)))
    | _ =>
        match spanDigits t with
        | (EmptyString, _) => None
        | (d, _) => Some (digitsValue 0%Z d)
        end
    end in
  (fun m => if neg then (- m)%Z else m) <$> magnitude.

(** *** Numbers *)

Inductive number : Type :=
  | NaN
  | Inf (negative : bool)
  | Fin (q : Q).

(** The number a decimal literal [mantissa * 10^exponent] denotes. *)
Definition decimal (neg : bool) (mantissa : Z) (exponent : Z) : number :=
  let m := if neg then (- mantissa)%Z else mantissa in
  Fin (Qred (if (0 <=? exponent)%Z
             then Qmake (m * 10 ^ exponent)%Z 1
             else Qmake m (Pos.pow 10 (Z.to_pos (- exponent))))).

(** The exponent part [e[+-]ddd] of a decimal literal; 0 when there is none. *)
Definition exponentPart (s : string) : Z :=
  match s with
  | String c r =>
      if Ascii.eqb c "e" || Ascii.eqb c "E" then
        let '(neg, d) := splitSign r in
        match spanDigits d with
        | (EmptyString, _) => 0%Z
        | (ds, _) => if neg then (- digitsValue 0 ds)%Z else digitsValue 0%Z ds
        end
      else 0%Z
  | EmptyString => 0%Z
  end.

(** [parseFloat(s)]: the longest prefix of the trimmed text that is a
    [StrDecimalLiteral], or [NaN]. *)
Definition parseFloat (s : string) : number :=
  let '(neg, t) := splitSign (trimStart s) in
  if String.prefix "Infinity" t then Inf neg else
  let '(ip, r1) := spanDigits t in
  let '(fp, r2) :=
    match r1 with
    | String "." r => spanDigits r
    | _ => (EmptyString, r1)
    end in
  match ip, fp with
  | EmptyString, EmptyString => NaN
  | _, _ =>
      decimal neg (digitsValue 0%Z (ip +:+ fp))
              (exponentPart r2 - Z.of_nat (String.length fp))%Z
  end.

Definition isNaN (n : number) : bool :=
  match n with NaN => true | _ => false end.

(** *** Values *)

Inductive value : Type :=
  | VUndefined
  | VNull
  | VBool (b : bool)
  | VNum (n : number)
  | VStr (s : string)
  | VObj (json : string).

(** [ToBoolean]. *)
Definition truthy (v : value) : bool :=
  match v with
  | VUndefined | VNull => false
  | VBool b => b
  | VNum NaN => false
  | VNum (Inf _) => true
  | VNum (Fin q) => negb (Qeq_bool q 0)
  | VStr s => negb (String.eqb s "")
  | VObj _ => true
  end.

(** [a || b]. *)
Definition orElse (a b : value) : value := if truthy a then a else b.

(** [v !== 'text']. *)
Definition strictNeqStr (v : value) (text : string) : bool :=
  match v with
  | VStr s => negb (String.eqb s text)
  | _ => true
  end.

(** [a / b] for integers [0 < a] and [0 < b] below 2^53, which a double
    holds exactly: the double nearest to the quotient, ties to the even
    mantissa, as the pair [(m, e)] of value [m * 2^e] with
    [2^52 <= m <= 2^53]. *)
Definition divide (a b : Z) : Z * Z :=
  let scaled (e : Z) : Z * Z :=
    if (e <? 0)%Z then ((a * 2 ^ (- e))%Z, b) else (a, (b * 2 ^ e)%Z) in
  let e0 := (Z.log2 a - Z.log2 b - 52)%Z in
  let e := if (fst (scaled e0) <? snd (scaled e0) * 2 ^ 52)%Z then (e0 - 1)%Z else e0 in
  let '(num, den) := scaled e in
  let m0 := (num / den)%Z in
  let r := (num mod den)%Z in
  let up := (den <? 2 * r)%Z || ((2 * r =? den)%Z && Z.odd m0) in
  (if up then (m0 + 1)%Z else m0, e).

(** [(a / b).toFixed(1)] for integers [0 <= a] and [0 < b] below 2^53:
    the tenths nearest to the exact value of the double [a / b], the larger
    one of two that are equally near. *)
Definition quotientToFixed1 (a b : Z) : string :=
  if (a =? 0)%Z then "0.0"
  else
    let '(m, e) := divide a b in
    let tenths :=
      if (e <? 0)%Z then ((20 * m + 2 ^ (- e)) / 2 ^ (1 - e))%Z
      else (10 * m * 2 ^ e)%Z in
    pretty (tenths / 10)%Z +:+ "." +:+ pretty (tenths mod 10)%Z.

(** A thrown [Error] with its message, or a returned value. *)
Inductive outcome (A : Type) : Type :=
  | Throw (message : string)
  | Return (a : A).
Arguments Throw {A} message.
Arguments Return {A} a.

End JS.

Import JS.

(** [outcome] is the error monad of synchronous code. *)
#[export] Instance outcome_ret : MRet outcome := fun _ a => Return a.
#[export] Instance outcome_bind : MBind outcome := fun _ _ f m =>
  match m with
  | Throw e => Throw e
  | Return a => f a
  end.

Fixpoint mapOutcome {A B : Type} (f : A -> outcome B) (l : list A) : outcome (list B) :=
  match l with
  | [] => Return []
  | x :: r =>
      match f x with
      | Throw e => Throw e
      | Return y =>
          match mapOutcome f r with
          | Throw e => Throw e
          | Return ys => Return (y :: ys)
          end
      end
  end.

(** ** The process record

    The object literal built per table row by [extractTableData]; the ETL
    mapping builds an object with the same 28 keys. *)

Inductive Field : Type :=
  | F_id_proceso | F_nombre_entidad | F_entidad_nombre | F_fecha_publicacion
  | F_nomenclatura | F_reiniciado_desde | F_objeto_contratacion
  | F_descripcion_objeto | F_codigo_snip | F_estado_proceso | F_tipo_proceso
  | F_url_proceso | F_source_url | F_pagina_scraping | F_numero_convocatoria
  | F_entidad_ruc | F_codigo_cui | F_departamento | F_provincia | F_distrito
  | F_monto_referencial | F_moneda | F_rubro | F_version_seace
  | F_fecha_scraping | F_requiere_visita_previa | F_datos_ocds
  | F_fecha_limite_presentacion.

#[export] Instance Field_eq_dec : EqDecision Field.
Proof. solve_decision. Defined.

Record Proceso : Type := mkProceso {
  id_proceso : value;
  nombre_entidad : value;
  entidad_nombre : value;
  fecha_publicacion : value;
  nomenclatura : value;
  reiniciado_desde : value;
  objeto_contratacion : value;
  descripcion_objeto : value;
  codigo_snip : value;
  estado_proceso : value;
  tipo_proceso : value;
  url_proceso : value;
  source_url : value;
  pagina_scraping : value;
  numero_convocatoria : value;
  entidad_ruc : value;
  codigo_cui : value;
  departamento : value;
  provincia : value;
  distrito : value;
  monto_referencial : value;
  moneda : value;
  rubro : value;
  version_seace : value;
  fecha_scraping : value;
  requiere_visita_previa : value;
  datos_ocds : value;
  fecha_limite_presentacion : value
}.

(** [proceso[key]]. *)
Definition get (f : Field) (p : Proceso) : value :=
  match f with
  | F_id_proceso => id_proceso p
  | F_nombre_entidad => nombre_entidad p
  | F_entidad_nombre => entidad_nombre p
  | F_fecha_publicacion => fecha_publicacion p
  | F_nomenclatura => nomenclatura p
  | F_reiniciado_desde => reiniciado_desde p
  | F_objeto_contratacion => objeto_contratacion p
  | F_descripcion_objeto => descripcion_objeto p
  | F_codigo_snip => codigo_snip p
  | F_estado_proceso => estado_proceso p
  | F_tipo_proceso => tipo_proceso p
  | F_url_proceso => url_proceso p
  | F_source_url => source_url p
  | F_pagina_scraping => pagina_scraping p
  | F_numero_convocatoria => numero_convocatoria p
  | F_entidad_ruc => entidad_ruc p
  | F_codigo_cui => codigo_cui p
  | F_departamento => departamento p
  | F_provincia => provincia p
  | F_distrito => distrito p
  | F_monto_referencial => monto_referencial p
  | F_moneda => moneda p
  | F_rubro => rubro p
  | F_version_seace => version_seace p
  | F_fecha_scraping => fecha_scraping p
  | F_requiere_visita_previa => requiere_visita_previa p
  | F_datos_ocds => datos_ocds p
  | F_fecha_limite_presentacion => fecha_limite_presentacion p
  end.

(** The object whose value at every key [f] is [g f]. *)
Definition build (g : Field -> value) : Proceso :=
  {| id_proceso := g F_id_proceso;
     nombre_entidad := g F_nombre_entidad;
     entidad_nombre := g F_entidad_nombre;
     fecha_publicacion := g F_fecha_publicacion;
     nomenclatura := g F_nomenclatura;
     reiniciado_desde := g F_reiniciado_desde;
     objeto_contratacion := g F_objeto_contratacion;
     descripcion_objeto := g F_descripcion_objeto;
     codigo_snip := g F_codigo_snip;
     estado_proceso := g F_estado_proceso;
     tipo_proceso := g F_tipo_proceso;
     url_proceso := g F_url_proceso;
     source_url := g F_source_url;
     pagina_scraping := g F_pagina_scraping;
     numero_convocatoria := g F_numero_convocatoria;
     entidad_ruc := g F_entidad_ruc;
     codigo_cui := g F_codigo_cui;
     departamento := g F_departamento;
     provincia := g F_provincia;
     distrito := g F_distrito;
     monto_referencial := g F_monto_referencial;
     moneda := g F_moneda;
     rubro := g F_rubro;
     version_seace := g F_version_seace;
     fecha_scraping := g F_fecha_scraping;
     requiere_visita_previa := g F_requiere_visita_previa;
     datos_ocds := g F_datos_ocds;
     fecha_limite_presentacion := g F_fecha_limite_presentacion |}.

(** [proceso[f] = v]. *)
Definition assign (f : Field) (v : value) (p : Proceso) : Proceso :=
  build (fun g => if decide (g = f) then v else get g p).

(** [Object.keys(proceso).forEach(key => proceso[key] = h(proceso[key]))]. *)
Definition forEachKey (h : value -> value) (p : Proceso) : Proceso :=
  build (fun g => h (get g p)).

(** ** RecordNormalizer: [SeaceScraper.normalizeProcesoData] *)

Module Normalizer.

(** What Node's clock and random generator answer during one call. *)
Record NodeEnv : Type := {
  Date_now : string;              (* [Date.now()], printed *)
  Math_random36 : string;         (* [Math.random().toString(36).substr(2, 9)] *)
  toISOString_now : string;       (* [new Date().toISOString()] *)
  getFullYear_now : string        (* [new Date().getFullYear().toString()] *)
}.

(** Step 1.  The [try] block around the date code turns the [TypeError] of
    [trim] on a value that is no string into [null]. *)
Definition normalizeFecha (fecha_publicacion : value) : value :=
  if truthy fecha_publicacion then
    match fecha_publicacion with
    | VStr text =>
        let parts := split " " (trim text) in
        let fecha := default "" (parts !! 0%nat) in
        let hora :=
          match parts !! 1%nat with
          | Some h => if String.eqb h "" then "00:00:00" else h
          | None => "00:00:00"
          end in
        match split "/" fecha with
        | dia :: mes :: anio :: _ =>
            if truthy (VStr dia) && truthy (VStr mes) && truthy (VStr anio)
            then VStr (anio +:+ "-" +:+ padStart 2 "0" mes +:+ "-"
                            +:+ padStart 2 "0" dia +:+ " " +:+ hora)
            else fecha_publicacion
        | _ => fecha_publicacion
        end
    | _ => VNull
    end
  else VNull.

(** Step 2. *)
Definition normalizeMonto (monto_referencial : value) : value :=
  if truthy monto_referencial
     && strictNeqStr monto_referencial "---"
     && strictNeqStr monto_referencial "N/A"
  then
    match monto_referencial with
    | VStr text =>
        let valorLimpio := trim (replaceAll "," "." (removeAll "." text)) in
        let montoNumero := parseFloat valorLimpio in
        if isNaN montoNumero then VNull else VNum montoNumero
    | _ => VNull
    end
  else VNull.

(** [!v || v.trim() === ''], which throws on a truthy value that is no
    string. *)
Definition missingOrBlank (v : value) : outcome bool :=
  if negb (truthy v) then Return true
  else match v with
       | VStr s => Return (String.eqb (trim s) "")
       | _ => Throw "TypeError: trim is not a function"
       end.

(** Step 5, per key. *)
Definition blankToNull (v : value) : value :=
  match v with
  | VStr s => if String.eqb (trim s) "" then VNull else v
  | _ => v
  end.

(** The [logger] calls of the source leave the record untouched and are
    left out. *)
Definition normalizeProcesoData (env : NodeEnv) (proceso : Proceso) : outcome Proceso :=
  let proceso := assign F_fecha_publicacion (normalizeFecha (fecha_publicacion proceso)) proceso in
  let proceso := assign F_monto_referencial (normalizeMonto (monto_referencial proceso)) proceso in
  no_moneda ← missingOrBlank (moneda proceso);
  let proceso := if no_moneda : bool then assign F_moneda (VStr "Soles") proceso else proceso in
  no_version ← missingOrBlank (version_seace proceso);
  let proceso := if no_version : bool then assign F_version_seace (VStr "3") proceso else proceso in
  let proceso := forEachKey blankToNull proceso in
  let proceso :=
    if negb (truthy (id_proceso proceso))
    then assign F_id_proceso
           (VStr ("PROC-" +:+ Date_now env +:+ "-" +:+ Math_random36 env)) proceso
    else proceso in
  let proceso :=
    if negb (truthy (nombre_entidad proceso))
    then assign F_nombre_entidad (VStr "Entidad Desconocida") proceso
    else proceso in
  mret proceso.

End Normalizer.

Import Normalizer.

(** ** PaginatedExtractor, the in-page script of [extractTableData] *)

Module Table.

(** What the script reads of a [td] element. *)
Record Cell : Type := {
  textContent : string;
  links : nat;      (* [cell.querySelectorAll('a').length] *)
  images : nat      (* [cell.querySelectorAll('img').length] *)
}.

(** What one evaluation of the script reads of the page: the rows matched by
    the table selectors (primary selector, then the [ui-datatable] fallback)
    with their [td] cells, the address of the page, and the clock and random
    readings taken while row [index] is processed. *)
Record Snapshot : Type := {
  rows : list (list Cell);
  location_href : string;
  page_Date_now : nat -> string;
  page_random36 : nat -> string;
  page_toISOString : nat -> string
}.

Definition getCleanText (cell : option Cell) : value :=
  match cell with
  | None => VNull
  | Some cell =>
      if (0 <? links cell)%nat || (0 <? images cell)%nat then
        let text := VStr (trim (textContent cell)) in
        if truthy text && strictNeqStr text " " then text else VNull
      else orElse (VStr (trim (textContent cell))) VNull
  end.

(** [value && !isNaN(parseInt(value))], as a condition. *)
Definition isNumber (v : value) : bool :=
  truthy v &&
  match v with
  | VStr s => match parseInt s with Some _ => true | None => false end
  | _ => false
  end.

Definition lowerEquals (v : value) (label : string) : bool :=
  match v with
  | VStr s => String.eqb (toLowerCase s) label
  | _ => false
  end.

Definition isNotHeader (nombre_entidad : value) : bool :=
  truthy nombre_entidad
  && negb (lowerEquals nombre_entidad "nombre o sigla de la entidad")
  && negb (lowerEquals nombre_entidad "entidad").

Definition hasDescriptionLength (descripcion_objeto : value) : bool :=
  truthy descripcion_objeto &&
  match descripcion_objeto with
  | VStr s => (10 <=? String.length s)%nat
  | _ => false
  end.

(** The body of [rows.forEach((row, index) => ...)]: the record pushed onto
    [results], or [None] when the row is skipped.  The [console.info] after
    the push names an undeclared variable; its [ReferenceError] is caught by
    the [catch] of the same body, after the record was pushed. *)
Definition extractRow (page : Snapshot) (index : nat) (cells : list Cell) : option Proceso :=
  if (length cells <? 7)%nat then None else
  let numero_orden := getCleanText (cells !! 0%nat) in
  let nombre_entidad := getCleanText (cells !! 1%nat) in
  let fecha_publicacion := getCleanText (cells !! 2%nat) in
  let nomenclatura := getCleanText (cells !! 3%nat) in
  let reiniciado_desde := getCleanText (cells !! 4%nat) in
  let objeto_contratacion := getCleanText (cells !! 5%nat) in
  let descripcion_objeto := getCleanText (cells !! 6%nat) in
  let codigo_snip := getCleanText (cells !! 7%nat) in
  let monto_referencial_text := getCleanText (cells !! 8%nat) in
  let moneda := getCleanText (cells !! 9%nat) in
  let version_seace := getCleanText (cells !! 10%nat) in
  let isValidNumber := isNumber numero_orden in
  if negb isValidNumber || negb (isNotHeader nombre_entidad)
     || negb (hasDescriptionLength descripcion_objeto)
  then None else
  let idProceso :=
    orElse nomenclatura
       (VStr ("PROC-" +:+ page_Date_now page index +:+ "-"
                      +:+ pretty index +:+ "-" +:+ page_random36 page index)) in
  Some {|
    id_proceso := idProceso;
    nombre_entidad := nombre_entidad;
    entidad_nombre := nombre_entidad;
    fecha_publicacion := fecha_publicacion;
    nomenclatura := nomenclatura;
    reiniciado_desde := reiniciado_desde;
    objeto_contratacion := objeto_contratacion;
    descripcion_objeto := descripcion_objeto;
    codigo_snip := orElse codigo_snip VNull;
    estado_proceso := VStr "Publicado";
    tipo_proceso := VNull;
    url_proceso := VNull;
    source_url := VStr (location_href page);
    pagina_scraping := VStr (location_href page);
    numero_convocatoria := nomenclatura;
    entidad_ruc := VNull;
    codigo_cui := VNull;
    departamento := VNull;
    provincia := VNull;
    distrito := VNull;
    monto_referencial :=
      if truthy monto_referencial_text && strictNeqStr monto_referencial_text "---"
      then monto_referencial_text else VNull;
    moneda := orElse moneda (VStr "Soles");
    rubro := objeto_contratacion;
    version_seace := orElse version_seace (VStr "3");
    fecha_scraping := VStr (page_toISOString page index);
    requiere_visita_previa := VBool false;
    datos_ocds := VNull;
    fecha_limite_presentacion := VNull
  |}.

(** [rows.forEach] from row [index] on: the records pushed, in row order. *)
Fixpoint extractFrom (page : Snapshot) (index : nat) (rs : list (list Cell)) : list Proceso :=
  match rs with
  | [] => []
  | cells :: rest =>
      match extractRow page index cells with
      | Some proceso => proceso :: extractFrom page (S index) rest
      | None => extractFrom page (S index) rest
      end
  end.

(** The value the script returns. *)
Definition script (page : Snapshot) : list Proceso := extractFrom page 0 (rows page).

End Table.

Import Table.

(** ** Browser-driven code: a state and error monad *)

Module Driver.

Inductive Level : Type := Info | Warn | Error | Debug.

Definition LogEntry : Type := Level * string.

Definition Handle : Type := nat.

Record TabFound : Type := {
  found : bool;
  clicked : bool;
  tab_text : string
}.

Record PageInfo : Type := {
  hasNext : bool;
  currentPage : nat;
  totalPages : nat;
  paginatorText : string
}.

Record AfterInfo : Type := {
  after_paginatorText : string;
  rowCount : nat
}.

(** The calls the scraper makes on Puppeteer.  An [Eval...] call is one
    [page.evaluate] of the script written at that place of the source.
    The messages handed to [logger] are abridged: quotation marks and some
    interpolated details are dropped. *)
Inductive Op : Type -> Type :=
  | Launch : Op unit
  | NewPage : Op unit
  | SetViewport : Op unit
  | SetUserAgent : Op unit
  | CloseBrowser : Op unit
  | Goto (url : string) : Op unit
  | WaitForTimeout (ms : N) : Op unit
  | WaitForSelector (selector : string) (timeout : N) : Op unit
  | WaitForPaginatorChange (beforeText : string) (timeout : N) : Op unit
  | Query (selector : string) : Op (option Handle)
  | IsIntersectingViewport (element : Handle) : Op bool
  | ScrollIntoView (element : Handle) : Op unit
  | Focus (selector : string) : Op unit
  | KeyDown (key : string) : Op unit
  | KeyPress (key : string) : Op unit
  | KeyUp (key : string) : Op unit
  | KeyType (text : string) : Op unit
  | Select (selector : string) (val : string) : Op unit
  | EvalFindTab : Op TabFound
  | EvalClickAnyTab : Op bool
  | EvalSelectOption (selector : string) (val : string) : Op bool
  | EvalClick (selector : string) : Op bool
  | EvalTable : Op Snapshot
  | EvalPageInfo : Op PageInfo
  | EvalPaginatorText : Op string
  | EvalClickNext : Op bool
  | EvalAfterInfo : Op AfterInfo.

(** How a piece of code ends: it returns, it throws, or (for the loop of
    the model only) the iteration bound given to it is used up. *)
Inductive completion (A : Type) : Type :=
  | Normal (a : A)
  | Abrupt (message : string)
  | Unfinished.
Arguments Normal {A} a.
Arguments Abrupt {A} message.
Arguments Unfinished {A}.

Section Monad.

(** The remote page and browser, whatever they are, and how they answer. *)
Context {World : Type}.
Variable browser : forall A, Op A -> World -> outcome A * World.

Record State : Type := mkState {
  world : World;
  log : list LogEntry;
  this_browser : bool       (* [this.browser] is set *)
}.

Definition M (A : Type) : Type := State -> completion A * State.

Definition ret {A} (a : A) : M A := fun st => (Normal a, st).

Definition bind {A B} (m : M A) (f : A -> M B) : M B := fun st =>
  match m st with
  | (Normal a, st') => f a st'
  | (Abrupt e, st') => (Abrupt e, st')
  | (Unfinished, st') => (Unfinished, st')
  end.

Definition throw {A} (message : string) : M A := fun st => (Abrupt message, st).

Definition unfinished {A} : M A := fun st => (Unfinished, st).

(** [try { body } catch (err) { handler(err.message) }]. *)
Definition try_catch {A} (body : M A) (handler : string -> M A) : M A := fun st =>
  match body st with
  | (Abrupt e, st') => handler e st'
  | r => r
  end.

(** [await] of one Puppeteer call. *)
Definition call {A} (op : Op A) : M A := fun st =>
  match browser A op (world st) with
  | (Return a, w) => (Normal a, mkState w (log st) (this_browser st))
  | (Throw e, w) => (Abrupt e, mkState w (log st) (this_browser st))
  end.

Definition logger (lvl : Level) (text : string) : M unit := fun st =>
  (Normal tt, mkState (world st) (log st ++ [(lvl, text)]) (this_browser st)).

Definition set_this_browser (b : bool) : M unit := fun st =>
  (Normal tt, mkState (world st) (log st) b).

Definition get_this_browser : M bool := fun st => (Normal (this_browser st), st).

(** A synchronous call that may throw. *)
Definition lift {A} (o : outcome A) : M A :=
  match o with
  | Return a => ret a
  | Throw e => throw e
  end.

Definition when (b : bool) (m : M unit) : M unit := if b then m else ret tt.

End Monad.

#[export] Instance M_ret {World} : MRet (@M World) := @ret World.
#[export] Instance M_bind {World} : MBind (@M World) := fun _ _ f m => bind m f.

End Driver.

Import Driver.

(** ** FormDriver and PaginatedExtractor: [SeaceScraper] *)

(** Selectors are written without their inner quotation marks. *)

Module Scraper.

Definition i_acute : string := String "237" EmptyString.

(** [valorMap[valor]] of [selectObjetoContratacion]. *)
Definition valorMap (valor : string) : option string :=
  if String.eqb valor "bien" then Some "62"
  else if String.eqb valor "consultoria" then Some "63"
  else if String.eqb valor ("consultor" +:+ i_acute +:+ "a") then Some "63"
  else if String.eqb valor "obra" then Some "64"
  else if String.eqb valor "servicio" then Some "65"
  else if String.eqb valor "Bien" then Some "62"
  else if String.eqb valor ("Consultor" +:+ i_acute +:+ "a de Obra") then Some "63"
  else if String.eqb valor "Servicio" then Some "65"
  else None.

Record SearchParams : Type := {
  keywords : list string;
  objetoContratacion : string;
  anio : string;
  maxProcesses : option Z;          (* [None] is [null] *)
  entidad : option string;
  tipoProceso : option string;
  fechaDesde : option string;
  fechaHasta : option string
}.

(** [maxProcesses && ...]: the cap is a number other than 0. *)
Definition capSet (maxProcesses : option Z) : bool :=
  match maxProcesses with
  | Some m => negb (m =? 0)%Z
  | None => false
  end.

(** [allResults.slice(0, m)]. *)
Definition slice0 {A} (m : Z) (l : list A) : list A :=
  if (m <? 0)%Z then take (Z.to_nat (Z.of_nat (length l) + m)) l
  else take (Z.to_nat m) l.

(** The four ways out of the page loop. *)
Inductive LoopExit : Type :=
  | GuardFalse        (* the [while] condition is false *)
  | EmptyPage         (* [pageResults.length === 0] *)
  | LimitReached      (* [maxProcesses && allResults.length >= maxProcesses] *)
  | NoMorePages.      (* [!hasMorePages] *)

Record LoopResult : Type := {
  exit : LoopExit;
  allResults : list Proceso;
  totalPagesProcessed : nat;
  lastPage : nat
}.

Section Scraper.

Context {World : Type}.
Variable browser : forall A, Op A -> World -> outcome A * World.
Variable node : NodeEnv.

#[local] Abbreviation M := (@Driver.M World).
#[local] Abbreviation call := (Driver.call browser).

Definition initialize : M unit :=
  try_catch
    (logger Info "Inicializando Puppeteer...";;
     call Launch;;
     set_this_browser true;;
     call NewPage;;
     call SetViewport;;
     call SetUserAgent;;
     logger Info "Scraper inicializado correctamente")
    (fun err =>
       logger Error ("Error al inicializar scraper: " +:+ err);;
       throw err).

Definition selectProcedimientosSeleccion : M unit :=
  try_catch
    (logger Info "Seleccionando pestaña Procedimientos de Selección...";;
     tabFound ← call EvalFindTab;
     if found tabFound then
       if clicked tabFound then
         logger Info ("Pestaña encontrada y clickeada: " +:+ tab_text tabFound);;
         call (WaitForTimeout 2000%N)
       else
         logger Info ("Pestaña ya está activa: " +:+ tab_text tabFound)
     else
       anyTabClicked ← call EvalClickAnyTab;
       if anyTabClicked : bool then
         logger Info "Tab clickeado usando fallback";;
         call (WaitForTimeout 2000%N)
       else
         logger Warn "No se pudo seleccionar la pestaña Procedimientos de Selección")
    (fun err => logger Warn ("Error seleccionando pestaña: " +:+ err)).

Definition scrollIfHidden (element : Handle) (isVisible : bool) : M unit :=
  when (negb isVisible)
    (call (ScrollIntoView element);; call (WaitForTimeout 500%N)).

Definition selectObjetoContratacion (valor : string) : M unit :=
  let selector := "select[id=tbBuscador:idFormBuscarProceso:j_idt201_input]" in
  try_catch
    (logger Info ("Seleccionando Objeto de Contratación: " +:+ valor);;
     element ← call (Query selector);
     match element with
     | Some element =>
         logger Info ("Elemento select encontrado: " +:+ selector);;
         isVisible ← call (IsIntersectingViewport element);
         logger Info "¿Elemento visible?";;
         scrollIfHidden element isVisible;;
         let valorSeleccion := default valor (valorMap valor) in
         logger Info ("Valor mapeado: " +:+ valorSeleccion);;
         success ← call (EvalSelectOption selector valorSeleccion);
         if success : bool then
           logger Info ("Objeto de Contratación seleccionado exitosamente: " +:+ valor);;
           call (WaitForTimeout 1000%N)
         else
           logger Warn ("La evaluación de selección falló para: " +:+ valorSeleccion);;
           logger Warn ("No se pudo seleccionar Objeto de Contratación: " +:+ valor)
     | None =>
         logger Warn ("No se encontró el elemento select con selector: " +:+ selector);;
         logger Warn ("No se pudo seleccionar Objeto de Contratación: " +:+ valor)
     end)
    (fun err => logger Warn ("Error seleccionando Objeto de Contratación: " +:+ err)).

(** Select all and delete, as typed on the keyboard. *)
Definition clearField : M unit :=
  call (KeyDown "Control");;
  call (KeyPress "a");;
  call (KeyUp "Control");;
  call (KeyPress "Backspace");;
  call (WaitForTimeout 200%N).

Definition fillDescripcion (texto : string) : M unit :=
  let selector := "input[id=tbBuscador:idFormBuscarProceso:descripcionObjeto]" in
  try_catch
    (logger Info ("Ingresando descripción: " +:+ texto);;
     element ← call (Query selector);
     match element with
     | Some element =>
         logger Info ("Elemento input descripción encontrado: " +:+ selector);;
         isVisible ← call (IsIntersectingViewport element);
         logger Info "¿Elemento input visible?";;
         scrollIfHidden element isVisible;;
         call (Focus selector);;
         call (WaitForTimeout 200%N);;
         clearField;;
         call (KeyType texto);;
         logger Info ("Descripción ingresada: " +:+ texto);;
         call (WaitForTimeout 1000%N)
     | None =>
         logger Warn ("No se encontró el elemento input con selector: " +:+ selector)
     end)
    (fun err => logger Warn ("Error ingresando descripción: " +:+ err)).

Definition selectAnio (anio : string) : M unit :=
  let selector := "select[id=tbBuscador:idFormBuscarProceso:anioConvocatoria_input]" in
  try_catch
    (logger Info ("Seleccionando año: " +:+ anio);;
     element ← call (Query selector);
     match element with
     | Some element =>
         isVisible ← call (IsIntersectingViewport element);
         scrollIfHidden element isVisible;;
         call (Select selector anio);;
         logger Info ("Año seleccionado: " +:+ anio);;
         call (WaitForTimeout 1000%N)
     | None =>
         logger Warn ("No se pudo seleccionar año: " +:+ anio)
     end)
    (fun err => logger Warn ("Error seleccionando año: " +:+ err)).

(** The helper [setFecha] of [setFechaPublicacion]. *)
Definition setFecha (selector fecha label : string) : M bool :=
  try_catch
    (element ← call (Query selector);
     match element with
     | Some element =>
         logger Info ("Elemento encontrado: " +:+ label);;
         isVisible ← call (IsIntersectingViewport element);
         scrollIfHidden element isVisible;;
         call (Focus selector);;
         call (WaitForTimeout 200%N);;
         clearField;;
         call (KeyType fecha);;
         logger Info (label +:+ " configurada: " +:+ fecha);;
         call (WaitForTimeout 500%N);;
         mret true
     | None =>
         logger Warn ("No se encontró el elemento " +:+ label);;
         mret false
     end)
    (fun err =>
       logger Warn ("Error configurando " +:+ label +:+ ": " +:+ err);;
       mret false).

Definition setFechaPublicacion (fechaDesde fechaHasta : string) : M bool :=
  let fechaDesdeSelector :=
    "input[id=tbBuscador:idFormBuscarProceso:fechaPublicacionDesde_input]" in
  let fechaHastaSelector :=
    "input[id=tbBuscador:idFormBuscarProceso:fechaPublicacionHasta_input]" in
  try_catch
    (logger Info ("Configurando fechas de publicación: " +:+ fechaDesde +:+ " - " +:+ fechaHasta);;
     desdeSuccess ← setFecha fechaDesdeSelector fechaDesde "Fecha Desde";
     hastaSuccess ← setFecha fechaHastaSelector fechaHasta "Fecha Hasta";
     if (desdeSuccess : bool) && (hastaSuccess : bool) then
       logger Info "Fechas de publicación configuradas exitosamente";;
       call (WaitForTimeout 1000%N);;
       mret true
     else
       logger Warn "No se pudieron configurar todas las fechas de publicación";;
       mret false)
    (fun err =>
       logger Warn ("Error configurando fechas de publicación: " +:+ err);;
       mret false).

Definition clickBuscar : M unit :=
  let selector := "button[id=tbBuscador:idFormBuscarProceso:btnBuscarSel]" in
  try_catch
    (logger Info "Haciendo click en buscar...";;
     element ← call (Query selector);
     match element with
     | Some element =>
         logger Info ("Elemento botón buscar encontrado: " +:+ selector);;
         isVisible ← call (IsIntersectingViewport element);
         logger Info "¿Elemento botón visible?";;
         scrollIfHidden element isVisible;;
         clickSuccess ← call (EvalClick selector);
         if clickSuccess : bool then
           logger Info "Click en buscar realizado exitosamente";;
           call (WaitForTimeout 2000%N)
         else
           logger Warn "No se pudo hacer click usando evaluate";;
           logger Warn "No se encontró botón de buscar"
     | None =>
         logger Warn ("No se encontró el elemento botón con selector: " +:+ selector);;
         logger Warn "No se encontró botón de buscar"
     end)
    (fun err => logger Error ("Error haciendo click en buscar: " +:+ err)).

Definition waitForResults (timeout : N) : M unit :=
  try_catch
    (logger Info "Esperando resultados...";;
     call (WaitForSelector "table[role=grid] tbody tr" timeout);;
     call (WaitForTimeout 2000%N);;
     logger Info "Tabla de resultados cargada")
    (fun err =>
       logger Error "Error esperando resultados";;
       throw "No se encontraron resultados en el tiempo esperado").

(** [extractTableData]: the in-page script, then [normalizeProcesoData] on
    every record; any error gives the empty list. *)
Definition extractTableData : M (list Proceso) :=
  try_catch
    (page ← call EvalTable;
     let data := Table.script page in
     logger Info ("Extraídos " +:+ pretty (length data) +:+ " procesos de la página actual con validaciones");;
     lift (mapOutcome (normalizeProcesoData node) data))
    (fun err =>
       logger Error "Error extrayendo datos de la tabla";;
       mret []).

Definition hasNextPage : M bool :=
  try_catch
    (pageInfo ← call EvalPageInfo;
     logger Info ("Estado de paginación: " +:+ paginatorText pageInfo);;
     mret (hasNext pageInfo))
    (fun err =>
       logger Warn "Error verificando siguiente página";;
       mret false).

Definition goToNextPage : M unit :=
  try_catch
    (logger Info "Navegando a la siguiente página...";;
     beforeInfo ← call EvalPaginatorText;
     call EvalClickNext;;
     call (WaitForTimeout 2000%N);;
     try_catch
       (call (WaitForPaginatorChange beforeInfo 10000%N))
       (fun e => logger Warn "No se pudo verificar cambio en paginador, continuando...");;
     call (WaitForSelector "table[role=grid] tbody tr[data-ri]" 30000%N);;
     call (WaitForTimeout 2000%N);;
     afterInfo ← call EvalAfterInfo;
     logger Info ("Navegación completada: " +:+ after_paginatorText afterInfo);;
     when (String.eqb (after_paginatorText afterInfo) beforeInfo)
       (logger Warn "El texto del paginador no cambió, posible problema de navegación"))
    (fun err =>
       logger Error "Error navegando a siguiente página";;
       throw err).

(** The [while] loop of [searchProcesses], bounded by [fuel] iterations. *)
Fixpoint extractPages (fuel : nat) (maxProcesses : option Z)
    (currentPage : nat) (hasMorePages : bool) (totalPagesProcessed : nat)
    (allResults : list Proceso) : M LoopResult :=
  let stop (why : LoopExit) (allResults : list Proceso) (pages : nat) : M LoopResult :=
    mret {| exit := why; allResults := allResults;
            totalPagesProcessed := pages; lastPage := currentPage |} in
  if hasMorePages &&
     match maxProcesses with
     | None => true
     | Some m => (Z.of_nat (length allResults) <? m)%Z
     end
  then
    match fuel with
    | O => unfinished
    | S fuel =>
        logger Info ("=== PROCESANDO PÁGINA " +:+ pretty currentPage +:+ " ===");;
        logger Info ("Procesos acumulados hasta ahora: "
                     +:+ (if capSet maxProcesses
                          then pretty (length allResults) +:+ "/"
                               +:+ pretty (default 0%Z maxProcesses)
                          else pretty (length allResults)));;
        pageResults ← extractTableData;
        if (length pageResults =? 0)%nat then
          logger Warn ("Página " +:+ pretty currentPage +:+ ": No se encontraron procesos. Posible problema de carga.");;
          stop EmptyPage allResults totalPagesProcessed
        else
          let allResults := allResults ++ pageResults in
          let totalPagesProcessed := S totalPagesProcessed in
          logger Info ("Página " +:+ pretty currentPage +:+ ": " +:+ pretty (length pageResults)
                       +:+ " procesos extraídos (Total acumulado: "
                       +:+ pretty (length allResults) +:+ ")");;
          if capSet maxProcesses
             && (default 0 maxProcesses <=? Z.of_nat (length allResults))%Z
          then
            logger Info ("Límite de " +:+ pretty (default 0%Z maxProcesses)
                         +:+ " procesos alcanzado. Deteniendo extracción.");;
            stop LimitReached allResults totalPagesProcessed
          else
            hasMorePages ← hasNextPage;
            if negb hasMorePages then
              logger Info "No hay más páginas disponibles. Extracción completada.";;
              stop NoMorePages allResults totalPagesProcessed
            else
              goToNextPage;;
              call (WaitForTimeout 1000%N);;
              extractPages fuel maxProcesses (S currentPage) hasMorePages
                           totalPagesProcessed allResults
    end
  else stop GuardFalse allResults totalPagesProcessed.

Definition baseUrl : string :=
  "https://prodapp2.seace.gob.pe/seacebus-uiwd-pub/buscadorPublico/buscadorPublico.xhtml".

(** [a || b] on a text that may be [null]. *)
Definition orText (a : option string) (b : string) : string :=
  match a with
  | Some s => if String.eqb s "" then b else s
  | None => b
  end.

(** [searchProcesses(params)], after the defaults of its parameter list
    were applied; [timeout] is [this.options.timeout]. *)
Definition searchProcesses (fuel : nat) (timeout : N) (params : SearchParams)
    : M (list Proceso) :=
  try_catch
    (has ← get_this_browser;
     when (negb has) initialize;;
     logger Info "Iniciando búsqueda en SEACE";;
     call (Goto baseUrl);;
     logger Info "Página SEACE cargada";;
     call (WaitForTimeout 3000%N);;
     selectProcedimientosSeleccion;;
     when (negb (String.eqb (objetoContratacion params) ""))
       (selectObjetoContratacion (objetoContratacion params));;
     when (negb (String.eqb (anio params) "")) (selectAnio (anio params));;
     let fechaInicio := orText (fechaDesde params) (anio params +:+ "-01-01") in
     let fechaFin := orText (fechaHasta params) (anio params +:+ "-12-31") in
     setFechaPublicacion fechaInicio fechaFin;;
     let descripcionTexto := String.concat " " (keywords params) in
     when (negb (String.eqb descripcionTexto "")
           && negb (String.eqb (trim descripcionTexto) ""))
       (fillDescripcion descripcionTexto);;
     clickBuscar;;
     waitForResults timeout;;
     logger Info "Iniciando extracción de páginas...";;
     r ← extractPages fuel (maxProcesses params) 1 true 0 [];
     logger Info "=== EXTRACCIÓN COMPLETADA ===";;
     logger Info ("Total de páginas procesadas: " +:+ pretty (totalPagesProcessed r));;
     logger Info ("Total de procesos extraídos: " +:+ pretty (length (allResults r)));;
     logger Info ("Procesos por página promedio: "
                  +:+ (if (0 <? totalPagesProcessed r)%nat
                       then quotientToFixed1 (Z.of_nat (length (allResults r)))
                              (Z.of_nat (totalPagesProcessed r))
                       else "0"));;
     mret (if capSet (maxProcesses params)
           then slice0 (default 0%Z (maxProcesses params)) (allResults r)
           else allResults r))
    (fun err =>
       logger Error ("Error durante scraping: " +:+ err);;
       throw err).

Definition close : M unit :=
  try_catch
    (has ← get_this_browser;
     when has
       (call CloseBrowser;;
        set_this_browser false;;
        logger Info "Browser cerrado"))
    (fun err => logger Error "Error cerrando browser").

End Scraper.

End Scraper.

(** ** IngestionStore and JobOrchestrator: the ETL service *)

Module ETL.

(** The parameter object of a job; [None] is a key that is [null] or
    missing. *)
Record JobParams : Type := {
  keywords : option (list string);
  objetoContratacion : option string;
  anio : option string;
  maxProcesses : option Z;
  entidad : option string;
  tipoProceso : option string
}.

(** [n || d] on a number that may be [null]. *)
Definition orNumber (n : option Z) (d : option Z) : option Z :=
  match n with
  | Some m => if (m =? 0)%Z then d else n
  | None => d
  end.

(** The table [procesos], keyed by its unique column [id_proceso].  A row
    holds the 28 columns the mapping writes; the columns the database fills
    by itself are left out. *)
Abbreviation Store := (gmap string Proceso).

(** The calls made on the Sequelize model [Proceso]. *)
Inductive DbCall : Type :=
  | FindOne (id : value)
  | FindOrCreate (defaults : Proceso)
  | Update (id : string) (values : Proceso).

Inductive ExportFormat : Type := Txt | Json | Csv.

Record ETLLogRow : Type := {
  status : string;
  message : string;
  process_count : nat;
  inserted_count : nat;
  updated_count : nat;
  error_count : nat
}.

(** The variables of the persistence loop. *)
Record Persist : Type := mkPersist {
  store : Store;
  savedCount : nat;
  updateCount : nat;
  errorCount : nat;
  errorDetails : list (value * string);
  newProcessesInserted : nat
}.

Section ETL.

Variable node : NodeEnv.

(** Which calls the database rejects, and with what error. *)
Variable db_error : DbCall -> Store -> option string.

Definition mapScrapeDataToProcesoSchema (procesoData : Proceso) : Proceso :=
  {| id_proceso := id_proceso procesoData;
     nombre_entidad := orElse (nombre_entidad procesoData) VNull;
     entidad_nombre := orElse (entidad_nombre procesoData) VNull;
     fecha_publicacion := orElse (fecha_publicacion procesoData) VNull;
     nomenclatura := orElse (nomenclatura procesoData) VNull;
     reiniciado_desde := orElse (reiniciado_desde procesoData) VNull;
     objeto_contratacion := orElse (objeto_contratacion procesoData) VNull;
     descripcion_objeto := orElse (descripcion_objeto procesoData) VNull;
     estado_proceso := orElse (estado_proceso procesoData) (VStr "Publicado");
     tipo_proceso := orElse (tipo_proceso procesoData) VNull;
     url_proceso := orElse (url_proceso procesoData) VNull;
     source_url := orElse (source_url procesoData) VNull;
     pagina_scraping := orElse (pagina_scraping procesoData) VNull;
     numero_convocatoria := orElse (numero_convocatoria procesoData) VNull;
     entidad_ruc := orElse (entidad_ruc procesoData) VNull;
     codigo_snip := orElse (codigo_snip procesoData) VNull;
     codigo_cui := orElse (codigo_cui procesoData) VNull;
     departamento := orElse (departamento procesoData) VNull;
     provincia := orElse (provincia procesoData) VNull;
     distrito := orElse (distrito procesoData) VNull;
     monto_referencial := orElse (monto_referencial procesoData) VNull;
     moneda := orElse (moneda procesoData) (VStr "Soles");
     rubro := orElse (rubro procesoData) VNull;
     fecha_scraping := orElse (fecha_scraping procesoData) (VStr (toISOString_now node));
     fecha_limite_presentacion := orElse (fecha_limite_presentacion procesoData) VNull;
     version_seace := orElse (version_seace procesoData) (VStr "3");
     requiere_visita_previa := orElse (requiere_visita_previa procesoData) (VBool false);
     datos_ocds := orElse (datos_ocds procesoData) VNull |}.

(** The default written after [||] for each key; [id_proceso] has none. *)
Definition schemaDefault (f : Field) : option value :=
  match f with
  | F_id_proceso => None
  | F_estado_proceso => Some (VStr "Publicado")
  | F_moneda => Some (VStr "Soles")
  | F_fecha_scraping => Some (VStr (toISOString_now node))
  | F_version_seace => Some (VStr "3")
  | F_requiere_visita_previa => Some (VBool false)
  | _ => Some VNull
  end.

(** [Proceso.findOne({ where: { id_proceso } })]. *)
Definition findOne (id : value) (db : Store) : outcome (option (string * Proceso)) :=
  match db_error (FindOne id) db with
  | Some e => Throw e
  | None =>
      match id with
      | VStr k => Return (pair k <$> db !! k)
      | _ => Return None
      end
  end.

(** [Proceso.findOrCreate({ where: { id_proceso }, defaults })]: the row,
    whether it was created, and the table afterwards.  The identifier is a
    text column: another kind of value is rejected. *)
Definition findOrCreate (defaults : Proceso) (db : Store)
    : outcome (string * bool * Store) :=
  match db_error (FindOrCreate defaults) db with
  | Some e => Throw e
  | None =>
      match id_proceso defaults with
      | VStr k =>
          match db !! k with
          | Some _ => Return (k, false, db)
          | None => Return (k, true, <[k := defaults]> db)
          end
      | _ => Throw "SequelizeDatabaseError: id_proceso"
      end
  end.

(** [row.update(values)] on the row stored under [k]. *)
Definition update (k : string) (values : Proceso) (db : Store) : outcome Store :=
  match db_error (Update k values) db with
  | Some e => Throw e
  | None => Return (<[k := values]> db)
  end.

(** The insert-or-update of one record: map, require [id_proceso],
    [findOrCreate], and [update] when the row existed.  Returns [created]
    and the table afterwards. *)
Definition upsert (procesoData : Proceso) (db : Store) : outcome (bool * Store) :=
  let procesoMapeado := mapScrapeDataToProcesoSchema procesoData in
  if negb (truthy (id_proceso procesoMapeado)) then Throw "id_proceso es requerido"
  else
    '(k, created, db) ← findOrCreate procesoMapeado db;
    if created : bool then mret (true, db)
    else db ← update k procesoMapeado db; mret (false, db).

(** [maxNewProcesses && newProcessesInserted >= maxNewProcesses]. *)
Definition limitReached (maxNewProcesses : option Z) (newProcessesInserted : nat) : bool :=
  match maxNewProcesses with
  | Some m => negb (m =? 0)%Z && (m <=? Z.of_nat newProcessesInserted)%Z
  | None => false
  end.

(** What the [try] block of the loop body does to the loop variables. *)
Definition tryPersist (maxNewProcesses : option Z) (st : Persist) (procesoData : Proceso)
    : outcome Persist :=
  if limitReached maxNewProcesses (newProcessesInserted st) then
    existingProceso ← findOne (id_proceso procesoData) (store st);
    match existingProceso with
    | Some (k, _) =>
        let procesoMapeado := mapScrapeDataToProcesoSchema procesoData in
        db ← update k procesoMapeado (store st);
        mret (mkPersist db (savedCount st) (S (updateCount st)) (errorCount st)
                        (errorDetails st) (newProcessesInserted st))
    | None => mret st
    end
  else
    '(created, db) ← upsert procesoData (store st);
    if created : bool then
      mret (mkPersist db (S (savedCount st)) (updateCount st) (errorCount st)
                      (errorDetails st) (S (newProcessesInserted st)))
    else
      mret (mkPersist db (savedCount st) (S (updateCount st)) (errorCount st)
                      (errorDetails st) (newProcessesInserted st)).

(** One iteration of [for (const procesoData of results)]. *)
Definition persistOne (maxNewProcesses : option Z) (st : Persist) (procesoData : Proceso)
    : Persist :=
  match tryPersist maxNewProcesses st procesoData with
  | Return st' => st'
  | Throw err =>
      mkPersist (store st) (savedCount st) (updateCount st) (S (errorCount st))
                (errorDetails st ++ [(id_proceso procesoData, err)])
                (newProcessesInserted st)
  end.

(** What one iteration of the persistence loop can do. *)
Inductive step (cap : option Z) (st : Persist) (p : Proceso) : Persist -> Prop :=
  | step_error (err : string) :
      step cap st p
        (mkPersist (store st) (savedCount st) (updateCount st)
           (S (errorCount st))
           (errorDetails st ++ [(id_proceso p, err)])
           (newProcessesInserted st))
  | step_insert (k : string) :
      limitReached cap (newProcessesInserted st) = false ->
      id_proceso p = VStr k ->
      store st !! k = None ->
      step cap st p
        (mkPersist (<[k := mapScrapeDataToProcesoSchema p]> (store st)) (S (savedCount st))
           (updateCount st) (errorCount st) (errorDetails st)
           (S (newProcessesInserted st)))
  | step_update (k : string) :
      id_proceso p = VStr k ->
      is_Some (store st !! k) ->
      step cap st p
        (mkPersist (<[k := mapScrapeDataToProcesoSchema p]> (store st)) (savedCount st)
           (S (updateCount st)) (errorCount st) (errorDetails st)
           (newProcessesInserted st))
  | step_skip :
      limitReached cap (newProcessesInserted st) = true ->
      step cap st p st.

Definition persistStart (db : Store) : Persist := mkPersist db 0 0 0 [] 0.

(** The loop variables under a cap of [N] new records, from the table
    [db]: at most [N] inserts were counted, every insert was counted as new,
    and the table has grown by the inserts. *)
Definition underCap (N : Z) (db : Store) (st : Persist) : Prop :=
  (Z.of_nat (newProcessesInserted st) <= N)%Z
  /\ savedCount st = newProcessesInserted st
  /\ size (store st) = (size db + savedCount st)%nat.

(** The whole loop. *)
Definition persistAll (maxNewProcesses : option Z) (results : list Proceso) (db : Store)
    : Persist :=
  foldl (persistOne maxNewProcesses) (persistStart db) results.

Definition completedLog (st : Persist) (total : nat) : ETLLogRow :=
  {| status := "completed";
     message := "Scraping completado: " +:+ pretty (savedCount st) +:+ " NUEVOS, "
                +:+ pretty (updateCount st) +:+ " actualizados, "
                +:+ pretty (errorCount st) +:+ " errores (Total procesado: "
                +:+ pretty total +:+ ")";
     process_count := savedCount st + updateCount st;
     inserted_count := savedCount st;
     updated_count := updateCount st;
     error_count := errorCount st |}.

(** The columns the failing update does not write are shown as 0. *)
Definition failedLog (err : string) : ETLLogRow :=
  {| status := "failed";
     message := "Error en scraping: " +:+ err;
     process_count := 0;
     inserted_count := 0;
     updated_count := 0;
     error_count := 1 |}.

Context {World : Type}.
Variable browser : forall A, Op A -> World -> outcome A * World.

#[local] Abbreviation M := (@Driver.M World).

(** [exportService], which is not part of the sources at hand: each export
    returns its [success] flag or throws. *)
Variable exportService : ExportFormat -> list Proceso -> outcome bool.

(** The parameter object handed to [scraper.searchProcesses]. *)
Definition searchParams (params : JobParams) : Scraper.SearchParams :=
  {| Scraper.keywords := default ["software"] (keywords params);
     Scraper.objetoContratacion := Scraper.orText (objetoContratacion params) "Servicio";
     Scraper.anio := Scraper.orText (anio params) (getFullYear_now node);
     Scraper.maxProcesses := orNumber (maxProcesses params) (Some 100%Z);
     Scraper.entidad := entidad params;
     Scraper.tipoProceso := tipoProceso params;
     Scraper.fechaDesde := None;
     Scraper.fechaHasta := None |}.

Definition exportAll (results : list Proceso) : M unit :=
  when (0 <? length results)%nat
    (txtExport ← lift (exportService Txt results);
     when txtExport (logger Info "Datos extraídos exportados a TXT");;
     jsonExport ← lift (exportService Json results);
     when jsonExport (logger Info "Datos extraídos exportados a JSON");;
     csvExport ← lift (exportService Csv results);
     when csvExport (logger Info "Datos extraídos exportados a CSV")).

(** The scraping part of [performScraping]: [new SeaceScraper()] has the
    default timeout of 90000 ms. *)
Definition scrape (fuel : nat) (params : JobParams) : M (list Proceso) :=
  Scraper.initialize browser;;
  logger Info "Scraper inicializado";;
  Scraper.searchProcesses browser node fuel 90000%N (searchParams params).

(** [performScraping]: the row written to the ETL log and the table
    afterwards.  The [finally] block closes the scraper on every path. *)
Definition performScraping (fuel : nat) (params : JobParams) (db : Store)
    : M (ETLLogRow * Store) :=
  r ← try_catch
        (results ← scrape fuel params;
         logger Info ("Scraping completado: " +:+ pretty (length results) +:+ " procesos encontrados");;
         exportAll results;;
         logger Info "=== INICIANDO GUARDADO EN BD ===";;
         let maxNewProcesses := orNumber (maxProcesses params) None in
         let final := persistAll maxNewProcesses results db in
         logger Info "=== RESUMEN DE GUARDADO EN BD ===";;
         mret (completedLog final (length results), store final))
        (fun err =>
           logger Error ("Error durante scraping: " +:+ err);;
           mret (failedLog err, db));
  Scraper.close browser;;
  mret r.

End ETL.

End ETL.

(** ** A paged result table, as a concrete browser *)

Module Paged.

Definition cell (text : string) : Cell :=
  {| textContent := text; links := 0; images := 0 |}.

(** A result row with the given ordinal, publication date and amount
    texts; [n] numbers its entity, nomenclature and description. *)
Definition rowOf (ordinal fecha monto : string) (n : nat) : list Cell :=
  cell <$> [ ordinal;
             "MUNICIPALIDAD DISTRITAL " +:+ pretty n;
             fecha;
             "AS-SM-" +:+ pretty n +:+ "-2025";
             "";
             "Servicio";
             "SERVICIO DE DESARROLLO DE SOFTWARE " +:+ pretty n;
             "";
             monto;
             "Soles";
             "3";
             "" ].

(** Row number [n] of the result table. *)
Definition row (n : nat) : list Cell :=
  rowOf (pretty n) "09/10/2025 14:30" "1.234.567,89" n.

(** [count] pages of [perPage] rows each, numbered from [first]. *)
Fixpoint pagesFrom (first perPage count : nat) : list (list (list Cell)) :=
  match count with
  | O => []
  | S k => (row <$> seq first perPage) :: pagesFrom (first + perPage) perPage k
  end.

(** The page shown and the pages after it; whether the search form has its
    controls; whether the results table ever appears. *)
Record World : Type := {
  pages : list (list (list Cell));
  controls : bool;
  tableAppears : bool
}.

Definition shown (w : World) : Snapshot :=
  {| rows := default [] (head (pages w));
     location_href := Scraper.baseUrl;
     page_Date_now := fun _ => "1760020200000";
     page_random36 := fun _ => "k3j5x0q2z";
     page_toISOString := fun _ => "2025-10-09T14:30:00.000Z" |}.

Definition position (w : World) : string := "Pagina: " +:+ pretty (length (pages w)).

Definition next (w : World) : World :=
  {| pages := tail (pages w); controls := controls w; tableAppears := tableAppears w |}.

Definition browser (A : Type) (op : Op A) (w : World) : outcome A * World :=
  match op in Op T return outcome T * World with
  | Launch | NewPage | SetViewport | SetUserAgent | CloseBrowser => (Return tt, w)
  | Goto _ | WaitForTimeout _ | ScrollIntoView _ | Focus _ => (Return tt, w)
  | KeyDown _ | KeyPress _ | KeyUp _ | KeyType _ | Select _ _ => (Return tt, w)
  | WaitForPaginatorChange _ _ => (Return tt, w)
  | WaitForSelector _ _ =>
      if tableAppears w then (Return tt, w)
      else (Throw "TimeoutError: waiting for selector failed", w)
  | Query _ => (Return (if controls w then Some 0%nat else None), w)
  | IsIntersectingViewport _ => (Return true, w)
  | EvalFindTab =>
      (Return {| found := controls w; clicked := false;
                 tab_text := "Buscar Procedimientos" |}, w)
  | EvalClickAnyTab => (Return false, w)
  | EvalSelectOption _ _ | EvalClick _ => (Return (controls w), w)
  | EvalTable => (Return (shown w), w)
  | EvalPageInfo =>
      (Return {| hasNext := (2 <=? length (pages w))%nat;
                 currentPage := 1; totalPages := length (pages w);
                 paginatorText := position w |}, w)
  | EvalPaginatorText => (Return (position w), w)
  | EvalClickNext =>
      if (2 <=? length (pages w))%nat then (Return true, next w) else (Return false, w)
  | EvalAfterInfo =>
      (Return {| after_paginatorText := position w;
                 rowCount := length (default [] (head (pages w))) |}, w)
  end.

(** Pages after the one shown. *)
Definition pagesLeft (w : World) : nat := length (pages w) - 1.

Definition node : NodeEnv :=
  {| Date_now := "1760020200000";
     Math_random36 := "a1b2c3d4e";
     toISOString_now := "2025-10-09T14:31:00.000Z";
     getFullYear_now := "2025" |}.

Definition start (w : World) : State := mkState w [] false.

(** A source of [count] pages of [perPage] matching rows. *)
Definition source (perPage count : nat) : World :=
  {| pages := pagesFrom 1 perPage count; controls := true; tableAppears := true |}.

(** A page whose search form has lost its controls. *)
Definition withoutControls : World :=
  {| pages := pagesFrom 1 2 1; controls := false; tableAppears := true |}.

Definition job (cap : option Z) : ETL.JobParams :=
  {| ETL.keywords := Some ["software"];
     ETL.objetoContratacion := Some "servicio";
     ETL.anio := Some "2025";
     ETL.maxProcesses := cap;
     ETL.entidad := None;
     ETL.tipoProceso := None |}.

(** The page showing the rows [rs] only. *)
Definition showing (rs : list (list Cell)) : World :=
  {| pages := [rs]; controls := true; tableAppears := true |}.

(** What [extractTableData] makes of a page showing the rows [rs]. *)
Definition scraped (rs : list (list Cell)) : outcome (list Proceso) :=
  mapOutcome (normalizeProcesoData node) (Table.script (shown (showing rs))).

(** The record the in-page script makes of row 1, and its normal form. *)
Definition raw1 : Proceso :=
  Eval vm_compute in
    default (build (fun _ => VNull)) (head (Table.script (shown (showing [row 1])))).

Definition normal1 : Proceso :=
  Eval vm_compute in
    match normalizeProcesoData node raw1 with
    | Return q => q
    | Throw _ => raw1
    end.

(** The records the scraping part of a job with the cap [cap] returns on
    the page source [w]; empty when it throws. *)
Definition scrapedBy (fuel : nat) (cap : option Z) (w : World) : list Proceso :=
  match fst (ETL.scrape node browser fuel (job cap) (start w)) with
  | Normal results => results
  | _ => []
  end.

(** A database that accepts every call, and exports that succeed. *)
Definition accepts : ETL.DbCall -> gmap string Proceso -> option string := fun _ _ => None.
Definition exports : ETL.ExportFormat -> list Proceso -> outcome bool := fun _ _ => Return true.

End Paged.


(** ** The vocabulary of the specification *)

Module Spec.

(** The trimmed text of column [k] of a row; empty when the row has no
    such column. *)
Definition cellText (cells : list Cell) (k : nat) : string :=
  match cells !! k with
  | Some c => trim (textContent c)
  | None => ""
  end.

(** A trimmed cell text as [getCleanText] hands it on. *)
Definition textValue (t : string) : value :=
  if String.eqb t "" then VNull else VStr t.

(** The row checks of the specification, with the ordinal check as the
    code makes it: [parseInt] reads a number off the first column. *)
Definition validRow (cells : list Cell) : bool :=
  (7 <=? length cells)%nat
  && bool_decide (is_Some (parseInt (cellText cells 0)))
  && negb (String.eqb (cellText cells 1) "")
  && negb (String.eqb (toLowerCase (cellText cells 1)) "nombre o sigla de la entidad")
  && negb (String.eqb (toLowerCase (cellText cells 1)) "entidad")
  && (10 <=? String.length (cellText cells 6))%nat.

(** The text [parseFloat] is given for an amount text. *)
Definition cleanAmount (text : string) : string :=
  trim (replaceAll "," "." (removeAll "." text)).

(** A number that is a non-negative decimal. *)
Definition nonNegativeDecimal (n : number) : Prop :=
  match n with
  | Fin q => (0 <= q)%Q
  | _ => False
  end.

End Spec.

Import Spec.

(** ** Properties of browser-driven code *)

Module Run.

Section Run.

Context {World : Type}.

(** The computation returns, whatever the state it starts in. *)
Definition returns {A} (m : @M World A) : Prop :=
  forall st, exists a st', m st = (Normal a, st').

(** The computation comes to an end, by a return or a throw, and does not
    raise the measure [mu] of the browser. *)
Definition tame (mu : World -> nat) {A} (m : @M World A) : Prop :=
  forall st, fst (m st) <> Unfinished
             /\ (mu (world (snd (m st))) <= mu (world st))%nat.

(** A finite page source: [pagesLeft] counts the pages after the one
    shown; no call brings pages back, a click on the next control goes one
    page on while pages are left, and the next control is reported enabled
    only while pages are left. *)
Record FiniteSource (browser : forall A, Op A -> World -> outcome A * World)
    (pagesLeft : World -> nat) : Prop := {
  source_calls : forall A (op : Op A) w,
    (pagesLeft (snd (browser A op w)) <= pagesLeft w)%nat;
  source_click : forall w,
    (0 < pagesLeft w)%nat ->
    (pagesLeft (snd (browser _ EvalClickNext w)) < pagesLeft w)%nat;
  source_next : forall w info w',
    browser _ EvalPageInfo w = (Return info, w') ->
    hasNext info = true -> (0 < pagesLeft w')%nat
}.

End Run.

(** The loop has stopped for one of the reasons the specification gives:
    no next page, a page without rows, or the cap reached. *)
Definition stoppedAsSpecified (maxProcesses : option Z) (r : Scraper.LoopResult) : Prop :=
  Scraper.exit r = Scraper.NoMorePages
  \/ Scraper.exit r = Scraper.EmptyPage
  \/ exists m, maxProcesses = Some m
               /\ (m <= Z.of_nat (length (Scraper.allResults r)))%Z.

End Run.

Import Run.

(** ** Substring search and character classes *)

Module Text.

(** [hay.includes(needle)]. *)
Fixpoint includes (needle hay : string) : bool :=
  String.prefix needle hay
  || match hay with
     | String _ r => includes needle r
     | EmptyString => false
     end.

(** Every character of the text satisfies [P]. *)
Fixpoint allChars (P : ascii -> bool) (s : string) : bool :=
  match s with
  | EmptyString => true
  | String c r => P c && allChars P r
  end.

Definition a_acute : string := String "225" EmptyString.
Definition o_acute : string := String "243" EmptyString.

End Text.

Import Text.

(** ** The chatbot service: [isValidSeaceQuery] *)

Module Chatbot.

Definition keywords : list string :=
  [ "seace";
    "contrataci" +:+ o_acute +:+ "n";
    "licitaci" +:+ o_acute +:+ "n";
    "proceso";
    "adjudicaci" +:+ o_acute +:+ "n";
    "software";
    "sistema";
    "desarrollo";
    "tecnolog" +:+ Scraper.i_acute +:+ "a";
    "ti";
    "inform" +:+ a_acute +:+ "tica" ].

(** [keywords.some(keyword => lowerQuery.includes(keyword))]. *)
Definition isValidSeaceQuery (query : string) : bool :=
  let lowerQuery := toLowerCase query in
  existsb (fun keyword => includes keyword lowerQuery) keywords.

End Chatbot.

(** ** The recommendations service: when to generate, and the region score

    A date is its time value in milliseconds, an integer; [None] is a date
    column that is [null].  The frequency is a value of the column
    [notification_frequency]. *)

Module Recommendations.

Definition msPerDay : Z := 1000 * 60 * 60 * 24.

(** [shouldGenerateRecommendations(frequency, lastGenerated)], called when
    the clock reads [now]. *)
Definition shouldGenerateRecommendations (now : Z) (frequency : string)
    (lastGenerated : option Z) : bool :=
  match lastGenerated with
  | None => true
  | Some lastGeneratedDate =>
      let daysSinceLastGeneration := ((now - lastGeneratedDate) / msPerDay)%Z in
      if String.eqb frequency "diaria" then (1 <=? daysSinceLastGeneration)%Z
      else if String.eqb frequency "cada_3_dias" then (3 <=? daysSinceLastGeneration)%Z
      else if String.eqb frequency "semanal" then (7 <=? daysSinceLastGeneration)%Z
      else if String.eqb frequency "mensual" then (30 <=? daysSinceLastGeneration)%Z
      else false
  end.

(** The lookup object [days] of [calculateNextGeneration]. *)
Definition days (frequency : string) : option Z :=
  if String.eqb frequency "diaria" then Some 1%Z
  else if String.eqb frequency "cada_3_dias" then Some 3%Z
  else if String.eqb frequency "semanal" then Some 7%Z
  else if String.eqb frequency "mensual" then Some 30%Z
  else None.

(** The names the lookup object inherits from [Object.prototype]: under
    them it holds a function or an object, which is truthy and no number. *)
Definition inherited : list string :=
  [ "constructor"; "__proto__"; "hasOwnProperty"; "isPrototypeOf";
    "propertyIsEnumerable"; "toLocaleString"; "toString"; "valueOf";
    "__defineGetter__"; "__defineSetter__"; "__lookupGetter__"; "__lookupSetter__" ].

(** [calculateNextGeneration(frequency, lastGenerated)]; [None] is the
    invalid date that [new Date(NaN)] gives. *)
Definition calculateNextGeneration (frequency : string) (lastGenerated : Z) : option Z :=
  if existsb (String.eqb frequency) inherited then None
  else
    let daysToAdd := default 7%Z (days frequency) in
    Some (lastGenerated + daysToAdd * 24 * 60 * 60 * 1000)%Z.

(** The test of [generateRecommendations] that lets a generation go ahead:
    it is forced, or there was none before, or it is time again.  The
    frequency is [preferencia.notification_frequency || 'semanal']. *)
Definition generationGoesAhead (now : Z) (forceRegenerate : bool)
    (notification_frequency : option string) (lastGenerated : option Z) : bool :=
  if negb forceRegenerate then
    let frequency := Scraper.orText notification_frequency "semanal" in
    negb (bool_decide (is_Some lastGenerated)
          && negb (shouldGenerateRecommendations now frequency lastGenerated))
  else true.

(** [a.toLowerCase().includes(b.toLowerCase()) ||
     b.toLowerCase().includes(a.toLowerCase())]. *)
Definition eitherIncludes (a b : string) : bool :=
  includes (toLowerCase b) (toLowerCase a) || includes (toLowerCase a) (toLowerCase b).

(** [calculateRegionMatch(userRegions, procesoDepartamento, procesoProvincia)];
    [None] is [null]. *)
Definition calculateRegionMatch (userRegions : option (list string))
    (procesoDepartamento procesoProvincia : option string) : Q :=
  match userRegions with
  | None | Some [] => 5 # 10
  | Some userRegions =>
      match procesoDepartamento with
      | None | Some EmptyString => 0
      | Some procesoDepartamento =>
          if existsb (eitherIncludes procesoDepartamento) userRegions then 1
          else
            match procesoProvincia with
            | None | Some EmptyString => 0
            | Some procesoProvincia =>
                if existsb (eitherIncludes procesoProvincia) userRegions then 7 # 10
                else 0
            end
      end
  end.

(** A text column of a stored row, as the service reads it. *)
Definition column (v : value) : option string :=
  match v with
  | VStr s => Some s
  | _ => None
  end.

End Recommendations.

(** ** More vocabulary *)

Module More.

(** The identifier under which a record is stored. *)
Definition key (p : Proceso) : string :=
  match id_proceso p with
  | VStr k => k
  | _ => EmptyString
  end.

(** The record is identified by a non-empty text. *)
Definition textId (p : Proceso) : Prop :=
  exists k, id_proceso p = VStr k /\ k <> EmptyString.

(** A text of blanks only, the empty text included. *)
Definition blank (v : value) : Prop :=
  exists s, v = VStr s /\ trim s = EmptyString.

(** A part of a date: no white space and no slash in it. *)
Definition plainPart (s : string) : bool :=
  allChars (fun c => negb (isWhiteSpace c) && negb (Ascii.eqb c "/")) s.

(** A text without white space. *)
Definition solid (s : string) : bool :=
  allChars (fun c => negb (isWhiteSpace c)) s.

(** The computation throws, whatever the state it starts in. *)
Definition abrupts {World A} (m : @M World A) : Prop :=
  forall st, exists e st', m st = (Abrupt e, st').

(** The paged browser on a portal whose results table never appears:
    every wait for a selector runs into its timeout. *)
Definition stalled (A : Type) (op : Op A) (w : Paged.World) : outcome A * Paged.World :=
  match op in Op T return Op T -> outcome T * Paged.World with
  | WaitForSelector _ _ => fun _ => (Throw "TimeoutError: waiting for selector failed", w)
  | _ => fun op => Paged.browser _ op w
  end op.

(** What a search capped at 3 returns on two pages of two rows. *)
Definition found : list Proceso :=
  Eval vm_compute in
    match fst (Scraper.searchProcesses Paged.browser Paged.node 3 90000%N
                 (ETL.searchParams Paged.node (Paged.job (Some 3%Z)))
                 (Paged.start (Paged.source 2 2))) with
    | Normal results => results
    | _ => []
    end.

(** What the page loop returns on two pages of two rows, capped at 3. *)
Definition looped : Scraper.LoopResult :=
  Eval vm_compute in
    match fst (Scraper.extractPages Paged.browser Paged.node 3 (Some 3%Z) 1 true 0 []
                 (Paged.start (Paged.source 2 2))) with
    | Normal r => r
    | _ => {| Scraper.exit := Scraper.GuardFalse; Scraper.allResults := [];
              Scraper.totalPagesProcessed := 0; Scraper.lastPage := 0 |}
    end.

(** The records on page [k], counted from 0, of a page source, as
    [extractTableData] reads them. *)
Definition recordsOn (w : Paged.World) (k : nat) : list Proceso :=
  match Paged.scraped (default [] (Paged.pages w !! k)) with
  | Return l => l
  | Throw _ => []
  end.

(** Row 60 of the source of 3 pages of 40 rows, as an earlier run has
    stored it, when its description was another one. *)
Definition stale60 : Proceso :=
  assign F_descripcion_objeto (VStr "SERVICIO DE DESARROLLO DE SOFTWARE (CONVOCATORIA ANTERIOR)")
    (ETL.mapScrapeDataToProcesoSchema Paged.node
       (default Paged.normal1 (recordsOn (Paged.source 40 3) 1 !! 19%nat))).

(** The table that holds this row only. *)
Definition before : gmap string Proceso := {[ "AS-SM-60-2025" := stale60 ]}.

(** The clock on the next morning. *)
Definition afterwards : NodeEnv :=
  {| Date_now := "1760086800000";
     Math_random36 := "z9y8x7w6v";
     toISOString_now := "2025-10-10T09:00:00.000Z";
     getFullYear_now := "2025" |}.

(** The normal form of the normal form of row 1. *)
Definition normal2 : Proceso :=
  Eval vm_compute in
    match normalizeProcesoData Paged.node Paged.normal1 with
    | Return q => q
    | Throw _ => Paged.normal1
    end.

End More.

Import More.

(** * Properties *)

(** ** Strings *)

Lemma rev_onto_length (s acc : string) :
  String.length (rev_onto s acc) = (String.length s + String.length acc)%nat.
Proof.
  revert acc. induction s as [|c s IH]; intros acc; simpl; [done|].
  rewrite IH. simpl. lia.
Qed.

Lemma trimStart_head (s : string) (c : ascii) (r : string) :
  trimStart s = String c r -> isWhiteSpace c = false.
Proof.
  induction s as [|d s IH]; simpl; [done|].
  destruct (isWhiteSpace d) eqn:Hd; [exact IH|].
  intros [= <- _]. exact Hd.
Qed.

(** A trimmed text is never the single space. *)
Lemma trim_not_space (s : string) : trim s <> " ".
Proof.
  unfold trim, trimEnd.
  set (t := trimStart (reverseText (trimStart s))).
  intros H.
  assert (Hlen : String.length t = 1%nat).
  { apply (f_equal String.length) in H. unfold reverseText in H.
    rewrite rev_onto_length in H. simpl in H. lia. }
  destruct t as [|c [|d t']] eqn:Ht; simpl in Hlen; try lia.
  unfold reverseText in H. simpl in H. injection H as ->.
  apply trimStart_head in Ht. vm_compute in Ht. discriminate.
Qed.

Lemma eqb_empty_false (s : string) : s <> "" -> String.eqb s "" = false.
Proof. intros H. by apply String.eqb_neq. Qed.

(** ** RecordNormalizer *)

Lemma getCleanText_cellText (cells : list Cell) (k : nat) :
  getCleanText (cells !! k) =
  if String.eqb (cellText cells k) "" then VNull else VStr (cellText cells k).
Proof.
  unfold cellText, getCleanText. destruct (cells !! k) as [c|]; [|done].
  destruct ((0 <? links c)%nat || (0 <? images c)%nat).
  - simpl. destruct (String.eqb (trim (textContent c)) "") eqn:He; simpl; [done|].
    assert (Hs : String.eqb (trim (textContent c)) " " = false).
    { apply String.eqb_neq, trim_not_space. }
    by rewrite Hs.
  - unfold orElse. simpl. by destruct (String.eqb (trim (textContent c)) "").
Qed.

Lemma normalizeMonto_cases (v : value) :
  normalizeMonto v = VNull \/
  exists text n, v = VStr text /\ n = parseFloat (cleanAmount text)
                 /\ isNaN n = false /\ normalizeMonto v = VNum n.
Proof.
  unfold normalizeMonto.
  destruct (truthy v && strictNeqStr v "---" && strictNeqStr v "N/A"); [|by left].
  destruct v as [| |b|n|text|j]; try by left.
  cbv zeta. fold (cleanAmount text).
  destruct (isNaN (parseFloat (cleanAmount text))) eqn:Hn; [by left|].
  right. by exists text, (parseFloat (cleanAmount text)).
Qed.

Lemma blankToNull_normalizeMonto (v : value) :
  blankToNull (normalizeMonto v) = normalizeMonto v.
Proof.
  destruct (normalizeMonto_cases v) as [->|(text & n & _ & _ & _ & ->)]; done.
Qed.

Lemma get_build (g : Field -> value) (f : Field) : get f (build g) = g f.
Proof. by destruct f. Qed.

Lemma get_assign (f g : Field) (v : value) (p : Proceso) :
  get g (assign f v p) = if decide (g = f) then v else get g p.
Proof. unfold assign. apply get_build. Qed.

Lemma get_assign_if (b : bool) (f g : Field) (v : value) (p : Proceso) :
  g <> f -> get g (if b then assign f v p else p) = get g p.
Proof. intros H. destruct b; [|done]. rewrite get_assign. by case_decide. Qed.

Lemma get_forEachKey (h : value -> value) (g : Field) (p : Proceso) :
  get g (forEachKey h p) = h (get g p).
Proof. unfold forEachKey. apply get_build. Qed.

(** The amount field of a normalised record is the normalised amount text:
    the later steps of [normalizeProcesoData] leave it alone. *)
Lemma normalizeProcesoData_monto (env : NodeEnv) (p q : Proceso) :
  normalizeProcesoData env p = Return q ->
  monto_referencial q = normalizeMonto (monto_referencial p).
Proof.
  unfold normalizeProcesoData.
  set (p1 := assign F_monto_referencial _ _).
  destruct (missingOrBlank (moneda p1)) as [e|b1]; [done|]. cbn [mbind outcome_bind].
  set (p2 := if b1 then _ else _).
  destruct (missingOrBlank (version_seace p2)) as [e|b2]; [done|]. cbn [mbind outcome_bind].
  set (p3 := if b2 then _ else _).
  intros [= <-].
  change (monto_referencial ?x) with (get F_monto_referencial x).
  rewrite !get_assign_if, get_forEachKey by done.
  subst p3 p2. rewrite !get_assign_if by done.
  subst p1. rewrite !get_assign. simpl.
  apply blankToNull_normalizeMonto.
Qed.

(** Step 6: a normalised record has a truthy identifier. *)
Lemma normalizeProcesoData_id (env : NodeEnv) (p q : Proceso) :
  normalizeProcesoData env p = Return q -> truthy (id_proceso q) = true.
Proof.
  unfold normalizeProcesoData.
  set (p1 := assign F_monto_referencial _ _).
  destruct (missingOrBlank (moneda p1)) as [e|b1]; [done|]. cbn [mbind outcome_bind].
  set (p2 := if b1 then _ else _).
  destruct (missingOrBlank (version_seace p2)) as [e|b2]; [done|]. cbn [mbind outcome_bind].
  set (p3 := forEachKey blankToNull _).
  intros [= <-].
  change (id_proceso ?x) with (get F_id_proceso x).
  rewrite get_assign_if by done.
  match goal with
  | |- context [if ?c then assign F_id_proceso _ _ else _] => destruct c eqn:Hc
  end.
  - by rewrite get_assign.
  - apply negb_false_iff in Hc. exact Hc.
Qed.

Example normalizeFecha_with_time :
  normalizeFecha (VStr "09/10/2025 14:30") = VStr "2025-10-09 14:30".
Proof. reflexivity. Qed.

Example normalizeFecha_date_only :
  normalizeFecha (VStr "9/1/2025") = VStr "2025-01-09 00:00:00".
Proof. reflexivity. Qed.

Example normalizeFecha_with_seconds :
  normalizeFecha (VStr "09/10/2025 14:30:05") = VStr "2025-10-09 14:30:05".
Proof. reflexivity. Qed.

Example normalizeFecha_empty : normalizeFecha (VStr "") = VNull.
Proof. reflexivity. Qed.

Lemma missingOrBlank_text (s : string) : exists b, missingOrBlank (VStr s) = Return b.
Proof. unfold missingOrBlank. destruct (negb (truthy (VStr s))); eauto. Qed.

Lemma orElse_text (v : value) (d : string) :
  (v = VNull \/ exists s, v = VStr s) -> exists s, orElse v (VStr d) = VStr s.
Proof.
  intros [->|[s ->]]; [by exists d|].
  unfold orElse. destruct (truthy (VStr s)); eauto.
Qed.

Lemma getCleanText_text (cell : option Cell) :
  getCleanText cell = VNull \/ exists s, getCleanText cell = VStr s.
Proof.
  unfold getCleanText. destruct cell as [c|]; [|by left].
  destruct (_ || _).
  - destruct (_ && _); eauto.
  - unfold orElse. destruct (truthy _); eauto.
Qed.

(** A record made by the in-page script is normalised without an error:
    its currency and version are texts. *)
Lemma normalizeProcesoData_returns (env : NodeEnv) (page : Snapshot) (index : nat)
    (cells : list Cell) (p : Proceso) :
  extractRow page index cells = Some p ->
  exists q, normalizeProcesoData env p = Return q.
Proof.
  intros Hp.
  assert (Hm : exists s, moneda p = VStr s).
  { revert Hp. unfold extractRow.
    destruct (length cells <? 7)%nat; [done|]. destruct (_ || _ || _); [done|].
    intros [= <-]. simpl. apply orElse_text, getCleanText_text. }
  assert (Hv : exists s, version_seace p = VStr s).
  { revert Hp. unfold extractRow.
    destruct (length cells <? 7)%nat; [done|]. destruct (_ || _ || _); [done|].
    intros [= <-]. simpl. apply orElse_text, getCleanText_text. }
  destruct Hm as [m Hm], Hv as [v Hv].
  unfold normalizeProcesoData.
  set (p1 := assign F_monto_referencial _ _).
  assert (H1 : moneda p1 = VStr m).
  { change (get F_moneda p1 = VStr m). subst p1. by rewrite !get_assign. }
  rewrite H1. destruct (missingOrBlank_text m) as [b1 ->]. cbn [mbind outcome_bind].
  set (p2 := if b1 then _ else _).
  assert (H2 : exists v', version_seace p2 = VStr v').
  { exists v. change (get F_version_seace p2 = VStr v). subst p2 p1.
    rewrite get_assign_if by done. by rewrite !get_assign. }
  destruct H2 as [v' ->]. destruct (missingOrBlank_text v') as [b2 ->].
  cbn [mbind outcome_bind]. eauto.
Qed.

(** The identifier of a normalised record is the generated one or the
    identifier it came with. *)
Lemma normalizeProcesoData_id_cases (env : NodeEnv) (p q : Proceso) :
  normalizeProcesoData env p = Return q ->
  id_proceso q = VStr ("PROC-" +:+ Date_now env +:+ "-" +:+ Math_random36 env)
  \/ id_proceso q = blankToNull (id_proceso p).
Proof.
  unfold normalizeProcesoData.
  set (p1 := assign F_monto_referencial _ _).
  destruct (missingOrBlank (moneda p1)) as [e|b1]; [done|]. cbn [mbind outcome_bind].
  set (p2 := if b1 then _ else _).
  destruct (missingOrBlank (version_seace p2)) as [e|b2]; [done|]. cbn [mbind outcome_bind].
  set (p3 := forEachKey blankToNull _).
  intros [= <-].
  change (id_proceso ?x) with (get F_id_proceso x).
  rewrite get_assign_if by done.
  match goal with
  | |- context [if ?c then assign F_id_proceso _ _ else _] => destruct c
  end.
  - left. by rewrite get_assign.
  - right. subst p3. rewrite get_forEachKey, get_assign_if by done.
    subst p2. rewrite get_assign_if by done.
    subst p1. by rewrite !get_assign.
Qed.

(** The records [extractTableData] returns are identified by a non-empty
    text. *)
Lemma scraped_record_id (env : NodeEnv) (page : Snapshot) (index : nat)
    (cells : list Cell) (p q : Proceso) :
  extractRow page index cells = Some p ->
  normalizeProcesoData env p = Return q ->
  exists k, id_proceso q = VStr k /\ k <> "".
Proof.
  intros Hp Hq.
  assert (Hid : exists s, id_proceso p = VStr s).
  { revert Hp. unfold extractRow.
    destruct (length cells <? 7)%nat; [done|]. destruct (_ || _ || _); [done|].
    intros [= <-]. simpl. apply orElse_text, getCleanText_text. }
  destruct Hid as [s Hid].
  pose proof (normalizeProcesoData_id env p q Hq) as Ht.
  destruct (normalizeProcesoData_id_cases env p q Hq) as [H|H]; rewrite H in Ht |- *.
  - eexists. split; [done|]. discriminate.
  - rewrite Hid in Ht |- *. simpl in *.
    destruct (String.eqb (trim s) ""); [done|].
    exists s. split; [done|]. intros ->. done.
Qed.

(** C5 (the code departs from the claim).  The claim: date normalisation
    maps every unparsable publication date to null.  The code: the branch
    that rewrites the date has no [else], and [split] never throws, so a
    text without two slashes, such as "abc", is handed on unchanged; this
    holds for the field of the record that [extractTableData] returns
    for a table row carrying that text. *)
Theorem C5_unparsable_date_is_kept :
  normalizeFecha (VStr "abc") = VStr "abc"
  /\ exists p, Paged.scraped [Paged.rowOf "1" "abc" "100,00" 1] = Return [p]
               /\ fecha_publicacion p = VStr "abc".
Proof.
  split; [reflexivity|].
  eexists. split; [vm_compute; reflexivity|reflexivity].
Qed.

(** C6, as amended.  For every record that [normalizeProcesoData] returns,
    the amount is null or the number [parseFloat] reads off the amount text
    after the dots are removed, the commas made dots and the text trimmed;
    that number is never NaN but may be negative.  "1.234.567,89" gives
    1234567.89; "---", "N/A", the empty text and "abc" give null. *)
Theorem C6_amount_normalization (env : NodeEnv) (p q : Proceso)
    (Hq : normalizeProcesoData env p = Return q) :
  (monto_referencial q = VNull
   \/ exists text n, monto_referencial p = VStr text
                     /\ n = parseFloat (cleanAmount text)
                     /\ isNaN n = false
                     /\ monto_referencial q = VNum n)
  /\ normalizeMonto (VStr "1.234.567,89") = VNum (Fin (123456789 # 100))
  /\ normalizeMonto (VStr "---") = VNull
  /\ normalizeMonto (VStr "N/A") = VNull
  /\ normalizeMonto (VStr "") = VNull
  /\ normalizeMonto (VStr "abc") = VNull.
Proof.
  split; [|by repeat split].
  rewrite (normalizeProcesoData_monto env p q Hq).
  destruct (normalizeMonto_cases (monto_referencial p))
    as [H|(text & n & Hp & Hn & Hnan & H)]; [by left|].
  right. exists text, n. by rewrite H.
Qed.

Lemma C6_amount_normalization_witness :
  normalizeProcesoData Paged.node Paged.raw1 = Return Paged.normal1
  /\ (monto_referencial Paged.normal1 = VNull
      \/ exists text n, monto_referencial Paged.raw1 = VStr text
                        /\ n = parseFloat (cleanAmount text)
                        /\ isNaN n = false
                        /\ monto_referencial Paged.normal1 = VNum n).
Proof.
  split; [reflexivity|].
  apply (C6_amount_normalization Paged.node Paged.raw1 Paged.normal1).
  reflexivity.
Defined.

(** C6, the claim as stated fails: the amount text "-5" of a table row is
    normalised to the number -5, which is no non-negative decimal. *)
Lemma C6_negative_amount :
  exists p, Paged.scraped [Paged.rowOf "1" "09/10/2025" "-5" 1] = Return [p]
            /\ monto_referencial p = VNum (Fin (-5 # 1))
            /\ ~ nonNegativeDecimal (Fin (-5 # 1)).
Proof.
  eexists. split; [vm_compute; reflexivity|]. split; [reflexivity|].
  simpl. intros H. by vm_compute in H.
Qed.

(** ** PaginatedExtractor: row validation *)

Lemma isNumber_text (t : string) :
  isNumber (textValue t) = bool_decide (is_Some (parseInt t)).
Proof.
  unfold isNumber, textValue. destruct (String.eqb t "") eqn:He.
  - apply String.eqb_eq in He. by rewrite He.
  - simpl. rewrite He. simpl. by destruct (parseInt t).
Qed.

Lemma isNotHeader_text (t : string) :
  isNotHeader (textValue t) =
  negb (String.eqb t "")
  && negb (String.eqb (toLowerCase t) "nombre o sigla de la entidad")
  && negb (String.eqb (toLowerCase t) "entidad").
Proof.
  unfold isNotHeader, lowerEquals, textValue.
  destruct (String.eqb t "") eqn:He; [done|]. simpl. by rewrite He.
Qed.

Lemma hasDescriptionLength_text (t : string) :
  hasDescriptionLength (textValue t) = (10 <=? String.length t)%nat.
Proof.
  unfold hasDescriptionLength, textValue. destruct (String.eqb t "") eqn:He.
  - apply String.eqb_eq in He. by rewrite He.
  - cbn [truthy]. by rewrite He.
Qed.

Lemma extractRow_valid (page : Snapshot) (index : nat) (cells : list Cell) :
  is_Some (extractRow page index cells) <-> validRow cells = true.
Proof.
  unfold extractRow, validRow.
  rewrite !getCleanText_cellText.
  fold (textValue (cellText cells 0)) (textValue (cellText cells 1))
       (textValue (cellText cells 6)).
  rewrite isNumber_text, isNotHeader_text, hasDescriptionLength_text.
  destruct (length cells <? 7)%nat eqn:Hlen.
  - apply Nat.ltb_lt in Hlen.
    assert ((7 <=? length cells)%nat = false) as -> by (apply Nat.leb_gt; lia).
    split; [intros [? ?]; discriminate | discriminate].
  - apply Nat.ltb_ge in Hlen.
    assert ((7 <=? length cells)%nat = true) as -> by (by apply Nat.leb_le).
    set (b0 := bool_decide (is_Some (parseInt (cellText cells 0)))).
    set (n1 := negb (String.eqb (cellText cells 1) "")).
    set (n2 := negb (String.eqb (toLowerCase (cellText cells 1)) "nombre o sigla de la entidad")).
    set (n3 := negb (String.eqb (toLowerCase (cellText cells 1)) "entidad")).
    set (b6 := (10 <=? String.length (cellText cells 6))%nat).
    destruct b0, n1, n2, n3, b6; cbn [negb orb andb];
      first [ split; [done | intros _; eexists; reflexivity]
            | split; [intros [? ?]; discriminate | discriminate] ].
Qed.

Lemma extractFrom_length (page : Snapshot) (rs : list (list Cell)) (index : nat) :
  length (extractFrom page index rs) = length (filter (fun cells => validRow cells = true) rs).
Proof.
  revert index. induction rs as [|cells rs IH]; intros index; simpl; [done|].
  pose proof (extractRow_valid page index cells) as Hv.
  destruct (extractRow page index cells) as [p|] eqn:He.
  - rewrite filter_cons_True by (apply Hv; eauto). simpl. by rewrite IH.
  - rewrite filter_cons_False; [apply IH|].
    intros Hc. apply Hv in Hc. by destruct Hc.
Qed.

(** C7, as amended.  The in-page script keeps a row if and only if it has
    at least 7 columns, [parseInt] reads a number off its first column
    (of either sign, zero included), its entity name is present and is no
    header label, and its description has at least 10 characters; the
    script is a total function, so a failing row is left out without an
    error, and the records returned are as many as the rows kept. *)
Theorem C7_row_kept_iff (page : Snapshot) :
  (forall (index : nat) (cells : list Cell),
     is_Some (extractRow page index cells) <->
       (7 <= length cells)%nat
       /\ is_Some (parseInt (cellText cells 0))
       /\ cellText cells 1 <> ""
       /\ toLowerCase (cellText cells 1) <> "nombre o sigla de la entidad"
       /\ toLowerCase (cellText cells 1) <> "entidad"
       /\ (10 <= String.length (cellText cells 6))%nat)
  /\ length (Table.script page)
     = length (filter (fun cells => validRow cells = true) (rows page)).
Proof.
  split; [|apply extractFrom_length].
  intros index cells. rewrite extractRow_valid. unfold validRow.
  rewrite !andb_true_iff, !negb_true_iff, !String.eqb_neq, bool_decide_eq_true,
    !Nat.leb_le.
  tauto.
Qed.

(** C7, the claim as stated fails: a row whose first column is "0" has no
    positive ordinal, and the script keeps it. *)
Lemma C7_zero_ordinal_row_kept :
  parseInt "0" = Some 0%Z
  /\ is_Some (extractRow (Paged.shown (Paged.showing []))  0
                         (Paged.rowOf "0" "09/10/2025" "100,00" 1))
  /\ length (Table.script
               (Paged.shown (Paged.showing [Paged.rowOf "0" "09/10/2025" "100,00" 1])))
     = 1%nat.
Proof.
  split; [reflexivity|]. split; [|reflexivity].
  vm_compute. eauto.
Qed.

(** ** IngestionStore *)

Section Store.

Variable node : NodeEnv.
Variable db_error : ETL.DbCall -> gmap string Proceso -> option string.

#[local] Abbreviation mapped := (ETL.mapScrapeDataToProcesoSchema node).
#[local] Abbreviation upsert := (ETL.upsert node db_error).
#[local] Abbreviation persistOne := (ETL.persistOne node db_error).
#[local] Abbreviation persistAll := (ETL.persistAll node db_error).

Lemma orElse_truthy (a b : value) : truthy a = true -> orElse a b = a.
Proof. unfold orElse. by intros ->. Qed.

Lemma orElse_falsy (a b : value) : truthy a = false -> orElse a b = b.
Proof. unfold orElse. by intros ->. Qed.

(** The mapping keeps every truthy field. *)
Lemma mapped_truthy (p : Proceso) (f : Field) :
  truthy (get f p) = true -> get f (mapped p) = get f p.
Proof. destruct f; simpl; intros H; by rewrite ?orElse_truthy. Qed.

(** The mapping puts the default in place of every falsy field but the
    identifier, which it copies. *)
Lemma mapped_falsy (p : Proceso) (f : Field) (d : value) :
  ETL.schemaDefault node f = Some d -> truthy (get f p) = false ->
  get f (mapped p) = d.
Proof. destruct f; simpl; intros [= <-] H; by rewrite orElse_falsy. Qed.

Lemma mapped_id (p : Proceso) : id_proceso (mapped p) = id_proceso p.
Proof. reflexivity. Qed.

Lemma persistOne_step (cap : option Z) (st : ETL.Persist) (p : Proceso) :
  ETL.step node cap st p (persistOne cap st p).
Proof.
  unfold ETL.persistOne, ETL.tryPersist.
  destruct (ETL.limitReached cap (ETL.newProcessesInserted st)) eqn:Hl.
  - unfold ETL.findOne.
    destruct (db_error (ETL.FindOne (id_proceso p)) (ETL.store st)); [constructor|].
    destruct (id_proceso p) as [| |b|n|k|j] eqn:Hid; cbn; try (destruct st; by constructor).
    destruct (ETL.store st !! k) as [row|] eqn:Hk; cbn; [|destruct st; by constructor].
    unfold ETL.update.
    destruct (db_error (ETL.Update k (mapped p)) (ETL.store st)); cbn.
    + rewrite <- Hid. constructor.
    + apply ETL.step_update; [done|]. rewrite Hk. eauto.
  - unfold ETL.upsert. rewrite mapped_id.
    destruct (truthy (id_proceso p)); cbn; [|constructor].
    unfold ETL.findOrCreate. rewrite mapped_id.
    destruct (db_error (ETL.FindOrCreate (mapped p)) (ETL.store st)); cbn; [constructor|].
    destruct (id_proceso p) as [| |b|n|k|j] eqn:Hid; cbn;
      try (rewrite <- Hid; constructor).
    destruct (ETL.store st !! k) as [row|] eqn:Hk; cbn.
    + unfold ETL.update.
      destruct (db_error (ETL.Update k (mapped p)) (ETL.store st)); cbn.
      * rewrite <- Hid. constructor.
      * apply ETL.step_update; [done|]. rewrite Hk. eauto.
    + by apply ETL.step_insert.
Qed.

Lemma limitReached_cap (N : Z) (n : nat) :
  (1 <= N)%Z -> ETL.limitReached (Some N) n = (N <=? Z.of_nat n)%Z.
Proof.
  intros HN. unfold ETL.limitReached.
  assert ((N =? 0)%Z = false) as -> by (apply Z.eqb_neq; lia). done.
Qed.

Lemma orNumber_cap (N : Z) : (1 <= N)%Z -> ETL.orNumber (Some N) None = Some N.
Proof.
  intros HN. unfold ETL.orNumber.
  assert ((N =? 0)%Z = false) as -> by (apply Z.eqb_neq; lia). done.
Qed.

Section Cap.

Variable N : Z.
Hypothesis HN : (1 <= N)%Z.
Variable db : gmap string Proceso.

#[local] Abbreviation inv := (ETL.underCap N db).

Lemma inv_start : inv (ETL.persistStart db).
Proof. unfold ETL.underCap. simpl. split; [lia|]. split; [done|lia]. Qed.

Lemma inv_step (st : ETL.Persist) (p : Proceso) :
  inv st -> inv (persistOne (Some N) st p).
Proof.
  intros (Hle & Hsaved & Hsize).
  destruct (persistOne_step (Some N) st p) as [err|k Hl Hid Hk|k Hid Hk|Hl];
    unfold ETL.underCap; simpl.
  - done.
  - rewrite limitReached_cap in Hl by done. apply Z.leb_gt in Hl.
    rewrite map_size_insert_None by done. split; [lia|]. split; lia.
  - rewrite map_size_insert_Some by done. done.
  - done.
Qed.

Lemma inv_loop (l : list Proceso) (st : ETL.Persist) :
  inv st -> inv (foldl (persistOne (Some N)) st l).
Proof.
  revert st. induction l as [|p l IH]; intros st Hst; simpl; [done|].
  apply IH, inv_step, Hst.
Qed.

(** Once [N] records were inserted, a row updates a stored record or does
    nothing to the table. *)
Lemma full_step (st : ETL.Persist) (p : Proceso) :
  (N <= Z.of_nat (ETL.newProcessesInserted st))%Z ->
  ETL.savedCount (persistOne (Some N) st p) = ETL.savedCount st
  /\ ETL.newProcessesInserted (persistOne (Some N) st p) = ETL.newProcessesInserted st
  /\ dom (ETL.store (persistOne (Some N) st p)) = dom (ETL.store st)
  /\ (ETL.store (persistOne (Some N) st p) = ETL.store st
      \/ exists k, id_proceso p = VStr k /\ is_Some (ETL.store st !! k)
                   /\ ETL.store (persistOne (Some N) st p)
                      = <[k := mapped p]> (ETL.store st)).
Proof.
  intros Hfull.
  destruct (persistOne_step (Some N) st p) as [err|k Hl Hid Hk|k Hid Hk|Hl]; simpl.
  - repeat split; auto.
  - rewrite limitReached_cap in Hl by done. apply Z.leb_gt in Hl. lia.
  - repeat split; [by apply dom_insert_lookup_L|]. right. by exists k.
  - repeat split; auto.
Qed.

(** While fewer than [N] rows were seen, every row is counted once: as an
    insert, as an update or as an error. *)
Lemma counted_loop (l : list Proceso) (st : ETL.Persist) :
  (Z.of_nat (ETL.newProcessesInserted st + length l) <= N)%Z ->
  let st' := foldl (persistOne (Some N)) st l in
  (ETL.savedCount st' + ETL.updateCount st' + ETL.errorCount st'
   = ETL.savedCount st + ETL.updateCount st + ETL.errorCount st + length l)%nat
  /\ (ETL.newProcessesInserted st' <= ETL.newProcessesInserted st + length l)%nat.
Proof.
  revert st. induction l as [|p l IH]; intros st Hroom; simpl in *; [lia|].
  assert (Hstep : (ETL.savedCount (persistOne (Some N) st p)
                   + ETL.updateCount (persistOne (Some N) st p)
                   + ETL.errorCount (persistOne (Some N) st p)
                   = S (ETL.savedCount st + ETL.updateCount st + ETL.errorCount st))%nat
                  /\ (ETL.newProcessesInserted (persistOne (Some N) st p)
                      <= S (ETL.newProcessesInserted st))%nat).
  { destruct (persistOne_step (Some N) st p) as [err|k Hl Hid Hk|k Hid Hk|Hl]; simpl;
      try lia.
    rewrite limitReached_cap in Hl by done. apply Z.leb_le in Hl. lia. }
  destruct Hstep as [Hsum Hnew].
  destruct (IH (persistOne (Some N) st p)) as [IH1 IH2]; [lia|].
  simpl. lia.
Qed.

End Cap.

(** C10.  For every record that reaches the upsert (its identifier is
    truthy), the persistence mapping puts the default of its key in place
    of every falsy field.  In particular an amount of exactly 0 is mapped to
    null: the record with amount 0 and the record without amount are mapped
    to the same row, and upserting the one or the other leaves the same
    table. *)
Theorem C10_falsy_fields_get_defaults (p : Proceso)
    (Hid : truthy (id_proceso p) = true) :
  (forall f, truthy (get f p) = false ->
     exists d, ETL.schemaDefault node f = Some d /\ get f (mapped p) = d)
  /\ monto_referencial (mapped (assign F_monto_referencial (VNum (Fin 0)) p)) = VNull
  /\ mapped (assign F_monto_referencial (VNum (Fin 0)) p)
     = mapped (assign F_monto_referencial VNull p)
  /\ forall db, upsert (assign F_monto_referencial (VNum (Fin 0)) p) db
                = upsert (assign F_monto_referencial VNull p) db.
Proof.
  split; [|split; [done|split; [done|done]]].
  intros f Hf.
  destruct (ETL.schemaDefault node f) as [d|] eqn:Hd.
  - exists d. split; [done|]. by apply mapped_falsy.
  - destruct f; try discriminate. simpl in Hf. congruence.
Qed.


(** C2, as amended.  For every run whose cap [maxProcesses] is a number N
    of at least 1, at every point of the persistence loop at most N records
    were inserted, and the table has grown by exactly that many rows; once
    N were inserted, a further row leaves the insert count and the set of
    stored identifiers as they are: it updates the stored record of its
    identifier or does nothing to the table. *)
Theorem C2_inserts_bounded_by_cap (params : ETL.JobParams) (N : Z)
    (Hcap : ETL.maxProcesses params = Some N) (HN : (1 <= N)%Z)
    (results : list Proceso) (db : gmap string Proceso) :
  let cap := ETL.orNumber (ETL.maxProcesses params) None in
  (forall n : nat,
     let st := persistAll cap (take n results) db in
     (Z.of_nat (ETL.savedCount st) <= N)%Z
     /\ ETL.savedCount st = ETL.newProcessesInserted st
     /\ size (ETL.store st) = (size db + ETL.savedCount st)%nat)
  /\ (forall (st : ETL.Persist) (p : Proceso),
        (N <= Z.of_nat (ETL.newProcessesInserted st))%Z ->
        ETL.savedCount (persistOne cap st p) = ETL.savedCount st
        /\ ETL.newProcessesInserted (persistOne cap st p) = ETL.newProcessesInserted st
        /\ dom (ETL.store (persistOne cap st p)) = dom (ETL.store st)
        /\ (ETL.store (persistOne cap st p) = ETL.store st
            \/ exists k, id_proceso p = VStr k /\ is_Some (ETL.store st !! k)
                         /\ ETL.store (persistOne cap st p)
                            = <[k := mapped p]> (ETL.store st))).
Proof.
  intros cap. subst cap. rewrite Hcap, orNumber_cap by done.
  split.
  - intros n st. subst st. unfold ETL.persistAll.
    destruct (inv_loop N HN db (take n results) (ETL.persistStart db) (inv_start N HN db))
      as (Hle & Hsaved & Hsize).
    rewrite Hsaved. split; [lia|]. split; [done|]. by rewrite <- Hsaved.
  - intros st p. by apply full_step.
Qed.

End Store.

(** ** Browser-driven code: throws, returns and the browser measure *)

Section Tame.

Context {World : Type}.
Variable browser : forall A, Op A -> World -> outcome A * World.
Variable mu : World -> nat.
Hypothesis mu_calls : forall A (op : Op A) w, (mu (snd (browser A op w)) <= mu w)%nat.

#[local] Abbreviation M := (@Driver.M World).

Lemma tame_ret {A} (a : A) : tame mu (mret a : M A).
Proof. intros st. simpl. split; [done|lia]. Qed.

Lemma tame_throw {A} (e : string) : tame mu (throw e : M A).
Proof. intros st. simpl. split; [done|lia]. Qed.

Lemma tame_logger (lvl : Level) (text : string) : tame mu (logger lvl text : M unit).
Proof. intros st. simpl. split; [done|lia]. Qed.

Lemma tame_set_this_browser (b : bool) : tame mu (set_this_browser b : M unit).
Proof. intros st. simpl. split; [done|lia]. Qed.

Lemma tame_get_this_browser : tame mu (get_this_browser : M bool).
Proof. intros st. simpl. split; [done|lia]. Qed.

Lemma tame_call {A} (op : Op A) : tame mu (call browser op).
Proof.
  intros st. unfold call. pose proof (mu_calls A op (world st)) as H.
  destruct (browser A op (world st)) as [[e|a] w]; simpl in *; split; done.
Qed.

Lemma tame_bind {A B} (m : M A) (f : A -> M B) :
  tame mu m -> (forall a, tame mu (f a)) -> tame mu (m ≫= f).
Proof.
  intros Hm Hf st. unfold mbind, M_bind, bind.
  destruct (Hm st) as [Hfin Hmu].
  destruct (m st) as [[a|e|] st1]; simpl in *; [|done|done].
  destruct (Hf a st1) as [Hfin' Hmu']. split; [done|lia].
Qed.

Lemma tame_try_catch {A} (body : M A) (handler : string -> M A) :
  tame mu body -> (forall e, tame mu (handler e)) -> tame mu (try_catch body handler).
Proof.
  intros Hm Hh st. unfold try_catch.
  destruct (Hm st) as [Hfin Hmu].
  destruct (body st) as [[a|e|] st1]; simpl in *; [done| |done].
  destruct (Hh e st1) as [Hfin' Hmu']. split; [done|lia].
Qed.

Lemma tame_when (b : bool) (m : M unit) : tame mu m -> tame mu (when b m).
Proof. intros Hm. destruct b; [done|apply tame_ret]. Qed.

Lemma tame_lift {A} (o : outcome A) : tame mu (lift o : M A).
Proof. destruct o; [apply tame_throw|apply tame_ret]. Qed.

Lemma returns_ret {A} (a : A) : returns (mret a : M A).
Proof. intros st. by exists a, st. Qed.

Lemma returns_logger (lvl : Level) (text : string) : returns (logger lvl text : M unit).
Proof. intros st. eexists _, _. reflexivity. Qed.

Lemma returns_bind {A B} (m : M A) (f : A -> M B) :
  returns m -> (forall a, returns (f a)) -> returns (m ≫= f).
Proof.
  intros Hm Hf st. unfold mbind, M_bind, bind.
  destruct (Hm st) as (a & st1 & ->). apply Hf.
Qed.

(** A [try] whose handler returns: nothing is thrown out of it. *)
Lemma returns_try_catch {A} (body : M A) (handler : string -> M A) :
  tame mu body -> (forall e, returns (handler e)) -> returns (try_catch body handler).
Proof.
  intros Hm Hh st. unfold try_catch.
  destruct (Hm st) as [Hfin _].
  destruct (body st) as [[a|e|] st1]; simpl in *; [by eexists _, _|apply Hh|done].
Qed.

End Tame.

(** One step of the structural proof that a piece of loop-free code is
    tame. *)
Ltac tame_step :=
  first
    [ apply tame_bind; [|intros ?]
    | apply tame_try_catch; [|intros ?]
    | apply tame_when
    | apply tame_call; assumption
    | apply tame_logger
    | apply tame_ret
    | apply tame_throw
    | apply tame_lift
    | apply tame_set_this_browser
    | apply tame_get_this_browser
    | match goal with
      | |- tame _ (match ?x with _ => _ end) => destruct x
      | |- tame _ (let _ := _ in _) => cbv zeta
      end ].

Ltac tame_auto := repeat tame_step.

Ltac returns_auto :=
  repeat first
    [ apply returns_bind; [|intros ?]
    | apply returns_logger
    | apply returns_ret ].

Section Steps.

Context {World : Type}.
Variable browser : forall A, Op A -> World -> outcome A * World.
Variable node : NodeEnv.
Variable mu : World -> nat.
Hypothesis mu_calls : forall A (op : Op A) w, (mu (snd (browser A op w)) <= mu w)%nat.

Lemma tame_scrollIfHidden (element : Handle) (isVisible : bool) :
  tame mu (Scraper.scrollIfHidden browser element isVisible).
Proof. unfold Scraper.scrollIfHidden. tame_auto. Qed.

Lemma tame_clearField : tame mu (Scraper.clearField browser).
Proof. unfold Scraper.clearField. tame_auto. Qed.

Hint Resolve tame_scrollIfHidden tame_clearField : core.

Lemma returns_selectProcedimientosSeleccion :
  returns (Scraper.selectProcedimientosSeleccion browser).
Proof.
  unfold Scraper.selectProcedimientosSeleccion.
  apply (returns_try_catch mu); [tame_auto|intros; returns_auto].
Qed.

Lemma returns_selectObjetoContratacion (valor : string) :
  returns (Scraper.selectObjetoContratacion browser valor).
Proof.
  unfold Scraper.selectObjetoContratacion.
  apply (returns_try_catch mu); [tame_auto; auto|intros; returns_auto].
Qed.

Lemma returns_fillDescripcion (texto : string) :
  returns (Scraper.fillDescripcion browser texto).
Proof.
  unfold Scraper.fillDescripcion.
  apply (returns_try_catch mu); [tame_auto; auto|intros; returns_auto].
Qed.

Lemma returns_selectAnio (anio : string) : returns (Scraper.selectAnio browser anio).
Proof.
  unfold Scraper.selectAnio.
  apply (returns_try_catch mu); [tame_auto; auto|intros; returns_auto].
Qed.

Lemma returns_setFecha (selector fecha label : string) :
  returns (Scraper.setFecha browser selector fecha label).
Proof.
  unfold Scraper.setFecha.
  apply (returns_try_catch mu); [tame_auto; auto|intros; returns_auto].
Qed.

Lemma tame_setFecha (selector fecha label : string) :
  tame mu (Scraper.setFecha browser selector fecha label).
Proof. unfold Scraper.setFecha. tame_auto; auto. Qed.

Lemma returns_setFechaPublicacion (fechaDesde fechaHasta : string) :
  returns (Scraper.setFechaPublicacion browser fechaDesde fechaHasta).
Proof.
  unfold Scraper.setFechaPublicacion.
  apply (returns_try_catch mu); [|intros; returns_auto].
  tame_auto; try apply tame_setFecha.
Qed.

Lemma returns_clickBuscar : returns (Scraper.clickBuscar browser).
Proof.
  unfold Scraper.clickBuscar.
  apply (returns_try_catch mu); [tame_auto; auto|intros; returns_auto].
Qed.

End Steps.

(** ** PaginatedExtractor: the page loop *)

Section Inversion.

Context {World : Type}.
#[local] Abbreviation M := (@Driver.M World).

Lemma bind_run {A B} (m : M A) (f : A -> M B) (st : State) :
  (m ≫= f) st =
  match m st with
  | (Normal a, st1) => f a st1
  | (Abrupt e, st1) => (Abrupt e, st1)
  | (Unfinished, st1) => (Unfinished, st1)
  end.
Proof. reflexivity. Qed.

Lemma bind_normal {A B} (m : M A) (f : A -> M B) (st st' : State) (b : B) :
  (m ≫= f) st = (Normal b, st') ->
  exists a st1, m st = (Normal a, st1) /\ f a st1 = (Normal b, st').
Proof.
  rewrite bind_run. destruct (m st) as [[a|e|] st1]; [eauto|done|done].
Qed.

Lemma try_catch_normal {A} (body : M A) (handler : string -> M A) (st st' : State) (a : A) :
  try_catch body handler st = (Normal a, st') ->
  body st = (Normal a, st')
  \/ exists e st1, body st = (Abrupt e, st1) /\ handler e st1 = (Normal a, st').
Proof.
  unfold try_catch. destruct (body st) as [[a'|e|] st1]; [by left|right; eauto|done].
Qed.

Lemma call_normal (browser : forall A, Op A -> World -> outcome A * World)
    {A} (op : Op A) (st st' : State) (a : A) :
  call browser op st = (Normal a, st') ->
  fst (browser A op (world st)) = Return a
  /\ world st' = snd (browser A op (world st)).
Proof.
  unfold call. destruct (browser A op (world st)) as [[e|a'] w]; [done|].
  by intros [= -> <-].
Qed.

Lemma logger_run (lvl : Level) (text : string) (st : @State World) :
  logger lvl text st = (Normal tt, mkState (world st) (log st ++ [(lvl, text)]) (this_browser st)).
Proof. reflexivity. Qed.

End Inversion.

Section Loop.

Context {World : Type}.
Variable browser : forall A, Op A -> World -> outcome A * World.
Variable node : NodeEnv.
Variable pagesLeft : World -> nat.
Hypothesis finite : FiniteSource browser pagesLeft.

#[local] Abbreviation left st := (pagesLeft (world st)).

Lemma tame_extractTableData : tame pagesLeft (Scraper.extractTableData browser node).
Proof.
  unfold Scraper.extractTableData. tame_auto. apply tame_call, finite.
Qed.

Lemma returns_extractTableData : returns (Scraper.extractTableData browser node).
Proof.
  unfold Scraper.extractTableData.
  apply (returns_try_catch pagesLeft); [|intros; returns_auto].
  tame_auto. apply tame_call, finite.
Qed.

Lemma tame_hasNextPage : tame pagesLeft (Scraper.hasNextPage browser).
Proof. unfold Scraper.hasNextPage. tame_auto. apply tame_call, finite. Qed.

Lemma returns_hasNextPage : returns (Scraper.hasNextPage browser).
Proof.
  unfold Scraper.hasNextPage.
  apply (returns_try_catch pagesLeft); [|intros; returns_auto].
  tame_auto. apply tame_call, finite.
Qed.

(** When [hasNextPage] answers true, pages are left. *)
Lemma hasNextPage_true (st st' : State) :
  Scraper.hasNextPage browser st = (Normal true, st') -> (0 < left st')%nat.
Proof.
  unfold Scraper.hasNextPage. intros H.
  apply try_catch_normal in H as [H|(e & st1 & _ & H)]; [|done].
  apply bind_normal in H as (info & st1 & Hcall & H).
  apply bind_normal in H as ([] & st2 & Hlog & H).
  rewrite logger_run in Hlog. injection Hlog as <-.
  injection H as Hnext <-. simpl.
  apply call_normal in Hcall as [Hret Hw]. rewrite Hw.
  destruct (browser _ EvalPageInfo (world st)) as [r w'] eqn:Hb. simpl in *. subst r.
  by apply (source_next _ _ finite (world st) info w').
Qed.

Lemma tame_goToNextPage : tame pagesLeft (Scraper.goToNextPage browser).
Proof. unfold Scraper.goToNextPage. tame_auto; apply tame_call, finite. Qed.

(** When [goToNextPage] returns, one page less is left. *)
Lemma goToNextPage_advances (st st' : State) :
  Scraper.goToNextPage browser st = (Normal tt, st') ->
  (0 < left st)%nat -> (left st' < left st)%nat.
Proof.
  unfold Scraper.goToNextPage. intros H Hpos.
  apply try_catch_normal in H as [H|(e & st1 & _ & H)]; [|done].
  apply bind_normal in H as ([] & st1 & Hlog & H).
  rewrite logger_run in Hlog. injection Hlog as <-.
  apply bind_normal in H as (beforeInfo & st2 & Hbefore & H).
  apply bind_normal in H as (clicked & st3 & Hclick & H).
  apply call_normal in Hbefore as [_ Hw2]. apply call_normal in Hclick as [_ Hw3].
  simpl in Hw2.
  assert (H2 : (left st2 <= left st)%nat).
  { rewrite Hw2. apply (source_calls _ _ finite). }
  assert (H3 : (left st3 < left st)%nat).
  { rewrite Hw3. destruct (Nat.eq_dec (left st2) 0) as [Hz|Hnz].
    - pose proof (source_calls _ _ finite _ EvalClickNext (world st2)). lia.
    - pose proof (source_click _ _ finite (world st2)). lia. }
  match type of H with
  | ?rest st3 = _ =>
      assert (Hrest : tame pagesLeft rest) by (tame_auto; apply tame_call, finite)
  end.
  destruct (Hrest st3) as [_ Hle]. rewrite H in Hle. simpl in Hle. lia.
Qed.

Lemma capSet_reached (maxProcesses : option Z) (n : nat) :
  Scraper.capSet maxProcesses && (default 0 maxProcesses <=? Z.of_nat n)%Z = true ->
  exists m, maxProcesses = Some m /\ (m <= Z.of_nat n)%Z.
Proof.
  destruct maxProcesses as [m|]; simpl; [|done].
  intros [_ H]%andb_true_iff. exists m. split; [done|]. by apply Z.leb_le.
Qed.

(** The page loop over a finite source: with more iterations allowed than
    pages are left it comes to an end, and when it returns it has stopped
    for one of the three reasons of the specification. *)
Lemma extractPages_ends (fuel : nat) :
  forall (maxProcesses : option Z) (currentPage total : nat) (acc : list Proceso)
         (st : State),
    (left st < fuel)%nat ->
    let out := Scraper.extractPages browser node fuel maxProcesses currentPage true
                 total acc st in
    fst out <> Unfinished
    /\ forall r, fst out = Normal r -> stoppedAsSpecified maxProcesses r.
Proof.
  induction fuel as [|fuel IH]; intros maxProcesses currentPage total acc st Hfuel;
    [lia|].
  cbv zeta. cbn [Scraper.extractPages].
  destruct (true && _) eqn:Hguard; cycle 1.
  { split; [done|]. intros r [= <-]. right; right.
    destruct maxProcesses as [m|]; [|done].
    exists m. split; [done|]. simpl in *. by apply Z.ltb_ge. }
  rewrite bind_run, logger_run. cbv beta iota.
  rewrite bind_run, logger_run. cbv beta iota.
  set (st1 := mkState _ _ _).
  assert (H1 : left st1 = left st) by done.
  rewrite bind_run.
  destruct (returns_extractTableData st1) as (pageResults & st2 & Hextract).
  pose proof (proj2 (tame_extractTableData st1)) as H2.
  rewrite Hextract in *. cbn [fst snd] in H2. cbv beta iota.
  destruct (length pageResults =? 0)%nat.
  { rewrite bind_run, logger_run. split; [done|]. intros r [= <-]. right; by left. }
  rewrite bind_run, logger_run. cbv beta iota.
  set (st3 := mkState _ _ _).
  assert (H3 : left st3 = left st2) by done.
  destruct (Scraper.capSet maxProcesses && _) eqn:Hlimit.
  { rewrite bind_run, logger_run. split; [done|]. intros r [= <-]. right; right.
    by apply capSet_reached. }
  rewrite bind_run.
  destruct (returns_hasNextPage st3) as (hasMorePages & st4 & Hnext).
  pose proof (proj2 (tame_hasNextPage st3)) as H4.
  rewrite Hnext in *. cbn [fst snd] in H4. cbv beta iota.
  destruct hasMorePages; cbn [negb]; cycle 1.
  { rewrite bind_run, logger_run. split; [done|]. intros r [= <-]. by left. }
  apply hasNextPage_true in Hnext.
  rewrite bind_run.
  pose proof (tame_goToNextPage st4) as [Hfin5 H5].
  destruct (Scraper.goToNextPage browser st4) as [[[]|e|] st5] eqn:Hgo;
    cbn [fst snd] in *; [|by split|done].
  apply goToNextPage_advances in Hgo; [|done].
  rewrite bind_run.
  pose proof (tame_call browser pagesLeft (source_calls _ _ finite)
                (WaitForTimeout 1000) st5) as [Hfin6 H6].
  destruct (call browser (WaitForTimeout 1000) st5) as [[[]|e|] st6] eqn:Hwait;
    cbn [fst snd] in *; [|by split|done].
  apply IH. lia.
Qed.


End Loop.

(** The paged browser is a finite page source. *)
Lemma Paged_finite : FiniteSource Paged.browser Paged.pagesLeft.
Proof.
  split.
  - intros A op w. unfold Paged.pagesLeft.
    destruct op; simpl; try lia.
    + destruct (Paged.tableAppears w); simpl; lia.
    + destruct w as [[|a [|b l]] c t]; simpl; lia.
  - intros [[|a [|b l]] c t]; unfold Paged.pagesLeft; simpl; lia.
  - intros [[|a [|b l]] c t] info w'; simpl; intros [= <- <-]; simpl;
      unfold Paged.pagesLeft; simpl; [done|done|lia].
Qed.


(** ** FormDriver: which steps are fatal *)

Lemma waitForResults_run {World : Type}
    (browser : forall A, Op A -> World -> outcome A * World) (timeout : N) (st : State) :
  fst (Scraper.waitForResults browser timeout st) =
  match browser _ (WaitForSelector "table[role=grid] tbody tr" timeout) (world st) with
  | (Throw _, _) => Abrupt "No se encontraron resultados en el tiempo esperado"
  | (Return _, w) =>
      match browser _ (WaitForTimeout 2000) w with
      | (Throw _, _) => Abrupt "No se encontraron resultados en el tiempo esperado"
      | (Return _, _) => Normal tt
      end
  end.
Proof.
  unfold Scraper.waitForResults, try_catch.
  rewrite bind_run, logger_run. cbv beta iota.
  rewrite bind_run. unfold call at 1. cbn [world].
  destruct (browser _ (WaitForSelector _ timeout) (world st)) as [[e|[]] w]; [done|].
  cbv beta iota. rewrite bind_run. unfold call. cbn [world].
  by destruct (browser _ (WaitForTimeout 2000) w) as [[e|[]] w'].
Qed.

(** C8, as amended.  No filter-setting step propagates an error, and
    neither does the search submission [clickBuscar]: each returns on every
    page, whatever the browser answers or throws.  The wait for the results
    table is the fatal step: [waitForResults] throws its timeout error
    exactly when one of its two waits throws. *)
Theorem C8_only_waitForResults_is_fatal {World : Type}
    (browser : forall A, Op A -> World -> outcome A * World) :
  returns (Scraper.selectProcedimientosSeleccion browser)
  /\ (forall valor, returns (Scraper.selectObjetoContratacion browser valor))
  /\ (forall anio, returns (Scraper.selectAnio browser anio))
  /\ (forall fechaDesde fechaHasta,
        returns (Scraper.setFechaPublicacion browser fechaDesde fechaHasta))
  /\ (forall texto, returns (Scraper.fillDescripcion browser texto))
  /\ returns (Scraper.clickBuscar browser)
  /\ (forall timeout st,
        fst (Scraper.waitForResults browser timeout st) =
        match browser _ (WaitForSelector "table[role=grid] tbody tr" timeout) (world st) with
        | (Throw _, _) => Abrupt "No se encontraron resultados en el tiempo esperado"
        | (Return _, w) =>
            match browser _ (WaitForTimeout 2000) w with
            | (Throw _, _) => Abrupt "No se encontraron resultados en el tiempo esperado"
            | (Return _, _) => Normal tt
            end
        end).
Proof.
  assert (Hmu : forall A (op : Op A) w, ((fun _ : World => 0%nat) (snd (browser A op w))
                                         <= (fun _ : World => 0%nat) w)%nat)
    by (intros; lia).
  repeat split; intros.
  - by apply (returns_selectProcedimientosSeleccion browser (fun _ => 0%nat)).
  - by apply (returns_selectObjetoContratacion browser (fun _ => 0%nat)).
  - by apply (returns_selectAnio browser (fun _ => 0%nat)).
  - by apply (returns_setFechaPublicacion browser (fun _ => 0%nat)).
  - by apply (returns_fillDescripcion browser (fun _ => 0%nat)).
  - by apply (returns_clickBuscar browser (fun _ => 0%nat)).
  - apply waitForResults_run.
Qed.

(** C8, the claim as stated fails: on a page whose search form has no
    submit control, [clickBuscar] finds nothing, logs a warning and
    returns. *)
Lemma C8_clickBuscar_without_control_returns :
  fst (Paged.browser _ (Query "button[id=tbBuscador:idFormBuscarProceso:btnBuscarSel]")
         Paged.withoutControls) = Return None
  /\ exists st', Scraper.clickBuscar Paged.browser (Paged.start Paged.withoutControls)
                 = (Normal tt, st')
                 /\ last (log st') = Some (Warn, "No se encontró botón de buscar").
Proof.
  split; [reflexivity|]. eexists. split; [vm_compute; reflexivity|reflexivity].
Qed.

(** ** JobOrchestrator *)

Section Job.

Context {World : Type}.
Variable browser : forall A, Op A -> World -> outcome A * World.
Variable node : NodeEnv.
Variable db_error : ETL.DbCall -> gmap string Proceso -> option string.
Variable exportService : ETL.ExportFormat -> list Proceso -> outcome bool.

(** The exports return their flag. *)
Hypothesis exports_return : forall fmt rs, exists b, exportService fmt rs = Return b.

Lemma returns_close : returns (Scraper.close browser).
Proof.
  unfold Scraper.close.
  apply (returns_try_catch (fun _ : World => 0%nat)); [|intros; returns_auto].
  tame_auto. apply tame_call. intros; lia.
Qed.

Lemma returns_when (b : bool) (m : @Driver.M World unit) : returns m -> returns (when b m).
Proof. intros H. destruct b; [done|apply returns_ret]. Qed.

Lemma returns_exportAll (results : list Proceso) :
  returns (ETL.exportAll (World := World) exportService results).
Proof.
  unfold ETL.exportAll. apply returns_when.
  destruct (exports_return ETL.Txt results) as [b1 ->].
  destruct (exports_return ETL.Json results) as [b2 ->].
  destruct (exports_return ETL.Csv results) as [b3 ->].
  cbn [lift].
  repeat first [ apply returns_bind; [|intros ?] | apply returns_when
               | apply returns_logger | apply returns_ret ].
Qed.

(** When the scraping part returns [results], the job is completed: its
    log row carries the counters of the persistence loop over [results]. *)
Lemma performScraping_completed (fuel : nat) (params : ETL.JobParams)
    (db : gmap string Proceso) (st st1 : State) (results : list Proceso) :
  ETL.scrape node browser fuel params st = (Normal results, st1) ->
  exists st',
    ETL.performScraping node db_error browser exportService fuel params db st
    = (Normal (ETL.completedLog
                 (ETL.persistAll node db_error (ETL.orNumber (ETL.maxProcesses params) None)
                    results db)
                 (length results),
               ETL.store
                 (ETL.persistAll node db_error (ETL.orNumber (ETL.maxProcesses params) None)
                    results db)),
       st').
Proof.
  intros Hscrape. unfold ETL.performScraping.
  rewrite bind_run. unfold try_catch.
  rewrite bind_run, Hscrape. cbv beta iota.
  rewrite bind_run, logger_run. cbv beta iota.
  rewrite bind_run.
  match goal with
  | |- context [ETL.exportAll _ _ ?s] =>
      destruct (returns_exportAll results s) as ([] & st2 & ->)
  end.
  cbv beta iota.
  rewrite bind_run, logger_run. cbv beta iota zeta.
  rewrite bind_run, logger_run. cbv beta iota.
  cbn [mret M_ret ret].
  rewrite bind_run.
  match goal with
  | |- context [Scraper.close _ ?s] =>
      destruct (returns_close s) as ([] & st3 & ->)
  end.
  by eexists.
Qed.

End Job.

(** ** The scenarios of the specification, on the paged browser *)

(** C9 (the code departs from the claim).  The claim: a job submitted with
    maxProcesses = null is unbounded.  The code: [performScraping] hands
    [params.maxProcesses || 100] to the scraper, so the null cap becomes
    100.  Over 4 pages of 40 matching rows the job reads 3 pages (120 rows)
    and inserts 100 records, while [searchProcesses] itself, given null,
    returns all 160. *)
Theorem C9_null_cap_becomes_100 :
  Scraper.maxProcesses (ETL.searchParams Paged.node (Paged.job None)) = Some 100%Z
  /\ (exists results st1,
        ETL.scrape Paged.node Paged.browser 4 (Paged.job None)
          (Paged.start (Paged.source 40 4)) = (Normal results, st1)
        /\ take 3 (reverse (log st1))
           = [ (Info, "Procesos por página promedio: 40.0");
               (Info, "Total de procesos extraídos: 120");
               (Info, "Total de páginas procesadas: 3") ]
        /\ length results = 100%nat)
  /\ (exists row db' st',
        ETL.performScraping Paged.node Paged.accepts Paged.browser Paged.exports 4
          (Paged.job None) ∅ (Paged.start (Paged.source 40 4))
        = (Normal (row, db'), st')
        /\ ETL.status row = "completed"
        /\ ETL.inserted_count row = 100%nat
        /\ size db' = 100%nat)
  /\ (exists every st2,
        Scraper.searchProcesses Paged.browser Paged.node 4 90000
          {| Scraper.keywords := ["software"];
             Scraper.objetoContratacion := "servicio";
             Scraper.anio := "2025";
             Scraper.maxProcesses := None;
             Scraper.entidad := None;
             Scraper.tipoProceso := None;
             Scraper.fechaDesde := None;
             Scraper.fechaHasta := None |}
          (Paged.start (Paged.source 40 4)) = (Normal every, st2)
        /\ length every = 160%nat).
Proof.
  assert (Hscrape : exists st1,
            ETL.scrape Paged.node Paged.browser 4 (Paged.job None)
              (Paged.start (Paged.source 40 4))
            = (Normal (Paged.scrapedBy 4 None (Paged.source 40 4)), st1)
            /\ take 3 (reverse (log st1))
               = [ (Info, "Procesos por página promedio: 40.0");
                   (Info, "Total de procesos extraídos: 120");
                   (Info, "Total de páginas procesadas: 3") ]).
  { eexists. split; [vm_compute; reflexivity|reflexivity]. }
  destruct Hscrape as (st1 & Hscrape & Hlog).
  split; [reflexivity|]. split; [|split].
  - exists (Paged.scrapedBy 4 None (Paged.source 40 4)), st1.
    split; [exact Hscrape|]. split; [exact Hlog|]. vm_compute. reflexivity.
  - destruct (performScraping_completed Paged.browser Paged.node Paged.accepts
                Paged.exports (fun _ _ => ex_intro _ true eq_refl) 4 (Paged.job None) ∅
                _ _ _ Hscrape) as [st' Hrun].
    eexists _, _, st'. split; [exact Hrun|].
    split; [reflexivity|]. split; vm_compute; reflexivity.
  - eexists _, _. split; [vm_compute; reflexivity|]. reflexivity.
Qed.

(** ** The store on concrete records *)



(** C2, the claim as stated fails: the cap 0 is not null, and the run
    capped at 0 over one page of 3 new rows inserts all 3. *)
Lemma C2_cap_zero_is_no_cap :
  exists row db' st',
    ETL.performScraping Paged.node Paged.accepts Paged.browser Paged.exports 1
      (Paged.job (Some 0%Z)) ∅ (Paged.start (Paged.source 3 1))
    = (Normal (row, db'), st')
    /\ ETL.inserted_count row = 3%nat
    /\ ~ (Z.of_nat (ETL.inserted_count row) <= 0)%Z.
Proof.
  assert (Hscrape : exists st1,
            ETL.scrape Paged.node Paged.browser 1 (Paged.job (Some 0%Z))
              (Paged.start (Paged.source 3 1))
            = (Normal (Paged.scrapedBy 1 (Some 0%Z) (Paged.source 3 1)), st1)).
  { eexists. vm_compute. reflexivity. }
  destruct Hscrape as (st1 & Hscrape).
  destruct (performScraping_completed Paged.browser Paged.node Paged.accepts
              Paged.exports (fun _ _ => ex_intro _ true eq_refl) 1 (Paged.job (Some 0%Z)) ∅
              _ _ _ Hscrape) as [st' Hrun].
  eexists _, _, st'. split; [exact Hrun|].
  split; [vm_compute; reflexivity|]. vm_compute. intros H. by apply H.
Qed.

Lemma C2_inserts_bounded_by_cap_witness :
  ETL.maxProcesses (Paged.job (Some 50%Z)) = Some 50%Z
  /\ (1 <= 50)%Z
  /\ (let cap := ETL.orNumber (ETL.maxProcesses (Paged.job (Some 50%Z))) None in
      (forall n : nat,
         let st := ETL.persistAll Paged.node Paged.accepts cap (take n [Paged.normal1]) ∅ in
         (Z.of_nat (ETL.savedCount st) <= 50)%Z
         /\ ETL.savedCount st = ETL.newProcessesInserted st
         /\ size (ETL.store st)
            = (size (∅ : gmap string Proceso) + ETL.savedCount st)%nat)
      /\ (forall (st : ETL.Persist) (p : Proceso),
            (50 <= Z.of_nat (ETL.newProcessesInserted st))%Z ->
            ETL.savedCount (ETL.persistOne Paged.node Paged.accepts cap st p)
            = ETL.savedCount st
            /\ ETL.newProcessesInserted (ETL.persistOne Paged.node Paged.accepts cap st p)
               = ETL.newProcessesInserted st
            /\ dom (ETL.store (ETL.persistOne Paged.node Paged.accepts cap st p))
               = dom (ETL.store st)
            /\ (ETL.store (ETL.persistOne Paged.node Paged.accepts cap st p) = ETL.store st
                \/ exists k, id_proceso p = VStr k /\ is_Some (ETL.store st !! k)
                             /\ ETL.store (ETL.persistOne Paged.node Paged.accepts cap st p)
                                = <[k := ETL.mapScrapeDataToProcesoSchema Paged.node p]>
                                    (ETL.store st)))).
Proof.
  split; [reflexivity|]. split; [lia|].
  apply (C2_inserts_bounded_by_cap Paged.node Paged.accepts (Paged.job (Some 50%Z)) 50);
    [reflexivity|lia].
Defined.

Lemma C10_falsy_fields_get_defaults_witness :
  truthy (id_proceso Paged.normal1) = true
  /\ (forall f, truthy (get f Paged.normal1) = false ->
        exists d, ETL.schemaDefault Paged.node f = Some d
                  /\ get f (ETL.mapScrapeDataToProcesoSchema Paged.node Paged.normal1) = d)
  /\ monto_referencial
       (ETL.mapScrapeDataToProcesoSchema Paged.node
          (assign F_monto_referencial (VNum (Fin 0)) Paged.normal1)) = VNull
  /\ ETL.mapScrapeDataToProcesoSchema Paged.node
       (assign F_monto_referencial (VNum (Fin 0)) Paged.normal1)
     = ETL.mapScrapeDataToProcesoSchema Paged.node
         (assign F_monto_referencial VNull Paged.normal1)
  /\ forall db, ETL.upsert Paged.node Paged.accepts
                  (assign F_monto_referencial (VNum (Fin 0)) Paged.normal1) db
                = ETL.upsert Paged.node Paged.accepts
                    (assign F_monto_referencial VNull Paged.normal1) db.
Proof.
  split; [reflexivity|].
  apply (C10_falsy_fields_get_defaults Paged.node Paged.accepts Paged.normal1).
  reflexivity.
Defined.

(** * Further properties *)

(** ** Texts *)

Lemma append_nil (b : string) : "" +:+ b = b.
Proof. reflexivity. Qed.

Lemma append_cons (c : ascii) (a b : string) : String c a +:+ b = String c (a +:+ b).
Proof. reflexivity. Qed.

(** Unfold [+:+] on literals and constructors. *)
Ltac text_simpl := rewrite ?append_cons, ?append_nil; simpl; rewrite ?append_cons, ?append_nil.

Lemma append_empty_r (s : string) : s +:+ "" = s.
Proof. induction s as [|c s IH]; text_simpl; [done|]. by rewrite IH. Qed.

Lemma append_assoc (a b c : string) : (a +:+ b) +:+ c = a +:+ (b +:+ c).
Proof. induction a as [|x a IH]; text_simpl; [done|]. by rewrite IH. Qed.

Lemma rev_onto_append (s acc : string) : rev_onto s acc = reverseText s +:+ acc.
Proof.
  unfold reverseText. revert acc. induction s as [|c s IH]; intros acc; simpl; [done|].
  rewrite (IH (String c acc)), (IH (String c "")), append_assoc. by text_simpl.
Qed.

Lemma reverseText_cons (c : ascii) (s : string) :
  reverseText (String c s) = reverseText s +:+ String c "".
Proof. unfold reverseText at 1. simpl. apply rev_onto_append. Qed.

Lemma reverseText_append (a b : string) :
  reverseText (a +:+ b) = reverseText b +:+ reverseText a.
Proof.
  induction a as [|c a IH]; text_simpl.
  - change (reverseText "") with "". by rewrite append_empty_r.
  - by rewrite !reverseText_cons, IH, append_assoc.
Qed.

Lemma reverseText_involutive (s : string) : reverseText (reverseText s) = s.
Proof.
  induction s as [|c s IH]; [done|].
  by rewrite reverseText_cons, reverseText_append, IH.
Qed.

Lemma allChars_append (P : ascii -> bool) (a b : string) :
  allChars P (a +:+ b) = allChars P a && allChars P b.
Proof. induction a as [|c a IH]; text_simpl; [done|]. by rewrite IH, andb_assoc. Qed.

Lemma allChars_reverseText (P : ascii -> bool) (s : string) :
  allChars P (reverseText s) = allChars P s.
Proof.
  induction s as [|c s IH]; [done|].
  rewrite reverseText_cons, allChars_append, IH. simpl.
  rewrite andb_true_r. apply andb_comm.
Qed.

Lemma allChars_impl (P Q : ascii -> bool) (s : string) :
  (forall c, P c = true -> Q c = true) -> allChars P s = true -> allChars Q s = true.
Proof.
  intros HPQ. induction s as [|c s IH]; simpl; [done|].
  intros [Hc Hs]%andb_true_iff. by rewrite (HPQ c Hc), IH.
Qed.

(** A text that neither begins nor ends with white space is its own trim. *)
Lemma trimStart_solid_head (c : ascii) (s : string) :
  isWhiteSpace c = false -> trimStart (String c s) = String c s.
Proof. simpl. by intros ->. Qed.

Lemma trimStart_append_solid (a b : string) :
  a <> "" -> solid a = true -> trimStart (a +:+ b) = a +:+ b.
Proof.
  destruct a as [|c a]; [done|]. intros _. unfold solid. text_simpl.
  intros [Hc _]%andb_true_iff. apply negb_true_iff in Hc. by rewrite Hc.
Qed.

Lemma reverseText_nonempty (s : string) : s <> "" -> reverseText s <> "".
Proof.
  intros Hs Hr. apply Hs. by rewrite <- (reverseText_involutive s), Hr.
Qed.

Lemma trim_between_solid (a m b : string) :
  a <> "" -> solid a = true -> b <> "" -> solid b = true ->
  trim (a +:+ m +:+ b) = a +:+ m +:+ b.
Proof.
  intros Ha Hsa Hb Hsb. unfold trim, trimEnd.
  rewrite trimStart_append_solid by done.
  rewrite <- append_assoc, reverseText_append.
  rewrite trimStart_append_solid.
  - by rewrite <- reverseText_append, reverseText_involutive, append_assoc.
  - by apply reverseText_nonempty.
  - unfold solid. by rewrite allChars_reverseText.
Qed.

Lemma trim_solid (a : string) : solid a = true -> trim a = a.
Proof.
  intros Hs. destruct a as [|c a]; [done|].
  unfold trim, trimEnd.
  rewrite <- (append_empty_r (String c a)).
  rewrite trimStart_append_solid by done.
  rewrite append_empty_r.
  rewrite <- (append_empty_r (reverseText (String c a))).
  rewrite trimStart_append_solid.
  - by rewrite append_empty_r, reverseText_involutive.
  - by apply reverseText_nonempty.
  - unfold solid. by rewrite allChars_reverseText.
Qed.

(** [split] on a text without the separator, and across one separator. *)
Lemma split_without (sep : ascii) (a : string) :
  allChars (fun c => negb (Ascii.eqb c sep)) a = true -> split sep a = [a].
Proof.
  induction a as [|c a IH]; simpl; [done|].
  intros [Hc Ha]%andb_true_iff. apply negb_true_iff in Hc. by rewrite Hc, IH.
Qed.

Lemma split_across (sep : ascii) (a b : string) :
  allChars (fun c => negb (Ascii.eqb c sep)) a = true ->
  split sep (a +:+ String sep b) = a :: split sep b.
Proof.
  induction a as [|c a IH]; text_simpl.
  - intros _. by rewrite Ascii.eqb_refl.
  - intros [Hc Ha]%andb_true_iff. apply negb_true_iff in Hc. by rewrite Hc, IH.
Qed.

Lemma plainPart_solid (s : string) : plainPart s = true -> solid s = true.
Proof. apply allChars_impl. by intros c [? _]%andb_true_iff. Qed.

Lemma plainPart_no_slash (s : string) :
  plainPart s = true -> allChars (fun c => negb (Ascii.eqb c "/")) s = true.
Proof. apply allChars_impl. by intros c [_ ?]%andb_true_iff. Qed.

Lemma solid_no_space (s : string) :
  solid s = true -> allChars (fun c => negb (Ascii.eqb c " ")) s = true.
Proof.
  apply allChars_impl. intros c Hc.
  destruct (Ascii.eqb c " ") eqn:He; [|done].
  apply Ascii.eqb_eq in He. by subst c.
Qed.

(** ** RecordNormalizer: dates *)

Lemma truthy_text (s : string) : s <> "" -> truthy (VStr s) = true.
Proof. intros Hs. simpl. by rewrite eqb_empty_false. Qed.

Lemma append_nonempty (a b : string) : a <> "" -> a +:+ b <> "".
Proof. destruct a; [done|]. intros _. by text_simpl. Qed.

Lemma fecha_solid (dia mes anio : string) :
  plainPart dia = true -> plainPart mes = true -> plainPart anio = true ->
  solid (dia +:+ "/" +:+ mes +:+ "/" +:+ anio) = true.
Proof.
  intros Hd Hm Ha. unfold solid.
  rewrite !allChars_append.
  apply plainPart_solid in Hd, Hm, Ha. unfold solid in *.
  by rewrite Hd, Hm, Ha.
Qed.

Lemma fecha_split (dia mes anio : string) :
  plainPart dia = true -> plainPart mes = true -> plainPart anio = true ->
  split "/" (dia +:+ "/" +:+ mes +:+ "/" +:+ anio) = [dia; mes; anio].
Proof.
  intros Hd Hm Ha.
  change ("/" +:+ mes +:+ "/" +:+ anio) with (String "/" (mes +:+ String "/" anio)).
  rewrite split_across by by apply plainPart_no_slash.
  rewrite split_across by by apply plainPart_no_slash.
  rewrite split_without by by apply plainPart_no_slash.
  done.
Qed.

(** X1.  A publication date [dd/mm/yyyy], alone or followed by a space and
    a time, is rewritten as [yyyy-mm-dd] with day and month padded to two
    characters, followed by the time as given, or by 00:00:00 when there is
    none.  The parts are any non-empty texts without white space or slash. *)
Theorem normalizeFecha_rewrites_dates (dia mes anio : string) (hora : option string)
    (Hdia : dia <> "") (Hmes : mes <> "") (Hanio : anio <> "")
    (Pdia : plainPart dia = true) (Pmes : plainPart mes = true)
    (Panio : plainPart anio = true)
    (Phora : forall h, hora = Some h -> h <> "" /\ solid h = true) :
  normalizeFecha
    (VStr match hora with
          | Some h => (dia +:+ "/" +:+ mes +:+ "/" +:+ anio) +:+ " " +:+ h
          | None => dia +:+ "/" +:+ mes +:+ "/" +:+ anio
          end)
  = VStr (anio +:+ "-" +:+ padStart 2 "0" mes +:+ "-" +:+ padStart 2 "0" dia
               +:+ " " +:+ default "00:00:00" hora).
Proof.
  pose proof (fecha_solid dia mes anio Pdia Pmes Panio) as Hsolid.
  pose proof (fecha_split dia mes anio Pdia Pmes Panio) as Hsplit.
  set (fecha := dia +:+ "/" +:+ mes +:+ "/" +:+ anio) in *.
  assert (Hfecha : fecha <> "") by by apply append_nonempty.
  unfold normalizeFecha.
  destruct hora as [h|].
  - destruct (Phora h eq_refl) as [Hh Ph].
    rewrite truthy_text by by apply append_nonempty.
    rewrite trim_between_solid by done.
    change (" " +:+ h) with (String " " h).
    rewrite (split_across " " fecha h) by by apply solid_no_space.
    rewrite (split_without " " h) by by apply solid_no_space.
    cbn [lookup list_lookup default from_option]. unfold id.
    rewrite (eqb_empty_false h Hh), Hsplit.
    by rewrite !truthy_text by done.
  - rewrite truthy_text by done.
    rewrite trim_solid by done.
    rewrite (split_without " " fecha) by by apply solid_no_space.
    cbn [lookup list_lookup default from_option]. unfold id. rewrite Hsplit.
    by rewrite !truthy_text by done.
Qed.

Lemma normalizeFecha_rewrites_dates_witness :
  "9" <> "" /\ "1" <> "" /\ "2025" <> ""
  /\ plainPart "9" = true /\ plainPart "1" = true /\ plainPart "2025" = true
  /\ (forall h, Some "08:05" = Some h -> h <> "" /\ solid h = true)
  /\ normalizeFecha (VStr (("9" +:+ "/" +:+ "1" +:+ "/" +:+ "2025") +:+ " " +:+ "08:05"))
     = VStr ("2025" +:+ "-" +:+ padStart 2 "0" "1" +:+ "-" +:+ padStart 2 "0" "9"
                    +:+ " " +:+ default "00:00:00" (Some "08:05")).
Proof.
  repeat (split; [first [discriminate | reflexivity | by intros h [= <-]]|]).
  apply (normalizeFecha_rewrites_dates "9" "1" "2025" (Some "08:05"));
    first [discriminate | reflexivity | by intros h [= <-]].
Defined.

(** ** RecordNormalizer: what every normalised record satisfies *)

Lemma trimStart_before_solid (y : string) (c : ascii) (z : string) :
  isWhiteSpace c = false -> trimStart (y +:+ String c z) <> "".
Proof.
  intros Hc. induction y as [|d y IH]; text_simpl.
  - by rewrite Hc.
  - by destruct (isWhiteSpace d).
Qed.

(** A text that begins with a character other than white space is not
    blank. *)
Lemma trim_solid_head (c : ascii) (r : string) :
  isWhiteSpace c = false -> trim (String c r) <> "".
Proof.
  intros Hc. unfold trim, trimEnd. rewrite trimStart_solid_head by done.
  apply reverseText_nonempty. rewrite reverseText_cons.
  by apply trimStart_before_solid.
Qed.

Lemma blankToNull_not_blank (v : value) : ~ blank (blankToNull v).
Proof.
  intros (s & Hv & Hs). destruct v as [| |b|n|s0|j]; try done. simpl in Hv.
  destruct (String.eqb (trim s0) "") eqn:He; [done|].
  injection Hv as ->. apply String.eqb_neq in He. done.
Qed.

Lemma blankToNull_keeps (v : value) :
  truthy v = true -> ~ blank v -> blankToNull v = v.
Proof.
  intros Ht Hb. destruct v as [| |b|n|s|j]; try done. simpl.
  destruct (String.eqb (trim s) "") eqn:He; [|done].
  apply String.eqb_eq in He. destruct Hb. by exists s.
Qed.

Lemma missingOrBlank_false (v : value) :
  missingOrBlank v = Return false -> truthy v = true /\ ~ blank v.
Proof.
  unfold missingOrBlank. destruct (truthy v) eqn:Ht; simpl; [|done].
  destruct v as [| |b|n|s|j]; try done.
  intros [= He]. split; [done|]. intros (s' & [= <-] & Hs).
  by rewrite Hs in He.
Qed.

Lemma get_assign_when (b : bool) (f g : Field) (v : value) (p : Proceso) :
  get g (if b then assign f v p else p)
  = if b && bool_decide (g = f) then v else get g p.
Proof.
  destruct b; simpl; [|done]. rewrite get_assign.
  by destruct (decide (g = f)); [rewrite bool_decide_eq_true_2|rewrite bool_decide_eq_false_2].
Qed.

(** X2.  Whatever record it is given, a record that [normalizeProcesoData]
    returns has no field that is an empty or blank text, and its
    identifier, entity name, currency and version are truthy. *)
Theorem normalizeProcesoData_clean (env : NodeEnv) (p q : Proceso)
    (Hq : normalizeProcesoData env p = Return q) :
  (forall f, ~ blank (get f q))
  /\ truthy (id_proceso q) = true
  /\ truthy (nombre_entidad q) = true
  /\ truthy (moneda q) = true
  /\ truthy (version_seace q) = true.
Proof.
  pose proof (normalizeProcesoData_id env p q Hq) as Hid.
  revert Hq. unfold normalizeProcesoData.
  set (p1 := assign F_monto_referencial _ _).
  destruct (missingOrBlank (moneda p1)) as [e|b1] eqn:Hm; [done|]. cbn [mbind outcome_bind].
  set (p2 := if b1 then _ else _).
  destruct (missingOrBlank (version_seace p2)) as [e|b2] eqn:Hv; [done|].
  cbn [mbind outcome_bind].
  set (p3 := if b2 then _ else _).
  set (generado := VStr ("PROC-" +:+ Date_now env +:+ "-" +:+ Math_random36 env)).
  set (c6 := negb (truthy (id_proceso (forEachKey blankToNull p3)))).
  set (p4 := if c6 then _ else _).
  set (c7 := negb (truthy (nombre_entidad p4))).
  intros [= <-].
  assert (Hmoneda : truthy (get F_moneda p2) = true /\ ~ blank (get F_moneda p2)).
  { subst p2. rewrite get_assign_when. destruct b1; simpl.
    - split; [done|]. intros (s & [= <-] & Hs). by vm_compute in Hs.
    - by apply missingOrBlank_false. }
  assert (Hversion : truthy (get F_version_seace p3) = true
                     /\ ~ blank (get F_version_seace p3)).
  { subst p3. rewrite get_assign_when. destruct b2; simpl.
    - split; [done|]. intros (s & [= <-] & Hs). by vm_compute in Hs.
    - by apply missingOrBlank_false. }
  split; [|split; [exact Hid|split; [|split]]].
  - intros f. rewrite get_assign_when.
    destruct (c7 && bool_decide (f = F_nombre_entidad)).
    { intros (s & [= <-] & Hs). by vm_compute in Hs. }
    subst p4. rewrite get_assign_when.
    destruct (c6 && bool_decide (f = F_id_proceso)).
    { intros (s & [= <-] & Hs). revert Hs. text_simpl. by apply trim_solid_head. }
    rewrite get_forEachKey. apply blankToNull_not_blank.
  - change (truthy (get F_nombre_entidad
              (if c7 then assign F_nombre_entidad (VStr "Entidad Desconocida") p4 else p4))
            = true).
    rewrite get_assign_when. subst c7. destruct (truthy (nombre_entidad p4)) eqn:Hn; simpl; done.
  - change (truthy (get F_moneda
              (if c7 then assign F_nombre_entidad (VStr "Entidad Desconocida") p4 else p4))
            = true).
    rewrite get_assign_when, andb_false_r. subst p4.
    rewrite get_assign_when, andb_false_r, get_forEachKey.
    subst p3. rewrite get_assign_when, andb_false_r.
    destruct Hmoneda as [Ht Hb]. by rewrite blankToNull_keeps.
  - change (truthy (get F_version_seace
              (if c7 then assign F_nombre_entidad (VStr "Entidad Desconocida") p4 else p4))
            = true).
    rewrite get_assign_when, andb_false_r. subst p4.
    rewrite get_assign_when, andb_false_r, get_forEachKey.
    destruct Hversion as [Ht Hb]. by rewrite blankToNull_keeps.
Qed.

Lemma normalizeProcesoData_clean_witness :
  normalizeProcesoData Paged.node Paged.raw1 = Return Paged.normal1
  /\ (forall f, ~ blank (get f Paged.normal1))
  /\ truthy (id_proceso Paged.normal1) = true
  /\ truthy (nombre_entidad Paged.normal1) = true
  /\ truthy (moneda Paged.normal1) = true
  /\ truthy (version_seace Paged.normal1) = true.
Proof.
  split; [reflexivity|].
  apply (normalizeProcesoData_clean Paged.node Paged.raw1 Paged.normal1). reflexivity.
Defined.

Lemma normalizeMonto_twice (v : value) : normalizeMonto (normalizeMonto v) = VNull.
Proof.
  destruct (normalizeMonto_cases v) as [->|(text & n & _ & _ & _ & ->)]; [done|].
  unfold normalizeMonto. by destruct (truthy (VNum n) && _ && _).
Qed.

(** X3.  Normalising is not idempotent on the amount: a record that goes
    through [normalizeProcesoData] a second time comes back with the amount
    null, whatever amount the first pass had read. *)
Theorem normalizeProcesoData_twice_drops_amount (env env' : NodeEnv) (p q r : Proceso)
    (Hq : normalizeProcesoData env p = Return q)
    (Hr : normalizeProcesoData env' q = Return r) :
  monto_referencial r = VNull.
Proof.
  rewrite (normalizeProcesoData_monto env' q r Hr),
          (normalizeProcesoData_monto env p q Hq).
  apply normalizeMonto_twice.
Qed.

Lemma normalizeProcesoData_twice_drops_amount_witness :
  normalizeProcesoData Paged.node Paged.raw1 = Return Paged.normal1
  /\ normalizeProcesoData Paged.node Paged.normal1 = Return normal2
  /\ monto_referencial Paged.normal1 = VNum (Fin (123456789 # 100))
  /\ monto_referencial normal2 = VNull.
Proof.
  split; [reflexivity|]. split; [reflexivity|]. split; [reflexivity|].
  apply (normalizeProcesoData_twice_drops_amount Paged.node Paged.node
           Paged.raw1 Paged.normal1 normal2); reflexivity.
Defined.

(** ** IngestionStore: the mapping *)

Lemma orElse_twice (v d : value) : orElse (orElse v d) d = orElse v d.
Proof.
  unfold orElse. destruct (truthy v) eqn:Hv; [by rewrite Hv|].
  by destruct (truthy d).
Qed.

(** X4.  Mapping a mapped record changes nothing: the persistence mapping
    is idempotent. *)
Theorem mapScrapeDataToProcesoSchema_idempotent (node : NodeEnv) (p : Proceso) :
  ETL.mapScrapeDataToProcesoSchema node (ETL.mapScrapeDataToProcesoSchema node p)
  = ETL.mapScrapeDataToProcesoSchema node p.
Proof.
  unfold ETL.mapScrapeDataToProcesoSchema. cbn [id_proceso nombre_entidad entidad_nombre
    fecha_publicacion nomenclatura reiniciado_desde objeto_contratacion descripcion_objeto
    codigo_snip estado_proceso tipo_proceso url_proceso source_url pagina_scraping
    numero_convocatoria entidad_ruc codigo_cui departamento provincia distrito
    monto_referencial moneda rubro version_seace fecha_scraping requiere_visita_previa
    datos_ocds fecha_limite_presentacion].
  by rewrite !orElse_twice.
Qed.

(** ** PaginatedExtractor: reading a page *)

Lemma mapOutcome_returns {A B : Type} (f : A -> outcome B) (l : list A) :
  Forall (fun x => exists y, f x = Return y) l ->
  exists l', mapOutcome f l = Return l' /\ length l' = length l.
Proof.
  induction 1 as [|x l [y Hy] _ (l' & Hl' & Hlen)]; simpl.
  - by exists [].
  - rewrite Hy, Hl'. exists (y :: l'). simpl. by rewrite Hlen.
Qed.

Lemma extractFrom_rows (page : Snapshot) (rs : list (list Cell)) (index : nat) :
  Forall (fun p => exists i cells, extractRow page i cells = Some p)
         (extractFrom page index rs).
Proof.
  revert index. induction rs as [|cells rs IH]; intros index; simpl; [constructor|].
  destruct (extractRow page index cells) as [p|] eqn:Hp; [|apply IH].
  constructor; [eauto|apply IH].
Qed.

(** The records of a page are normalised without an error, one by one. *)
Lemma script_normalised (env : NodeEnv) (page : Snapshot) :
  exists l, mapOutcome (normalizeProcesoData env) (Table.script page) = Return l
            /\ length l = length (filter (fun cells => validRow cells = true) (rows page)).
Proof.
  destruct (mapOutcome_returns (normalizeProcesoData env) (Table.script page))
    as (l & Hl & Hlen).
  { eapply Forall_impl; [apply extractFrom_rows|].
    intros p (i & cells & Hp). by eapply normalizeProcesoData_returns. }
  exists l. split; [done|]. rewrite Hlen. apply extractFrom_length.
Qed.

(** X5.  [extractTableData] never throws: when the page can be read it
    returns one normalised record per valid row, and when the evaluation in
    the page throws it returns the empty list. *)
Theorem extractTableData_one_record_per_valid_row {World : Type}
    (browser : forall A, Op A -> World -> outcome A * World) (node : NodeEnv)
    (st : State) :
  exists l st',
    Scraper.extractTableData browser node st = (Normal l, st')
    /\ length l = match fst (browser _ EvalTable (world st)) with
                  | Return page =>
                      length (filter (fun cells => validRow cells = true) (rows page))
                  | Throw _ => 0%nat
                  end.
Proof.
  unfold Scraper.extractTableData, try_catch. rewrite bind_run. unfold call at 1.
  destruct (browser _ EvalTable (world st)) as [[e|page] w]; cbn [fst].
  - rewrite bind_run, logger_run. by eexists _, _.
  - cbv zeta. rewrite bind_run, logger_run. cbv beta iota.
    destruct (script_normalised node page) as (l & -> & Hlen). cbn [lift].
    by eexists _, _.
Qed.

(** X6.  [hasNextPage] never throws: it answers what the page reports about
    its next control, and false when the page cannot be evaluated. *)
Theorem hasNextPage_false_on_error {World : Type}
    (browser : forall A, Op A -> World -> outcome A * World) (st : State) :
  fst (Scraper.hasNextPage browser st)
  = Normal match fst (browser _ EvalPageInfo (world st)) with
           | Return pageInfo => hasNext pageInfo
           | Throw _ => false
           end.
Proof.
  unfold Scraper.hasNextPage, try_catch. rewrite bind_run. unfold call at 1.
  destruct (browser _ EvalPageInfo (world st)) as [[e|info] w]; cbn [fst].
  - by rewrite bind_run, logger_run.
  - by rewrite bind_run, logger_run.
Qed.

(** X7.  [close] never throws.  Without a browser it calls nothing; with
    one it calls [browser.close()] once and forgets the browser, unless
    that call throws. *)
Theorem close_releases_browser {World : Type}
    (browser : forall A, Op A -> World -> outcome A * World) (st : State) :
  exists st',
    Scraper.close browser st = (Normal tt, st')
    /\ world st' = (if this_browser st then snd (browser _ CloseBrowser (world st))
                    else world st)
    /\ this_browser st' = (this_browser st
                           && match fst (browser _ CloseBrowser (world st)) with
                              | Throw _ => true
                              | Return _ => false
                              end).
Proof.
  unfold Scraper.close, try_catch. rewrite bind_run. cbn [get_this_browser].
  destruct (this_browser st) eqn:Hb; cbn [when].
  - rewrite bind_run. unfold call at 1.
    destruct (browser _ CloseBrowser (world st)) as [[e|[]] w]; cbn [fst snd].
    + rewrite logger_run. eexists. split; [done|]. simpl. by rewrite Hb.
    + rewrite bind_run. cbn [set_this_browser]. rewrite logger_run.
      eexists. split; [done|]. by simpl.
  - eexists. split; [done|]. by rewrite Hb.
Qed.

(** After [close] the scraper holds no browser, when [browser.close()]
    returns. *)
Lemma close_unsets {World : Type}
    (browser : forall A, Op A -> World -> outcome A * World) (st : State) :
  (forall w, fst (browser _ CloseBrowser w) = Return tt) ->
  exists st', Scraper.close browser st = (Normal tt, st') /\ this_browser st' = false.
Proof.
  intros Hclose.
  unfold Scraper.close, try_catch. rewrite bind_run. cbn [get_this_browser].
  destruct (this_browser st) eqn:Hb; cbn [when]; [|by eexists].
  rewrite bind_run. unfold call at 1. specialize (Hclose (world st)).
  destruct (browser _ CloseBrowser (world st)) as [[e|[]] w]; [done|].
  rewrite bind_run. cbn [set_this_browser]. rewrite logger_run. by eexists.
Qed.

(** ** IngestionStore: the persistence loop under any cap *)

Section Accounts.

Variable node : NodeEnv.
Variable db_error : ETL.DbCall -> gmap string Proceso -> option string.

#[local] Abbreviation mapped := (ETL.mapScrapeDataToProcesoSchema node).
#[local] Abbreviation persistOne := (ETL.persistOne node db_error).
#[local] Abbreviation persistAll := (ETL.persistAll node db_error).

Lemma loop_invariant (I : ETL.Persist -> Prop) (cap : option Z) :
  (forall st p, I st -> I (persistOne cap st p)) ->
  forall l st, I st -> I (foldl (persistOne cap) st l).
Proof.
  intros Hstep l. induction l as [|p l IH]; intros st Hst; simpl; [done|].
  by apply IH, Hstep.
Qed.

(** The counters of one iteration. *)
Lemma counters_step (cap : option Z) (st : ETL.Persist) (p : Proceso) :
  let st' := persistOne cap st p in
  (ETL.errorCount st = length (ETL.errorDetails st) ->
   ETL.errorCount st' = length (ETL.errorDetails st'))
  /\ (ETL.savedCount st = ETL.newProcessesInserted st ->
      ETL.savedCount st' = ETL.newProcessesInserted st')
  /\ (size (ETL.store st') + ETL.savedCount st
      = size (ETL.store st) + ETL.savedCount st')%nat
  /\ (ETL.savedCount st' + ETL.updateCount st' + ETL.errorCount st'
      <= S (ETL.savedCount st + ETL.updateCount st + ETL.errorCount st))%nat
  /\ (ETL.limitReached cap (ETL.newProcessesInserted st) = false ->
      ETL.savedCount st' + ETL.updateCount st' + ETL.errorCount st'
      = S (ETL.savedCount st + ETL.updateCount st + ETL.errorCount st))%nat.
Proof.
  intros st'. subst st'.
  destruct (persistOne_step node db_error cap st p) as [err|k Hl Hid Hk|k Hid Hk|Hl];
    simpl.
  - rewrite length_app. simpl. repeat split; intros; lia.
  - rewrite map_size_insert_None by done. repeat split; intros; lia.
  - rewrite map_size_insert_Some by done. repeat split; intros; lia.
  - repeat split; intros; try lia. congruence.
Qed.

Lemma limitReached_unset (cap : option Z) (n : nat) :
  cap = None \/ cap = Some 0%Z -> ETL.limitReached cap n = false.
Proof. by intros [->| ->]. Qed.

Lemma counters_loop (cap : option Z) (l : list Proceso) (st : ETL.Persist) :
  let st' := foldl (persistOne cap) st l in
  (size (ETL.store st') + ETL.savedCount st
   = size (ETL.store st) + ETL.savedCount st')%nat
  /\ (ETL.savedCount st' + ETL.updateCount st' + ETL.errorCount st'
      <= ETL.savedCount st + ETL.updateCount st + ETL.errorCount st + length l)%nat
  /\ ((cap = None \/ cap = Some 0%Z) ->
      ETL.savedCount st' + ETL.updateCount st' + ETL.errorCount st'
      = ETL.savedCount st + ETL.updateCount st + ETL.errorCount st + length l)%nat.
Proof.
  revert st. induction l as [|p l IH]; intros st; simpl; [repeat split; intros; lia|].
  destruct (counters_step cap st p) as (_ & _ & Hsize & Hle & Heq).
  destruct (IH (persistOne cap st p)) as (IHsize & IHle & IHeq).
  split; [lia|]. split; [lia|].
  intros Hcap. specialize (IHeq Hcap).
  specialize (Heq (limitReached_unset cap _ Hcap)). lia.
Qed.

(** X8.  The counters of the persistence loop, under any cap: every error
    counted has its entry in the error details, every record counted as
    new was inserted, the table has grown by exactly the records counted as
    new, and no row is counted twice; without a cap (null or 0) every row
    is counted exactly once, as new, as updated or as an error. *)
Theorem persistAll_counts_each_row_once (cap : option Z) (results : list Proceso)
    (db : gmap string Proceso) :
  let st := persistAll cap results db in
  ETL.errorCount st = length (ETL.errorDetails st)
  /\ ETL.savedCount st = ETL.newProcessesInserted st
  /\ size (ETL.store st) = (size db + ETL.savedCount st)%nat
  /\ (ETL.savedCount st + ETL.updateCount st + ETL.errorCount st <= length results)%nat
  /\ ((cap = None \/ cap = Some 0%Z) ->
      ETL.savedCount st + ETL.updateCount st + ETL.errorCount st = length results)%nat.
Proof.
  intros st. subst st. unfold ETL.persistAll.
  split; [|split].
  - apply (loop_invariant (fun st => ETL.errorCount st = length (ETL.errorDetails st)));
      [|done].
    intros st p. apply (counters_step cap st p).
  - apply (loop_invariant (fun st => ETL.savedCount st = ETL.newProcessesInserted st));
      [|done].
    intros st p. apply (counters_step cap st p).
  - destruct (counters_loop cap results (ETL.persistStart db)) as (Hsize & Hle & Heq).
    simpl in *. split; [lia|]. split; [lia|]. intros Hcap. specialize (Heq Hcap). lia.
Qed.

(** One iteration leaves every row as it is, but the row of its record,
    which it may write. *)
Lemma footprint_step (cap : option Z) (st : ETL.Persist) (p : Proceso) (k : string) :
  ETL.store (persistOne cap st p) !! k = ETL.store st !! k
  \/ (id_proceso p = VStr k /\ ETL.store (persistOne cap st p) !! k = Some (mapped p)).
Proof.
  destruct (persistOne_step node db_error cap st p) as [err|k' Hl Hid Hk|k' Hid Hk|Hl];
    simpl; try (by left).
  - destruct (decide (k' = k)) as [->|Hne].
    + right. by rewrite lookup_insert_eq.
    + left. by rewrite lookup_insert_ne.
  - destruct (decide (k' = k)) as [->|Hne].
    + right. by rewrite lookup_insert_eq.
    + left. by rewrite lookup_insert_ne.
Qed.

Lemma footprint_loop (cap : option Z) (l : list Proceso) (st : ETL.Persist) (k : string) :
  ETL.store (foldl (persistOne cap) st l) !! k = ETL.store st !! k
  \/ exists p, p ∈ l /\ id_proceso p = VStr k
               /\ ETL.store (foldl (persistOne cap) st l) !! k = Some (mapped p).
Proof.
  revert st. induction l as [|p l IH]; intros st; simpl; [by left|].
  destruct (IH (persistOne cap st p)) as [Hsame|(q & Hq & Hid & Hrow)].
  - rewrite Hsame.
    destruct (footprint_step cap st p k) as [Hstep|[Hid Hrow]]; [by left|].
    right. exists p. split; [by left|done].
  - right. exists q. split; [by right|done].
Qed.

(** X9.  What the persistence loop does to the table, under any cap and
    whatever the database rejects: the row stored under an identifier
    afterwards is the row stored before, or the persistence mapping of a
    scraped record with that identifier.  So rows whose identifier was not
    scraped are left as they are, and no row is removed. *)
Theorem persistAll_writes_only_scraped_rows (cap : option Z) (results : list Proceso)
    (db : gmap string Proceso) (k : string) :
  let after := ETL.store (persistAll cap results db) in
  (after !! k = db !! k
   \/ exists p, p ∈ results /\ id_proceso p = VStr k /\ after !! k = Some (mapped p))
  /\ ((forall p, p ∈ results -> id_proceso p <> VStr k) -> after !! k = db !! k)
  /\ (is_Some (db !! k) -> is_Some (after !! k)).
Proof.
  intros after. subst after. unfold ETL.persistAll.
  pose proof (footprint_loop cap results (ETL.persistStart db) k) as H. simpl in H.
  split; [done|]. split.
  - intros Hno. destruct H as [H|(p & Hp & Hid & _)]; [done|]. by destruct (Hno p Hp).
  - intros Hs. destruct H as [->|(p & _ & _ & ->)]; eauto.
Qed.

End Accounts.

(** ** IngestionStore: a second run over the same records *)

Section Rerun.

Variable node : NodeEnv.
Variable db_error : ETL.DbCall -> gmap string Proceso -> option string.

(** The database accepts every call. *)
Hypothesis accepted : forall c db, db_error c db = None.

#[local] Abbreviation mapped := (ETL.mapScrapeDataToProcesoSchema node).
#[local] Abbreviation persistOne := (ETL.persistOne node db_error).
#[local] Abbreviation persistAll := (ETL.persistAll node db_error).

(** The table after the rows of [l] were written one by one. *)
#[local] Abbreviation written :=
  (foldl (fun (db : gmap string Proceso) (p : Proceso) => <[key p := mapped p]> db)).

Lemma persistOne_accepted (st : ETL.Persist) (p : Proceso) :
  textId p ->
  persistOne None st p
  = match ETL.store st !! key p with
    | Some _ =>
        ETL.mkPersist (<[key p := mapped p]> (ETL.store st)) (ETL.savedCount st)
          (S (ETL.updateCount st)) (ETL.errorCount st) (ETL.errorDetails st)
          (ETL.newProcessesInserted st)
    | None =>
        ETL.mkPersist (<[key p := mapped p]> (ETL.store st)) (S (ETL.savedCount st))
          (ETL.updateCount st) (ETL.errorCount st) (ETL.errorDetails st)
          (S (ETL.newProcessesInserted st))
    end.
Proof.
  intros (k & Hid & Hk). unfold key. rewrite Hid.
  unfold ETL.persistOne, ETL.tryPersist. cbn [ETL.limitReached].
  unfold ETL.upsert, ETL.findOrCreate, ETL.update.
  rewrite mapped_id, accepted, Hid. cbn [truthy]. rewrite eqb_empty_false by done.
  cbn. destruct (ETL.store st !! k) as [row|]; cbn; [|done].
  by rewrite accepted.
Qed.

Lemma store_written (l : list Proceso) (st : ETL.Persist) :
  Forall textId l ->
  ETL.store (foldl (persistOne None) st l) = written (ETL.store st) l.
Proof.
  intros Hl. revert st. induction Hl as [|p l Hp _ IH]; intros st; simpl; [done|].
  rewrite IH, persistOne_accepted by done.
  by destruct (ETL.store st !! key p).
Qed.

Lemma written_elsewhere (l : list Proceso) (db : gmap string Proceso) (k : string) :
  (forall p, p ∈ l -> key p <> k) -> written db l !! k = db !! k.
Proof.
  revert db. induction l as [|p l IH]; intros db Hno; simpl; [done|].
  rewrite IH by (intros q Hq; apply Hno; by right).
  apply lookup_insert_ne, Hno. by left.
Qed.

Lemma written_stays (l : list Proceso) (db : gmap string Proceso) (k : string) :
  is_Some (db !! k) -> is_Some (written db l !! k).
Proof.
  revert db. induction l as [|p l IH]; intros db Hk; simpl; [done|].
  apply IH. destruct (decide (key p = k)) as [->|Hne].
  - rewrite lookup_insert_eq. eauto.
  - by rewrite lookup_insert_ne.
Qed.

Lemma written_present (l : list Proceso) (db : gmap string Proceso) (p : Proceso) :
  p ∈ l -> is_Some (written db l !! key p).
Proof.
  revert db. induction l as [|q l IH]; intros db Hp; [by apply elem_of_nil in Hp|].
  apply elem_of_cons in Hp as [->|Hp]; simpl.
  - apply written_stays. rewrite lookup_insert_eq. eauto.
  - by apply IH.
Qed.

(** Writing the rows of [l] forgets what the table held under their
    identifiers. *)
Lemma written_absorbs (l : list Proceso) (db db' : gmap string Proceso) :
  (forall k, (forall p, p ∈ l -> key p <> k) -> db !! k = db' !! k) ->
  written db l = written db' l.
Proof.
  revert db db'. induction l as [|p l IH]; intros db db' Hsame; simpl.
  - apply map_eq. intros k. apply Hsame. intros p Hp. by apply elem_of_nil in Hp.
  - apply IH. intros k Hno.
    destruct (decide (key p = k)) as [->|Hne].
    + by rewrite !lookup_insert_eq.
    + rewrite !lookup_insert_ne by done. apply Hsame.
      intros q Hq. apply elem_of_cons in Hq as [->|Hq]; [done|by apply Hno].
Qed.

Lemma written_twice (l : list Proceso) (db : gmap string Proceso) :
  written (written db l) l = written db l.
Proof. apply written_absorbs. intros k Hno. by apply written_elsewhere. Qed.

(** Over a table that holds a row for each of them, the records are all
    counted as updates. *)
Lemma all_updates (l : list Proceso) (st : ETL.Persist) :
  Forall textId l ->
  (forall p, p ∈ l -> is_Some (ETL.store st !! key p)) ->
  let st' := foldl (persistOne None) st l in
  ETL.savedCount st' = ETL.savedCount st
  /\ ETL.updateCount st' = (ETL.updateCount st + length l)%nat
  /\ ETL.errorCount st' = ETL.errorCount st.
Proof.
  intros Hl. revert st. induction Hl as [|p l Hp _ IH]; intros st Hin; simpl.
  { split; [done|]. split; [lia|done]. }
  assert (Hstep := persistOne_accepted st p Hp).
  destruct (Hin p) as [row Hrow]; [by left|]. rewrite Hrow in Hstep.
  destruct (IH (persistOne None st p)) as (H1 & H2 & H3).
  { intros q Hq. rewrite Hstep. simpl.
    destruct (decide (key p = key q)) as [->|Hne].
    - rewrite lookup_insert_eq. eauto.
    - rewrite lookup_insert_ne by done. apply Hin. by right. }
  rewrite H1, H2, H3, Hstep. simpl. split; [done|]. split; [lia|done].
Qed.

Lemma no_errors (l : list Proceso) (st : ETL.Persist) :
  Forall textId l ->
  ETL.errorCount (foldl (persistOne None) st l) = ETL.errorCount st.
Proof.
  intros Hl. revert st. induction Hl as [|p l Hp _ IH]; intros st; simpl; [done|].
  rewrite IH, persistOne_accepted by done.
  by destruct (ETL.store st !! key p).
Qed.

(** The same run, as a lemma on one reading of the clock. *)
Lemma second_run_same_clock (results : list Proceso) (db : gmap string Proceso) :
  Forall textId results ->
  let first := persistAll None results db in
  let second := persistAll None results (ETL.store first) in
  ETL.errorCount first = 0%nat
  /\ ETL.savedCount second = 0%nat
  /\ ETL.updateCount second = length results
  /\ ETL.errorCount second = 0%nat
  /\ ETL.store second = ETL.store first.
Proof.
  intros Hids first second. subst first second. unfold ETL.persistAll.
  split; [by rewrite no_errors|].
  destruct (all_updates results
              (ETL.persistStart
                 (ETL.store (foldl (persistOne None) (ETL.persistStart db) results))) Hids)
    as (H1 & H2 & H3).
  { intros p Hp. simpl. rewrite store_written by done. by apply written_present. }
  split; [done|]. split; [done|]. split; [done|].
  rewrite !store_written by done. simpl. apply written_twice.
Qed.

(** The clock of the second run. *)
Variable later : NodeEnv.

(** The mapping reads the clock for the scraping date only, and only
    when the record carries none. *)
Lemma mapped_stamped (p : Proceso) :
  truthy (fecha_scraping p) = true ->
  ETL.mapScrapeDataToProcesoSchema later p = mapped p.
Proof.
  intros Hp. unfold ETL.mapScrapeDataToProcesoSchema. f_equal.
  by rewrite !orElse_truthy.
Qed.

Lemma persistOne_stamped (cap : option Z) (st : ETL.Persist) (p : Proceso) :
  truthy (fecha_scraping p) = true ->
  ETL.persistOne later db_error cap st p = persistOne cap st p.
Proof.
  intros Hp. unfold ETL.persistOne, ETL.tryPersist, ETL.upsert.
  by rewrite (mapped_stamped p Hp).
Qed.

Lemma persistAll_stamped (cap : option Z) (l : list Proceso) (st : ETL.Persist) :
  Forall (fun p => truthy (fecha_scraping p) = true) l ->
  foldl (ETL.persistOne later db_error cap) st l = foldl (persistOne cap) st l.
Proof.
  intros Hl. revert st. induction Hl as [|p l Hp _ IH]; intros st; simpl; [done|].
  by rewrite persistOne_stamped, IH.
Qed.

(** X10.  Running the persistence loop a second time over the same
    records changes nothing, whatever the clock reads by then, provided the
    records carry their scraping date, as every scraped record does.  With
    no cap, a database that accepts every call and records that all carry a
    text identifier, the first run has no errors, and the second run over
    the table it left inserts nothing, counts every record as an update and
    leaves the table as the first run left it.  (A record without a scraping
    date is stamped with the clock of each run, so the second run would
    write a later date.) *)
Theorem persistAll_second_run_changes_nothing (results : list Proceso)
    (db : gmap string Proceso) (Hids : Forall textId results)
    (Hstamped : Forall (fun p => truthy (fecha_scraping p) = true) results) :
  let first := persistAll None results db in
  let second := ETL.persistAll later db_error None results (ETL.store first) in
  ETL.errorCount first = 0%nat
  /\ ETL.savedCount second = 0%nat
  /\ ETL.updateCount second = length results
  /\ ETL.errorCount second = 0%nat
  /\ ETL.store second = ETL.store first.
Proof.
  intros first second. subst first second.
  pose proof (second_run_same_clock results db Hids) as H. cbv zeta in H.
  unfold ETL.persistAll in *. by rewrite !persistAll_stamped.
Qed.

End Rerun.

Lemma persistAll_second_run_changes_nothing_witness :
  (forall c db, Paged.accepts c db = None)
  /\ Forall textId [Paged.normal1; normal2]
  /\ Forall (fun p => truthy (fecha_scraping p) = true) [Paged.normal1; normal2]
  /\ (let first := ETL.persistAll Paged.node Paged.accepts None [Paged.normal1; normal2] ∅ in
      let second := ETL.persistAll afterwards Paged.accepts None [Paged.normal1; normal2]
                      (ETL.store first) in
      ETL.errorCount first = 0%nat
      /\ ETL.savedCount second = 0%nat
      /\ ETL.updateCount second = length [Paged.normal1; normal2]
      /\ ETL.errorCount second = 0%nat
      /\ ETL.store second = ETL.store first).
Proof.
  assert (Hdb : forall c db, Paged.accepts c db = None) by reflexivity.
  assert (Hids : Forall textId [Paged.normal1; normal2]).
  { repeat constructor; eexists; (split; [reflexivity|discriminate]). }
  assert (Hstamped : Forall (fun p => truthy (fecha_scraping p) = true)
                       [Paged.normal1; normal2]).
  { repeat constructor. }
  split; [exact Hdb|]. split; [exact Hids|]. split; [exact Hstamped|].
  pose proof (persistAll_second_run_changes_nothing Paged.node Paged.accepts Hdb afterwards
                [Paged.normal1; normal2] ∅ Hids Hstamped) as H.
  exact H.
Defined.

(** Why the records must carry their scraping date: a record without one
    is stamped with the clock of each run, and the second run leaves
    another table than the first. *)
Example second_run_restamps :
  let p := assign F_fecha_scraping VNull Paged.normal1 in
  let first := ETL.persistAll Paged.node Paged.accepts None [p] ∅ in
  let second := ETL.persistAll afterwards Paged.accepts None [p] (ETL.store first) in
  textId p
  /\ fecha_scraping <$> (ETL.store first !! "AS-SM-1-2025")
     = Some (VStr "2025-10-09T14:31:00.000Z")
  /\ fecha_scraping <$> (ETL.store second !! "AS-SM-1-2025")
     = Some (VStr "2025-10-10T09:00:00.000Z")
  /\ ETL.store second <> ETL.store first.
Proof.
  intros p first second.
  assert (H1 : fecha_scraping <$> (ETL.store first !! "AS-SM-1-2025")
               = Some (VStr "2025-10-09T14:31:00.000Z")) by (vm_compute; reflexivity).
  assert (H2 : fecha_scraping <$> (ETL.store second !! "AS-SM-1-2025")
               = Some (VStr "2025-10-10T09:00:00.000Z")) by (vm_compute; reflexivity).
  split; [eexists; split; [reflexivity|discriminate]|].
  split; [exact H1|]. split; [exact H2|].
  intros Heq. rewrite Heq, H1 in H2. discriminate H2.
Qed.

(** ** PaginatedExtractor: the records a search returns *)

Lemma mapOutcome_Forall {A B : Type} (f : A -> outcome B) (P : B -> Prop) (l : list A)
    (l' : list B) :
  Forall (fun x => forall y, f x = Return y -> P y) l ->
  mapOutcome f l = Return l' -> Forall P l'.
Proof.
  intros Hl. revert l'. induction Hl as [|x l Hx _ IH]; intros l'; simpl.
  - by intros [= <-].
  - destruct (f x) as [e|y]; [done|].
    destruct (mapOutcome f l) as [e|ys]; [done|].
    intros [= <-]. constructor; [by apply Hx|by apply IH].
Qed.

Lemma slice0_Forall {A} (P : A -> Prop) (m : Z) (l : list A) :
  Forall P l -> Forall P (Scraper.slice0 m l).
Proof. intros H. unfold Scraper.slice0. destruct (m <? 0)%Z; by apply Forall_take. Qed.

Lemma slice0_length {A} (m : Z) (l : list A) :
  (1 <= m)%Z -> (Z.of_nat (length (Scraper.slice0 m l)) <= m)%Z.
Proof.
  intros Hm. unfold Scraper.slice0.
  assert ((m <? 0)%Z = false) as -> by (apply Z.ltb_ge; lia).
  rewrite length_take. lia.
Qed.

Section Results.

Context {World : Type}.
Variable browser : forall A, Op A -> World -> outcome A * World.
Variable node : NodeEnv.

(** Every record read off a page is identified by a non-empty text. *)
Lemma extractTableData_textId (st st' : State) (l : list Proceso) :
  Scraper.extractTableData browser node st = (Normal l, st') -> Forall textId l.
Proof.
  unfold Scraper.extractTableData. intros H.
  apply try_catch_normal in H as [H|(e & st1 & _ & H)].
  - apply bind_normal in H as (page & st1 & _ & H). cbv zeta in H.
    apply bind_normal in H as ([] & st2 & _ & H).
    unfold lift in H.
    destruct (mapOutcome _ _) as [e|l'] eqn:Hl'; [done|]. injection H as <- _.
    eapply mapOutcome_Forall; [|exact Hl'].
    eapply Forall_impl; [apply extractFrom_rows|].
    intros p (i & cells & Hp) q Hq. by eapply scraped_record_id.
  - apply bind_normal in H as ([] & st2 & _ & H). injection H as <- _. constructor.
Qed.

Lemma extractPages_textId (fuel : nat) :
  forall (maxProcesses : option Z) (currentPage total : nat) (acc : list Proceso)
         (st st' : State) (r : Scraper.LoopResult),
    Forall textId acc ->
    Scraper.extractPages browser node fuel maxProcesses currentPage true total acc st
    = (Normal r, st') ->
    Forall textId (Scraper.allResults r).
Proof.
  induction fuel as [|fuel IH]; intros cap page total acc st st' r Hacc; simpl.
  - destruct (match cap with Some m => _ | None => true end); [done|].
    by intros [= <- _].
  - destruct (match cap with Some m => _ | None => true end); [|by intros [= <- _]].
    intros H.
    apply bind_normal in H as ([] & st1 & _ & H).
    apply bind_normal in H as ([] & st2 & _ & H).
    apply bind_normal in H as (pageResults & st3 & Hpage & H).
    apply extractTableData_textId in Hpage.
    destruct (length pageResults =? 0)%nat.
    { apply bind_normal in H as ([] & st4 & _ & H). by injection H as <- _. }
    cbv zeta in H.
    assert (Hall : Forall textId (acc ++ pageResults)) by (by apply Forall_app).
    apply bind_normal in H as ([] & st4 & _ & H).
    destruct (Scraper.capSet cap && _).
    { apply bind_normal in H as ([] & st5 & _ & H). by injection H as <- _. }
    apply bind_normal in H as (more & st5 & _ & H).
    destruct more; cbn [negb] in H.
    + apply bind_normal in H as ([] & st6 & _ & H).
      apply bind_normal in H as ([] & st7 & _ & H).
      by eapply IH.
    + apply bind_normal in H as ([] & st6 & _ & H). by injection H as <- _.
Qed.

(** The last steps of [searchProcesses]: what it returns is what the page
    loop collected, cut to the cap when one is set. *)
Lemma searchProcesses_result (fuel : nat) (timeout : N) (params : Scraper.SearchParams)
    (st st' : State) (results : list Proceso) :
  Scraper.searchProcesses browser node fuel timeout params st = (Normal results, st') ->
  exists r st1 st2,
    Scraper.extractPages browser node fuel (Scraper.maxProcesses params) 1 true 0 [] st1
    = (Normal r, st2)
    /\ results = (if Scraper.capSet (Scraper.maxProcesses params)
                  then Scraper.slice0 (default 0%Z (Scraper.maxProcesses params))
                         (Scraper.allResults r)
                  else Scraper.allResults r).
Proof.
  unfold Scraper.searchProcesses. intros H.
  apply try_catch_normal in H as [H|(e & st1 & _ & H)].
  - repeat (lazymatch type of H with
            | (Scraper.extractPages _ _ _ _ _ _ _ _ ≫= _) _ = _ => fail
            | _ => apply bind_normal in H as (? & ? & _ & H); cbv zeta in H
            end).
    match type of H with
    | (Scraper.extractPages _ _ _ _ _ _ _ _ ≫= _) _ = _ =>
        apply bind_normal in H as (r & st2 & Hloop & H)
    end.
    repeat (apply bind_normal in H as ([] & ? & _ & H)).
    injection H as <- _. eauto.
  - apply bind_normal in H as ([] & st2 & _ & H). done.
Qed.

Lemma searchProcesses_textId (fuel : nat) (timeout : N) (params : Scraper.SearchParams)
    (st st' : State) (results : list Proceso) :
  Scraper.searchProcesses browser node fuel timeout params st = (Normal results, st') ->
  Forall textId results.
Proof.
  intros H. apply searchProcesses_result in H as (r & st1 & st2 & Hloop & ->).
  apply extractPages_textId in Hloop; [|constructor].
  destruct (Scraper.capSet _); [by apply slice0_Forall|done].
Qed.

(** X11.  Whenever [searchProcesses] returns, every record it returns is
    identified by a non-empty text, and under a cap of at least 1 it
    returns no more records than the cap. *)
Theorem searchProcesses_returns_identified_records (fuel : nat) (timeout : N)
    (params : Scraper.SearchParams) (st : State) (results : list Proceso)
    (Hrun : fst (Scraper.searchProcesses browser node fuel timeout params st)
            = Normal results) :
  Forall textId results
  /\ forall m, Scraper.maxProcesses params = Some m -> (1 <= m)%Z ->
               (Z.of_nat (length results) <= m)%Z.
Proof.
  destruct (Scraper.searchProcesses browser node fuel timeout params st)
    as [c st'] eqn:H.
  simpl in Hrun. subst c.
  split; [by eapply searchProcesses_textId|].
  apply searchProcesses_result in H as (r & st1 & st2 & Hloop & ->).
  intros m -> Hm. simpl.
  assert ((m =? 0)%Z = false) as -> by (apply Z.eqb_neq; lia).
  by apply slice0_length.
Qed.

End Results.

Lemma searchProcesses_returns_identified_records_witness :
  fst (Scraper.searchProcesses Paged.browser Paged.node 3 90000%N
         (ETL.searchParams Paged.node (Paged.job (Some 3%Z)))
         (Paged.start (Paged.source 2 2))) = Normal found
  /\ Forall textId found
  /\ forall m, Scraper.maxProcesses (ETL.searchParams Paged.node (Paged.job (Some 3%Z)))
               = Some m ->
               (1 <= m)%Z -> (Z.of_nat (length found) <= m)%Z.
Proof.
  split; [vm_compute; reflexivity|].
  apply (searchProcesses_returns_identified_records Paged.browser Paged.node 3 90000%N
           (ETL.searchParams Paged.node (Paged.job (Some 3%Z)))
           (Paged.start (Paged.source 2 2)) found).
  vm_compute. reflexivity.
Defined.

(** ** JobOrchestrator: how a job ends *)

Section Thrown.

Context {World : Type}.

#[local] Abbreviation M := (@Driver.M World).

Lemma abrupts_throw {A} (e : string) : abrupts (throw e : M A).
Proof. intros st. by eexists _, _. Qed.

Lemma abrupts_bind_left {A B} (m : M A) (f : A -> M B) :
  abrupts m -> abrupts (m ≫= f).
Proof. intros Hm st. rewrite bind_run. destruct (Hm st) as (e & st1 & ->). eauto. Qed.

Lemma abrupts_bind_returns {A B} (m : M A) (f : A -> M B) :
  returns m -> (forall a, abrupts (f a)) -> abrupts (m ≫= f).
Proof. intros Hm Hf st. rewrite bind_run. destruct (Hm st) as (a & st1 & ->). apply Hf. Qed.

Lemma abrupts_bind_tame (mu : World -> nat) {A B} (m : M A) (f : A -> M B) :
  tame mu m -> (forall a, abrupts (f a)) -> abrupts (m ≫= f).
Proof.
  intros Hm Hf st. rewrite bind_run. destruct (Hm st) as [Hfin _].
  destruct (m st) as [[a|e|] st1]; simpl in *; [apply Hf|eauto|done].
Qed.

Lemma abrupts_try_catch {A} (body : M A) (handler : string -> M A) :
  abrupts body -> (forall e, abrupts (handler e)) -> abrupts (try_catch body handler).
Proof.
  intros Hm Hh st. unfold try_catch. destruct (Hm st) as (e & st1 & ->). apply Hh.
Qed.

End Thrown.

Section Outcome.

Context {World : Type}.
Variable browser : forall A, Op A -> World -> outcome A * World.
Variable node : NodeEnv.
Variable db_error : ETL.DbCall -> gmap string Proceso -> option string.
Variable exportService : ETL.ExportFormat -> list Proceso -> outcome bool.

#[local] Abbreviation flat := (fun _ : World => 0%nat).

Lemma flat_calls : forall A (op : Op A) w, (flat (snd (browser A op w)) <= flat w)%nat.
Proof. done. Qed.

Lemma tame_initialize : tame flat (Scraper.initialize browser).
Proof.
  pose proof flat_calls as mu_calls. unfold Scraper.initialize. tame_auto.
Qed.

Section Stalled.

Variable timeout : N.

(** The wait for the first row of the results table runs into its
    timeout, whatever the page. *)
Hypothesis no_table : forall w,
  exists e, fst (browser _ (WaitForSelector "table[role=grid] tbody tr" timeout) w) = Throw e.

Lemma waitForResults_abrupts : abrupts (Scraper.waitForResults browser timeout).
Proof.
  intros st. pose proof (waitForResults_run browser timeout st) as H.
  destruct (no_table (world st)) as [e He].
  destruct (browser _ (WaitForSelector _ timeout) (world st)) as [[e'|[]] w];
    [|discriminate].
  destruct (Scraper.waitForResults browser timeout st) as [c st']. simpl in H. subst c.
  by eexists _, _.
Qed.

Lemma searchProcesses_abrupts (fuel : nat) (params : Scraper.SearchParams) :
  abrupts (Scraper.searchProcesses browser node fuel timeout params).
Proof.
  pose proof flat_calls as mu_calls.
  unfold Scraper.searchProcesses. apply abrupts_try_catch.
  2:{ intros e. apply abrupts_bind_returns; [apply returns_logger|].
      intros _. apply abrupts_throw. }
  repeat first
    [ apply abrupts_bind_left; apply waitForResults_abrupts
    | apply abrupts_bind_returns;
        [ first [ apply returns_logger
                | apply returns_when
                | idtac ];
          first [ apply (returns_selectProcedimientosSeleccion browser flat mu_calls)
                | apply (returns_selectObjetoContratacion browser flat mu_calls)
                | apply (returns_selectAnio browser flat mu_calls)
                | apply (returns_setFechaPublicacion browser flat mu_calls)
                | apply (returns_fillDescripcion browser flat mu_calls)
                | apply (returns_clickBuscar browser flat mu_calls)
                | apply returns_logger ]
        | intros ?; cbv zeta ]
    | apply (abrupts_bind_tame flat);
        [ first [ apply tame_get_this_browser
                | apply tame_when; apply tame_initialize
                | apply tame_call; exact mu_calls ]
        | intros ?; cbv zeta ] ].
Qed.

(** X12.  When the results table never appears, [searchProcesses] throws,
    whatever the filters and whatever the other controls of the page do:
    no record is returned.  The error thrown is the one it has logged last,
    as [Error durante scraping]. *)
Theorem searchProcesses_throws_without_results_table (fuel : nat)
    (params : Scraper.SearchParams) (st : State) :
  exists e st',
    Scraper.searchProcesses browser node fuel timeout params st = (Abrupt e, st')
    /\ last (log st') = Some (Error, "Error durante scraping: " +:+ e).
Proof.
  destruct (searchProcesses_abrupts fuel params st) as (e & st' & Hrun).
  exists e, st'. split; [done|].
  revert Hrun. unfold Scraper.searchProcesses, try_catch.
  match goal with
  | |- match ?body st with _ => _ end = _ -> _ => destruct (body st) as [[a|e0|] st1]
  end; [done| |done].
  rewrite bind_run, logger_run. intros [= <- <-]. simpl. apply last_snoc.
Qed.

End Stalled.

Lemma scrape_abrupts (fuel : nat) (params : ETL.JobParams) :
  (forall w, exists e,
     fst (browser _ (WaitForSelector "table[role=grid] tbody tr" 90000%N) w) = Throw e) ->
  abrupts (ETL.scrape node browser fuel params).
Proof.
  intros Hno. unfold ETL.scrape.
  apply (abrupts_bind_tame flat); [apply tame_initialize|intros _].
  apply abrupts_bind_returns; [apply returns_logger|intros _].
  by apply searchProcesses_abrupts.
Qed.

(** A job whose scraping part throws is logged as failed, with the table
    as it was. *)
Lemma performScraping_failed (fuel : nat) (params : ETL.JobParams)
    (db : gmap string Proceso) (st st1 : State) (e : string) :
  ETL.scrape node browser fuel params st = (Abrupt e, st1) ->
  exists st',
    ETL.performScraping node db_error browser exportService fuel params db st
    = (Normal (ETL.failedLog e, db), st').
Proof.
  intros Hscrape. unfold ETL.performScraping.
  rewrite bind_run. unfold try_catch.
  rewrite bind_run, Hscrape. cbv beta iota.
  rewrite bind_run, logger_run. cbv beta iota.
  cbn [mret M_ret ret].
  rewrite bind_run.
  match goal with
  | |- context [Scraper.close _ ?s] =>
      destruct (returns_close browser s) as ([] & st3 & ->)
  end.
  by eexists.
Qed.

(** X13.  When the results table never appears, the job does not throw:
    it is logged as failed with one error, the table is left as it was,
    and the scraper is closed. *)
Theorem performScraping_fails_without_results_table (fuel : nat)
    (params : ETL.JobParams) (db : gmap string Proceso) (st : State)
    (Hno : forall w, exists e,
       fst (browser _ (WaitForSelector "table[role=grid] tbody tr" 90000%N) w) = Throw e) :
  exists row st',
    ETL.performScraping node db_error browser exportService fuel params db st
    = (Normal (row, db), st')
    /\ ETL.status row = "failed"
    /\ ETL.error_count row = 1%nat
    /\ ETL.inserted_count row = 0%nat
    /\ ETL.updated_count row = 0%nat.
Proof.
  destruct (scrape_abrupts fuel params Hno st) as (e & st1 & Hscrape).
  destruct (performScraping_failed fuel params db st st1 e Hscrape) as (st' & ->).
  by exists (ETL.failedLog e), st'.
Qed.

(** X14.  [performScraping] never throws.  A job that ends is logged as
    completed or as failed.  A completed job reports the inserts and
    updates of the persistence loop, the table has grown by exactly the
    inserts reported and has lost no row; a failed job reports one error and
    leaves the table as it was. *)
Theorem performScraping_ends_completed_or_failed (fuel : nat) (params : ETL.JobParams)
    (db : gmap string Proceso) (st : State) :
  match fst (ETL.performScraping node db_error browser exportService fuel params db st) with
  | Normal (row, db') =>
      (ETL.status row = "completed"
       /\ ETL.process_count row = (ETL.inserted_count row + ETL.updated_count row)%nat
       /\ size db' = (size db + ETL.inserted_count row)%nat
       /\ forall k, is_Some (db !! k) -> is_Some (db' !! k))
      \/ (ETL.status row = "failed"
          /\ ETL.error_count row = 1%nat
          /\ ETL.inserted_count row = 0%nat
          /\ db' = db)
  | Abrupt _ => False
  | Unfinished => True
  end.
Proof.
  unfold ETL.performScraping. rewrite bind_run. unfold try_catch at 1.
  match goal with
  | |- context [match ?body st with _ => _ end] => destruct (body st) as [[x|e|] st1] eqn:Hb
  end; cbv beta iota.
  - rewrite bind_run.
    destruct (returns_close browser st1) as ([] & st3 & ->). cbn [fst mret M_ret ret].
    apply bind_normal in Hb as (results & st2 & _ & Hb).
    apply bind_normal in Hb as ([] & st4 & _ & Hb).
    apply bind_normal in Hb as ([] & st5 & _ & Hb).
    apply bind_normal in Hb as ([] & st6 & _ & Hb). cbv zeta in Hb.
    apply bind_normal in Hb as ([] & st7 & _ & Hb).
    injection Hb as <- _. left.
    set (cap := ETL.orNumber (ETL.maxProcesses params) None).
    split; [done|]. split; [done|]. split.
    + unfold ETL.persistAll. cbn [ETL.completedLog ETL.inserted_count].
      destruct (counters_loop node db_error cap results (ETL.persistStart db))
        as (Hsize & _). simpl in Hsize. lia.
    + intros k Hk. unfold ETL.persistAll.
      destruct (footprint_loop node db_error cap results (ETL.persistStart db) k)
        as [->|(p & _ & _ & ->)]; [done|eauto].
  - rewrite bind_run, logger_run. cbv beta iota. cbn [mret M_ret ret].
    rewrite bind_run.
    match goal with
    | |- context [Scraper.close _ ?s] =>
        destruct (returns_close browser s) as ([] & st3 & ->)
    end.
    cbn [fst]. by right.
  - done.
Qed.

End Outcome.

Lemma searchProcesses_throws_without_results_table_witness :
  (forall w, exists e,
     fst (stalled _ (WaitForSelector "table[role=grid] tbody tr" 90000%N) w) = Throw e)
  /\ exists e st',
       Scraper.searchProcesses stalled Paged.node 3 90000%N
         (ETL.searchParams Paged.node (Paged.job None)) (Paged.start (Paged.source 2 2))
       = (Abrupt e, st')
       /\ last (log st') = Some (Error, "Error durante scraping: " +:+ e).
Proof.
  assert (Hno : forall w, exists e,
            fst (stalled _ (WaitForSelector "table[role=grid] tbody tr" 90000%N) w)
            = Throw e).
  { intros w. eexists. reflexivity. }
  split; [exact Hno|].
  exact (searchProcesses_throws_without_results_table stalled Paged.node 90000%N Hno 3
           (ETL.searchParams Paged.node (Paged.job None)) (Paged.start (Paged.source 2 2))).
Defined.

Lemma performScraping_fails_without_results_table_witness :
  (forall w, exists e,
     fst (stalled _ (WaitForSelector "table[role=grid] tbody tr" 90000%N) w) = Throw e)
  /\ exists row st',
       ETL.performScraping Paged.node Paged.accepts stalled Paged.exports 3
         (Paged.job None) ∅ (Paged.start (Paged.source 2 2))
       = (Normal (row, ∅), st')
       /\ ETL.status row = "failed"
       /\ ETL.error_count row = 1%nat
       /\ ETL.inserted_count row = 0%nat
       /\ ETL.updated_count row = 0%nat.
Proof.
  assert (Hno : forall w, exists e,
            fst (stalled _ (WaitForSelector "table[role=grid] tbody tr" 90000%N) w)
            = Throw e).
  { intros w. eexists. reflexivity. }
  split; [exact Hno|].
  exact (performScraping_fails_without_results_table stalled Paged.node Paged.accepts
           Paged.exports 3 (Paged.job None) ∅ (Paged.start (Paged.source 2 2)) Hno).
Defined.

(** ** JobOrchestrator: scraped records pass the identifier guard *)

Section Accepted.

Context {World : Type}.
Variable browser : forall A, Op A -> World -> outcome A * World.
Variable node : NodeEnv.
Variable db_error : ETL.DbCall -> gmap string Proceso -> option string.
Variable exportService : ETL.ExportFormat -> list Proceso -> outcome bool.

(** The database accepts every call. *)
Hypothesis accepted : forall c db, db_error c db = None.

(** A record with a text identifier is never counted as an error. *)
Lemma persistOne_keeps_errors (cap : option Z) (st : ETL.Persist) (p : Proceso) :
  textId p ->
  ETL.errorCount (ETL.persistOne node db_error cap st p) = ETL.errorCount st.
Proof.
  intros (k & Hid & Hk). unfold ETL.persistOne, ETL.tryPersist.
  destruct (ETL.limitReached cap (ETL.newProcessesInserted st)).
  - unfold ETL.findOne. rewrite accepted, Hid. cbn.
    destruct (ETL.store st !! k) as [row|]; cbn; [|done].
    unfold ETL.update. by rewrite accepted.
  - unfold ETL.upsert, ETL.findOrCreate, ETL.update.
    rewrite mapped_id, accepted, Hid. cbn [truthy]. rewrite eqb_empty_false by done.
    cbn. destruct (ETL.store st !! k) as [row|]; cbn; [|done].
    by rewrite accepted.
Qed.

Lemma persistAll_keeps_errors (cap : option Z) (l : list Proceso) (st : ETL.Persist) :
  Forall textId l ->
  ETL.errorCount (foldl (ETL.persistOne node db_error cap) st l) = ETL.errorCount st.
Proof.
  intros Hl. revert st. induction Hl as [|p l Hp _ IH]; intros st; simpl; [done|].
  by rewrite IH, persistOne_keeps_errors.
Qed.

(** X15.  On a database that accepts every call, a completed job reports
    no error, whatever the cap: every record the scraper hands over carries
    a non-empty text identifier, so the guard [id_proceso es requerido] of
    the upsert never fires for a scraped record. *)
Theorem performScraping_completed_without_errors (fuel : nat) (params : ETL.JobParams)
    (db : gmap string Proceso) (st : State) :
  match fst (ETL.performScraping node db_error browser exportService fuel params db st) with
  | Normal (row, db') => ETL.status row = "completed" -> ETL.error_count row = 0%nat
  | _ => True
  end.
Proof.
  unfold ETL.performScraping. rewrite bind_run. unfold try_catch at 1.
  match goal with
  | |- context [match ?body st with _ => _ end] => destruct (body st) as [[x|e|] st1] eqn:Hb
  end; cbv beta iota.
  - rewrite bind_run.
    destruct (returns_close browser st1) as ([] & st3 & ->). cbn [fst mret M_ret ret].
    apply bind_normal in Hb as (results & st2 & Hscrape & Hb).
    apply bind_normal in Hb as ([] & st4 & _ & Hb).
    apply bind_normal in Hb as ([] & st5 & _ & Hb).
    apply bind_normal in Hb as ([] & st6 & _ & Hb). cbv zeta in Hb.
    apply bind_normal in Hb as ([] & st7 & _ & Hb).
    injection Hb as <- _. intros _.
    unfold ETL.scrape in Hscrape.
    apply bind_normal in Hscrape as ([] & st8 & _ & Hscrape).
    apply bind_normal in Hscrape as ([] & st9 & _ & Hscrape).
    apply searchProcesses_textId in Hscrape.
    cbn [ETL.completedLog ETL.error_count]. unfold ETL.persistAll.
    by rewrite persistAll_keeps_errors.
  - rewrite bind_run, logger_run. cbv beta iota. cbn [mret M_ret ret].
    rewrite bind_run.
    match goal with
    | |- context [Scraper.close _ ?s] =>
        destruct (returns_close browser s) as ([] & st3 & ->)
    end.
    cbn [fst]. discriminate.
  - done.
Qed.

End Accepted.

Lemma performScraping_completed_without_errors_witness :
  (forall c db, Paged.accepts c db = None)
  /\ match fst (ETL.performScraping Paged.node Paged.accepts Paged.browser Paged.exports 3
                  (Paged.job (Some 3%Z)) ∅ (Paged.start (Paged.source 2 2))) with
     | Normal (row, db') => ETL.status row = "completed" -> ETL.error_count row = 0%nat
     | _ => True
     end.
Proof.
  assert (Hdb : forall c db, Paged.accepts c db = None) by reflexivity.
  split; [exact Hdb|].
  pose proof (performScraping_completed_without_errors Paged.browser Paged.node
                Paged.accepts Paged.exports Hdb 3 (Paged.job (Some 3%Z)) ∅
                (Paged.start (Paged.source 2 2))) as H.
  exact H.
Defined.

(** ** Substring search *)

Lemma includes_cons (k : string) (c : ascii) (r : string) :
  includes k (String c r) = String.prefix k (String c r) || includes k r.
Proof. reflexivity. Qed.

Lemma includes_empty_hay (k : string) : includes k "" = String.prefix k "".
Proof. simpl. apply orb_false_r. Qed.

Lemma prefix_refl (k : string) : String.prefix k k = true.
Proof.
  induction k as [|c k IH]; simpl; [done|]. by destruct (ascii_dec c c).
Qed.

Lemma prefix_append (k h post : string) :
  String.prefix k h = true -> String.prefix k (h +:+ post) = true.
Proof.
  revert k. induction h as [|c h IH]; intros [|a k]; text_simpl; try done.
  - by destruct post.
  - destruct (ascii_dec a c); [apply IH|done].
Qed.

Lemma prefix_length (k h : string) :
  String.prefix k h = true -> (String.length k <= String.length h)%nat.
Proof.
  revert k. induction h as [|c h IH]; intros [|a k]; simpl; try done; try lia.
  destruct (ascii_dec a c); [|done]. intros H. apply IH in H. lia.
Qed.

Lemma includes_prefix (k h : string) : String.prefix k h = true -> includes k h = true.
Proof. intros H. destruct h; [by rewrite includes_empty_hay|]. by rewrite includes_cons, H. Qed.

Lemma includes_refl (k : string) : includes k k = true.
Proof. apply includes_prefix, prefix_refl. Qed.

Lemma includes_nothing (h : string) : includes "" h = true.
Proof. apply includes_prefix. by destruct h. Qed.

Lemma includes_append_r (k h post : string) :
  includes k h = true -> includes k (h +:+ post) = true.
Proof.
  induction h as [|c h IH].
  - rewrite includes_empty_hay. intros H. apply includes_prefix.
    by apply (prefix_append k "" post).
  - rewrite append_cons, !includes_cons. intros [H|H]%orb_true_iff.
    + pose proof (prefix_append k (String c h) post H) as Hp.
      rewrite append_cons in Hp. by rewrite Hp.
    + rewrite IH by done. apply orb_true_r.
Qed.

Lemma includes_append_l (k pre h : string) :
  includes k h = true -> includes k (pre +:+ h) = true.
Proof.
  intros H. induction pre as [|c pre IH]; [done|].
  rewrite append_cons, includes_cons, IH. apply orb_true_r.
Qed.

Lemma includes_length (k h : string) :
  includes k h = true -> (String.length k <= String.length h)%nat.
Proof.
  induction h as [|c h IH].
  - rewrite includes_empty_hay. apply prefix_length.
  - rewrite includes_cons. intros [H|H]%orb_true_iff.
    + by apply prefix_length.
    + apply IH in H. simpl. lia.
Qed.

Lemma toLowerCase_append (a b : string) :
  toLowerCase (a +:+ b) = toLowerCase a +:+ toLowerCase b.
Proof. induction a as [|c a IH]; text_simpl; [done|]. by rewrite IH. Qed.

Lemma toLowerCase_length (s : string) : String.length (toLowerCase s) = String.length s.
Proof. induction s as [|c s IH]; simpl; [done|]. by rewrite IH. Qed.

(** ** The chatbot service *)

(** X16.  [isValidSeaceQuery] looks for its keywords as substrings of the
    lower-cased query.  So a query that is accepted stays accepted inside
    any longer text; a keyword in any letter case is accepted wherever it
    stands, also inside another word; and no query of fewer than two
    characters is accepted, the empty query included. *)
Theorem isValidSeaceQuery_accepts_by_containment :
  (forall pre q post : string,
     Chatbot.isValidSeaceQuery q = true ->
     Chatbot.isValidSeaceQuery (pre +:+ q +:+ post) = true)
  /\ (forall pre q post k : string,
        In k Chatbot.keywords -> toLowerCase q = k ->
        Chatbot.isValidSeaceQuery (pre +:+ q +:+ post) = true)
  /\ (forall q : string,
        Chatbot.isValidSeaceQuery q = true -> (2 <= String.length q)%nat).
Proof.
  assert (Hgrow : forall pre q post : string,
            Chatbot.isValidSeaceQuery q = true ->
            Chatbot.isValidSeaceQuery (pre +:+ q +:+ post) = true).
  { intros pre q post. unfold Chatbot.isValidSeaceQuery. cbv zeta.
    rewrite !existsb_exists. intros (k & Hk & Hin). exists k. split; [done|].
    rewrite !toLowerCase_append. by apply includes_append_l, includes_append_r. }
  split; [exact Hgrow|]. split.
  - intros pre q post k Hk Hq. apply Hgrow.
    unfold Chatbot.isValidSeaceQuery. cbv zeta. apply existsb_exists.
    exists k. split; [done|]. rewrite Hq. apply includes_refl.
  - intros q. unfold Chatbot.isValidSeaceQuery. cbv zeta.
    rewrite existsb_exists. intros (k & Hk & Hin).
    apply includes_length in Hin. rewrite toLowerCase_length in Hin.
    assert (Hlong : forallb (fun k => (2 <=? String.length k)%nat) Chatbot.keywords = true)
      by (vm_compute; reflexivity).
    rewrite forallb_forall in Hlong. specialize (Hlong k Hk).
    apply Nat.leb_le in Hlong. lia.
Qed.

(** ** The recommendations service *)

Lemma due_from (now last d : Z) :
  (d <=? (now - last) / Recommendations.msPerDay)%Z = true
  <-> (last + d * Recommendations.msPerDay <= now)%Z.
Proof.
  rewrite Z.leb_le.
  assert (Hpos : (0 < Recommendations.msPerDay)%Z) by (by vm_compute).
  split; intros H.
  - pose proof (Z.mul_div_le (now - last) _ Hpos). nia.
  - apply Z.div_le_lower_bound; [done|]. lia.
Qed.

Lemma never_due (now last : Z) (frequency : string) :
  Recommendations.days frequency = None ->
  Recommendations.shouldGenerateRecommendations now frequency (Some last) = false.
Proof.
  unfold Recommendations.days, Recommendations.shouldGenerateRecommendations. cbv zeta.
  by repeat (destruct (String.eqb frequency _); [done|]).
Qed.

(** X17.  A generation is due exactly from the date that
    [calculateNextGeneration] reports: for each of the four frequencies,
    [shouldGenerateRecommendations] answers true if and only if the clock
    has reached the last generation plus the days of the frequency.  For
    every other frequency it never answers true once there was a
    generation; without an earlier generation it always answers true. *)
Theorem generation_due_from_next_generation (now last : Z) (frequency : string) :
  match Recommendations.days frequency with
  | Some d =>
      Recommendations.calculateNextGeneration frequency last
      = Some (last + d * Recommendations.msPerDay)%Z
      /\ (Recommendations.shouldGenerateRecommendations now frequency (Some last) = true
          <-> (last + d * Recommendations.msPerDay <= now)%Z)
  | None =>
      Recommendations.shouldGenerateRecommendations now frequency (Some last) = false
  end
  /\ Recommendations.shouldGenerateRecommendations now frequency None = true.
Proof.
  split; [|done].
  unfold Recommendations.days, Recommendations.shouldGenerateRecommendations. cbv zeta.
  destruct (String.eqb frequency "diaria") eqn:E1;
    [apply String.eqb_eq in E1; subst; split;
       [unfold Recommendations.calculateNextGeneration, Recommendations.msPerDay;
        simpl; f_equal; lia | apply due_from]|].
  destruct (String.eqb frequency "cada_3_dias") eqn:E2;
    [apply String.eqb_eq in E2; subst; split;
       [unfold Recommendations.calculateNextGeneration, Recommendations.msPerDay;
        simpl; f_equal; lia | apply due_from]|].
  destruct (String.eqb frequency "semanal") eqn:E3;
    [apply String.eqb_eq in E3; subst; split;
       [unfold Recommendations.calculateNextGeneration, Recommendations.msPerDay;
        simpl; f_equal; lia | apply due_from]|].
  destruct (String.eqb frequency "mensual") eqn:E4;
    [apply String.eqb_eq in E4; subst; split;
       [unfold Recommendations.calculateNextGeneration, Recommendations.msPerDay;
        simpl; f_equal; lia | apply due_from]|].
  done.
Qed.

(** X18.  The test that lets [generateRecommendations] go ahead: a forced
    generation and a first generation always go ahead; with the frequency
    unset the weekly rule applies, the generation going ahead exactly from
    seven days after the last one; and under a frequency that is none of
    the four known ones a user who has had a generation never gets another
    one unless it is forced. *)
Theorem generation_goes_ahead_when_due (now last : Z) :
  (forall frequency lastGenerated,
     Recommendations.generationGoesAhead now true frequency lastGenerated = true)
  /\ (forall frequency,
        Recommendations.generationGoesAhead now false frequency None = true)
  /\ (Recommendations.generationGoesAhead now false None (Some last) = true
      <-> (last + 7 * Recommendations.msPerDay <= now)%Z)
  /\ (forall frequency,
        frequency <> "" -> Recommendations.days frequency = None ->
        Recommendations.generationGoesAhead now false (Some frequency) (Some last) = false).
Proof.
  split; [done|]. split; [done|]. split.
  - unfold Recommendations.generationGoesAhead. cbn [negb Scraper.orText].
    rewrite bool_decide_eq_true_2 by eauto. cbn [andb].
    rewrite negb_involutive.
    change (Recommendations.shouldGenerateRecommendations now "semanal" (Some last))
      with (7 <=? (now - last) / Recommendations.msPerDay)%Z.
    apply due_from.
  - intros frequency Hne Hdays.
    unfold Recommendations.generationGoesAhead. cbn [negb Scraper.orText].
    rewrite eqb_empty_false by done.
    rewrite bool_decide_eq_true_2 by eauto. cbn [andb].
    by rewrite never_due.
Qed.

Lemma existsb_In {A} (f : A -> bool) (l : list A) (x : A) :
  In x l -> f x = true -> existsb f l = true.
Proof. intros Hin Hx. apply existsb_exists. eauto. Qed.

(** X19.  The region score is one of 0, 0.5, 0.7 and 1.  Without a
    department it is 0 for a user with regions, also where the province
    would match; a region of interest in another letter case than the
    department scores 1; and a region of interest that is the empty text
    matches every department. *)
Theorem calculateRegionMatch_scores :
  (forall userRegions departamento provincia,
     In (Recommendations.calculateRegionMatch userRegions departamento provincia)
        [0; 5 # 10; 7 # 10; 1]%Q)
  /\ (forall departamento provincia,
        Recommendations.calculateRegionMatch None departamento provincia = (5 # 10)%Q
        /\ Recommendations.calculateRegionMatch (Some []) departamento provincia
           = (5 # 10)%Q)
  /\ (forall region userRegions provincia,
        Recommendations.calculateRegionMatch (Some (region :: userRegions)) None provincia
        = 0%Q)
  /\ (forall userRegions region departamento provincia,
        In region userRegions -> departamento <> "" ->
        toLowerCase region = toLowerCase departamento ->
        Recommendations.calculateRegionMatch (Some userRegions) (Some departamento)
          provincia = 1%Q)
  /\ (forall userRegions departamento provincia,
        In "" userRegions -> departamento <> "" ->
        Recommendations.calculateRegionMatch (Some userRegions) (Some departamento)
          provincia = 1%Q).
Proof.
  assert (Hmatch : forall userRegions region departamento provincia,
            In region userRegions -> departamento <> "" ->
            Recommendations.eitherIncludes departamento region = true ->
            Recommendations.calculateRegionMatch (Some userRegions) (Some departamento)
              provincia = 1%Q).
  { intros userRegions region departamento provincia Hin Hd Hinc.
    unfold Recommendations.calculateRegionMatch.
    destruct userRegions as [|r l]; [by destruct Hin|].
    destruct departamento as [|c d]; [done|].
    by rewrite (existsb_In _ _ region Hin Hinc). }
  split; [|split; [|split; [|split]]].
  - intros userRegions departamento provincia.
    unfold Recommendations.calculateRegionMatch.
    destruct userRegions as [[|r l]|]; [simpl; tauto| |simpl; tauto].
    destruct departamento as [[|c d]|]; [simpl; tauto| |simpl; tauto].
    destruct (existsb _ _); [simpl; tauto|].
    destruct provincia as [[|c' p]|]; [simpl; tauto| |simpl; tauto].
    destruct (existsb _ _); simpl; tauto.
  - done.
  - done.
  - intros userRegions region departamento provincia Hin Hd Hsame.
    apply (Hmatch userRegions region); [done|done|].
    unfold Recommendations.eitherIncludes. rewrite Hsame, includes_refl. done.
  - intros userRegions departamento provincia Hin Hd.
    apply (Hmatch userRegions ""); [done|done|].
    unfold Recommendations.eitherIncludes.
    change (toLowerCase "") with "". by rewrite includes_nothing.
Qed.

(** The normaliser rewrites six fields; in every other field it only turns
    a blank text into null. *)
Lemma normalizeProcesoData_other_fields (env : NodeEnv) (p q : Proceso) (f : Field) :
  normalizeProcesoData env p = Return q ->
  f <> F_fecha_publicacion -> f <> F_monto_referencial -> f <> F_moneda ->
  f <> F_version_seace -> f <> F_id_proceso -> f <> F_nombre_entidad ->
  get f q = blankToNull (get f p).
Proof.
  intros Hq H1 H2 H3 H4 H5 H6. revert Hq. unfold normalizeProcesoData.
  set (p1 := assign F_monto_referencial _ _).
  destruct (missingOrBlank (moneda p1)) as [e|b1]; [done|]. cbn [mbind outcome_bind].
  set (p2 := if b1 then _ else _).
  destruct (missingOrBlank (version_seace p2)) as [e|b2]; [done|]. cbn [mbind outcome_bind].
  intros [= <-].
  rewrite !get_assign_if, get_forEachKey, !get_assign_if by done.
  subst p2. rewrite get_assign_if by done.
  subst p1. rewrite !get_assign. by repeat case_decide.
Qed.

(** X20.  The scraper fills no department and no province, and neither
    the normaliser nor the persistence mapping adds one: the stored row of
    every scraped record has the region score 0 for a user with regions of
    interest, and 0.5 for a user without. *)
Theorem scraped_rows_match_no_region (env node : NodeEnv) (page : Snapshot) (index : nat)
    (cells : list Cell) (p q : Proceso) (userRegions : option (list string))
    (Hrow : extractRow page index cells = Some p)
    (Hq : normalizeProcesoData env p = Return q) :
  let stored := ETL.mapScrapeDataToProcesoSchema node q in
  departamento stored = VNull
  /\ provincia stored = VNull
  /\ Recommendations.calculateRegionMatch userRegions
       (Recommendations.column (departamento stored))
       (Recommendations.column (provincia stored))
     = match userRegions with
       | None | Some [] => (5 # 10)%Q
       | Some _ => 0%Q
       end.
Proof.
  intros stored.
  assert (Hp : departamento p = VNull /\ provincia p = VNull).
  { revert Hrow. unfold extractRow.
    destruct (length cells <? 7)%nat; [done|]. destruct (_ || _ || _); [done|].
    by intros [= <-]. }
  destruct Hp as [Hd Hv].
  assert (Hd' : departamento q = VNull).
  { change (get F_departamento q = VNull).
    rewrite (normalizeProcesoData_other_fields env p q) by done.
    simpl. by rewrite Hd. }
  assert (Hv' : provincia q = VNull).
  { change (get F_provincia q = VNull).
    rewrite (normalizeProcesoData_other_fields env p q) by done.
    simpl. by rewrite Hv. }
  subst stored. cbn [ETL.mapScrapeDataToProcesoSchema departamento provincia].
  rewrite Hd', Hv'. cbn.
  split; [done|]. split; [done|]. by destruct userRegions as [[|r l]|].
Qed.

Lemma scraped_rows_match_no_region_witness :
  extractRow (Paged.shown (Paged.showing [Paged.row 1])) 0 (Paged.row 1) = Some Paged.raw1
  /\ normalizeProcesoData Paged.node Paged.raw1 = Return Paged.normal1
  /\ (let stored := ETL.mapScrapeDataToProcesoSchema Paged.node Paged.normal1 in
      departamento stored = VNull
      /\ provincia stored = VNull
      /\ Recommendations.calculateRegionMatch (Some ["Lima"])
           (Recommendations.column (departamento stored))
           (Recommendations.column (provincia stored))
         = 0%Q).
Proof.
  assert (Hrow : extractRow (Paged.shown (Paged.showing [Paged.row 1])) 0 (Paged.row 1)
                 = Some Paged.raw1) by (vm_compute; reflexivity).
  assert (Hq : normalizeProcesoData Paged.node Paged.raw1 = Return Paged.normal1)
    by reflexivity.
  split; [exact Hrow|]. split; [exact Hq|].
  pose proof (scraped_rows_match_no_region Paged.node Paged.node
                (Paged.shown (Paged.showing [Paged.row 1])) 0 (Paged.row 1)
                Paged.raw1 Paged.normal1 (Some ["Lima"]) Hrow Hq) as H.
  exact H.
Defined.

(** ** PaginatedExtractor: what the page loop keeps *)

Section Collected.

Context {World : Type}.
Variable browser : forall A, Op A -> World -> outcome A * World.
Variable node : NodeEnv.

Lemma extractPages_accumulates (fuel : nat) :
  forall (maxProcesses : option Z) (currentPage : nat) (hasMorePages : bool)
         (total : nat) (acc : list Proceso) (st st' : State) (r : Scraper.LoopResult),
    Scraper.extractPages browser node fuel maxProcesses currentPage hasMorePages total acc st
    = (Normal r, st') ->
    (exists new, Scraper.allResults r = acc ++ new
                 /\ (Scraper.totalPagesProcessed r <= total + length new)%nat)
    /\ (total <= Scraper.totalPagesProcessed r)%nat
    /\ (currentPage <= Scraper.lastPage r)%nat
    /\ (Scraper.lastPage r + total <= Scraper.totalPagesProcessed r + currentPage)%nat
    /\ (Scraper.totalPagesProcessed r + currentPage <= S (Scraper.lastPage r + total))%nat.
Proof.
  assert (Hstop : forall (page total : nat) (acc : list Proceso),
            (exists new, acc = acc ++ new /\ (total <= total + length new)%nat)
            /\ (total <= total)%nat /\ (page <= page)%nat
            /\ (page + total <= total + page)%nat
            /\ (total + page <= S (page + total))%nat).
  { intros page total acc. split; [|lia]. exists [].
    rewrite app_nil_r. split; [done|simpl; lia]. }
  induction fuel as [|fuel IH]; intros cap page more total acc st st' r; simpl.
  - destruct (more && _); [done|]. intros [= <- _]. simpl. by apply Hstop.
  - destruct (more && _); [|intros [= <- _]; simpl; by apply Hstop].
    intros H.
    apply bind_normal in H as ([] & st1 & _ & H).
    apply bind_normal in H as ([] & st2 & _ & H).
    apply bind_normal in H as (pageResults & st3 & _ & H).
    destruct (length pageResults =? 0)%nat eqn:Hlen.
    { apply bind_normal in H as ([] & st4 & _ & H). injection H as <- _. simpl.
      by apply Hstop. }
    apply Nat.eqb_neq in Hlen. cbv zeta in H.
    assert (Hlast : (exists new, acc ++ pageResults = acc ++ new
                                 /\ (S total <= total + length new)%nat)
                    /\ (total <= S total)%nat /\ (page <= page)%nat
                    /\ (page + total <= S total + page)%nat
                    /\ (S total + page <= S (page + total))%nat).
    { split; [|lia]. exists pageResults. split; [done|lia]. }
    apply bind_normal in H as ([] & st4 & _ & H).
    destruct (Scraper.capSet cap && _).
    { apply bind_normal in H as ([] & st5 & _ & H). by injection H as <- _. }
    apply bind_normal in H as (more' & st5 & _ & H).
    destruct more'; cbn [negb] in H.
    + apply bind_normal in H as ([] & st6 & _ & H).
      apply bind_normal in H as ([] & st7 & _ & H).
      apply IH in H as ((new & Hnew & Hcount) & H1 & H2 & H3 & H4).
      split; [|lia]. exists (pageResults ++ new).
      rewrite Hnew, <- app_assoc, length_app. split; [done|lia].
    + apply bind_normal in H as ([] & st6 & _ & H). by injection H as <- _.
Qed.

(** X21.  The page loop only appends: what was collected before stays in
    front, in its order.  Every page it counts as processed has given at
    least one record, and the pages counted are the pages turned, plus the
    last page when that one was read too. *)
Theorem extractPages_only_appends (fuel : nat) (maxProcesses : option Z)
    (currentPage : nat) (hasMorePages : bool) (total : nat) (acc : list Proceso)
    (st : State) (r : Scraper.LoopResult)
    (Hrun : fst (Scraper.extractPages browser node fuel maxProcesses currentPage
                   hasMorePages total acc st) = Normal r) :
  (exists new, Scraper.allResults r = acc ++ new
               /\ (Scraper.totalPagesProcessed r <= total + length new)%nat)
  /\ (total <= Scraper.totalPagesProcessed r)%nat
  /\ (currentPage <= Scraper.lastPage r)%nat
  /\ (Scraper.lastPage r + total <= Scraper.totalPagesProcessed r + currentPage)%nat
  /\ (Scraper.totalPagesProcessed r + currentPage <= S (Scraper.lastPage r + total))%nat.
Proof.
  destruct (Scraper.extractPages browser node fuel maxProcesses currentPage hasMorePages
              total acc st) as [c st'] eqn:H.
  simpl in Hrun. subst c. by eapply extractPages_accumulates.
Qed.

End Collected.

Lemma extractPages_only_appends_witness :
  fst (Scraper.extractPages Paged.browser Paged.node 3 (Some 3%Z) 1 true 0 []
         (Paged.start (Paged.source 2 2))) = Normal looped
  /\ (exists new, Scraper.allResults looped = [] ++ new
                  /\ (Scraper.totalPagesProcessed looped <= 0 + length new)%nat)
  /\ (0 <= Scraper.totalPagesProcessed looped)%nat
  /\ (1 <= Scraper.lastPage looped)%nat
  /\ (Scraper.lastPage looped + 0 <= Scraper.totalPagesProcessed looped + 1)%nat
  /\ (Scraper.totalPagesProcessed looped + 1 <= S (Scraper.lastPage looped + 0))%nat.
Proof.
  assert (Hrun : fst (Scraper.extractPages Paged.browser Paged.node 3 (Some 3%Z) 1 true 0 []
                        (Paged.start (Paged.source 2 2))) = Normal looped)
    by (vm_compute; reflexivity).
  split; [exact Hrun|].
  pose proof (extractPages_only_appends Paged.browser Paged.node 3 (Some 3%Z) 1 true 0 []
                (Paged.start (Paged.source 2 2)) looped Hrun) as H.
  exact H.
Defined.

(** ** JobOrchestrator: the browser after a job *)

Section Released.

Context {World : Type}.
Variable browser : forall A, Op A -> World -> outcome A * World.
Variable node : NodeEnv.
Variable db_error : ETL.DbCall -> gmap string Proceso -> option string.
Variable exportService : ETL.ExportFormat -> list Proceso -> outcome bool.

(** X22.  The [finally] block of [performScraping] releases the browser on
    every path: when [browser.close()] does not throw, the scraper holds no
    browser after a job, be it completed or failed, and also when the
    launch itself had failed half-way. *)
Theorem performScraping_releases_browser (fuel : nat) (params : ETL.JobParams)
    (db : gmap string Proceso) (st : State)
    (Hclose : forall w, fst (browser _ CloseBrowser w) = Return tt) :
  match fst (ETL.performScraping node db_error browser exportService fuel params db st) with
  | Unfinished => True
  | _ =>
      this_browser
        (snd (ETL.performScraping node db_error browser exportService fuel params db st))
      = false
  end.
Proof.
  unfold ETL.performScraping. rewrite bind_run.
  match goal with
  | |- context [match ?body st with _ => _ end] => destruct (body st) as [[x|e|] st1] eqn:Hb
  end; cbv beta iota.
  - rewrite bind_run.
    destruct (close_unsets browser st1 Hclose) as (st2 & -> & Hreleased).
    by cbn [fst snd mret M_ret ret].
  - exfalso. unfold try_catch in Hb.
    match type of Hb with
    | match ?body st with _ => _ end = _ => destruct (body st) as [[y|e'|] st0]
    end; [done| |done].
    rewrite bind_run, logger_run in Hb. done.
  - done.
Qed.

End Released.

Lemma performScraping_releases_browser_witness :
  (forall w, fst (Paged.browser _ CloseBrowser w) = Return tt)
  /\ match fst (ETL.performScraping Paged.node Paged.accepts Paged.browser Paged.exports 3
                  (Paged.job (Some 3%Z)) ∅ (Paged.start (Paged.source 2 2))) with
     | Unfinished => True
     | _ =>
         this_browser
           (snd (ETL.performScraping Paged.node Paged.accepts Paged.browser Paged.exports 3
                   (Paged.job (Some 3%Z)) ∅ (Paged.start (Paged.source 2 2))))
         = false
     end.
Proof.
  assert (Hclose : forall w, fst (Paged.browser _ CloseBrowser w) = Return tt)
    by reflexivity.
  split; [exact Hclose|].
  pose proof (performScraping_releases_browser Paged.browser Paged.node Paged.accepts
                Paged.exports 3 (Paged.job (Some 3%Z)) ∅ (Paged.start (Paged.source 2 2))
                Hclose) as H.
  exact H.
Defined.

(** ** The capped scenario of the specification *)

(** Under a cap of at least 1 the scraper hands over no more records than
    the cap, so the persistence loop never finds its limit reached while it
    still has a record to process. *)
Lemma limit_never_reached {World : Type}
    (browser : forall A, Op A -> World -> outcome A * World) (node : NodeEnv)
    (db_error : ETL.DbCall -> gmap string Proceso -> option string)
    (fuel : nat) (params : ETL.JobParams) (N : Z) (results : list Proceso)
    (st st1 : State) (db : gmap string Proceso) (n : nat) :
  ETL.maxProcesses params = Some N -> (1 <= N)%Z ->
  ETL.scrape node browser fuel params st = (Normal results, st1) ->
  (n < length results)%nat ->
  ETL.limitReached (ETL.orNumber (ETL.maxProcesses params) None)
    (ETL.newProcessesInserted
       (ETL.persistAll node db_error (ETL.orNumber (ETL.maxProcesses params) None)
          (take n results) db))
  = false.
Proof.
  intros Hcap HN Hscrape Hn.
  unfold ETL.scrape in Hscrape.
  apply bind_normal in Hscrape as ([] & st2 & _ & Hscrape).
  apply bind_normal in Hscrape as ([] & st3 & _ & Hscrape).
  apply searchProcesses_result in Hscrape as (r & st4 & st5 & _ & Hresults).
  assert (Hlen : (Z.of_nat (length results) <= N)%Z).
  { rewrite Hresults. cbn [ETL.searchParams Scraper.maxProcesses]. rewrite Hcap.
    assert (ETL.orNumber (Some N) (Some 100%Z) = Some N) as ->.
    { unfold ETL.orNumber. by assert ((N =? 0)%Z = false) as -> by (apply Z.eqb_neq; lia). }
    simpl. assert ((N =? 0)%Z = false) as -> by (apply Z.eqb_neq; lia).
    by apply slice0_length. }
  rewrite Hcap, orNumber_cap by done. rewrite limitReached_cap by done.
  apply Z.leb_gt. unfold ETL.persistAll.
  assert (Htake : length (take n results) = n) by (rewrite length_take; lia).
  destruct (counted_loop node db_error N HN (take n results) (ETL.persistStart db))
    as [_ Hnew]; [simpl; lia|].
  cbv zeta in Hnew. simpl in Hnew. lia.
Qed.

(** C3 (the code departs from the claim).  The claim: in the run with
    maxProcesses = 50 over 3 pages of 40 matching rows the cap limits only
    the new inserts; extraction reads all 120 rows, and rows seen after the
    cap refresh the records that exist.  The code: [performScraping] hands
    the cap to the scraper too, which stops after the second page, with 80
    rows read, and returns the first 50 of the 120 records.  The rows after
    the 50th never reach the persistence loop: row 60, which the table
    holds from an earlier run, is not refreshed and no update is counted.
    In every job with a cap of at least 1 the limit is never found reached
    while a record is left, so the branch of the loop that only updates is
    never taken. *)
Theorem C3_cap_cuts_rows_before_persistence :
  Scraper.maxProcesses (ETL.searchParams Paged.node (Paged.job (Some 50%Z))) = Some 50%Z
  /\ (let source := Paged.source 40 3 in
      let all := recordsOn source 0 ++ recordsOn source 1 ++ recordsOn source 2 in
      length (Paged.pages source) = 3%nat
      /\ (forall k, (k < 3)%nat ->
            length (default [] (Paged.pages source !! k)) = 40%nat
            /\ Paged.scraped (default [] (Paged.pages source !! k))
               = Return (recordsOn source k)
            /\ length (recordsOn source k) = 40%nat)
      /\ exists results st1,
           ETL.scrape Paged.node Paged.browser 3 (Paged.job (Some 50%Z)) (Paged.start source)
           = (Normal results, st1)
           /\ take 3 (reverse (log st1))
              = [ (Info, "Procesos por página promedio: 40.0");
                  (Info, "Total de procesos extraídos: 80");
                  (Info, "Total de páginas procesadas: 2") ]
           /\ results = take 50 all
           /\ length results = 50%nat
           /\ length all = 120%nat)
  /\ (exists r st',
        Scraper.extractPages Paged.browser Paged.node 3 (Some 50%Z) 1 true 0 []
          (Paged.start (Paged.source 40 3)) = (Normal r, st')
        /\ Scraper.exit r = Scraper.LimitReached
        /\ Scraper.totalPagesProcessed r = 2%nat
        /\ Scraper.allResults r
           = recordsOn (Paged.source 40 3) 0 ++ recordsOn (Paged.source 40 3) 1)
  /\ (exists row60 row db' st',
        recordsOn (Paged.source 40 3) 1 !! 19%nat = Some row60
        /\ id_proceso row60 = VStr "AS-SM-60-2025"
        /\ before !! "AS-SM-60-2025" = Some stale60
        /\ ETL.performScraping Paged.node Paged.accepts Paged.browser Paged.exports 3
             (Paged.job (Some 50%Z)) before (Paged.start (Paged.source 40 3))
           = (Normal (row, db'), st')
        /\ ETL.status row = "completed"
        /\ ETL.inserted_count row = 50%nat
        /\ ETL.updated_count row = 0%nat
        /\ ETL.error_count row = 0%nat
        /\ size db' = 51%nat
        /\ db' !! "AS-SM-60-2025" = Some stale60
        /\ stale60 <> ETL.mapScrapeDataToProcesoSchema Paged.node row60)
  /\ (forall (db_error : ETL.DbCall -> gmap string Proceso -> option string)
             (exportService : ETL.ExportFormat -> list Proceso -> outcome bool)
             (db : gmap string Proceso),
        (forall fmt rs, exists b, exportService fmt rs = Return b) ->
        exists row db' st',
          ETL.performScraping Paged.node db_error Paged.browser exportService 3
            (Paged.job (Some 50%Z)) db (Paged.start (Paged.source 40 3))
          = (Normal (row, db'), st')
          /\ ETL.status row = "completed"
          /\ (ETL.inserted_count row <= 50)%nat
          /\ (ETL.inserted_count row + ETL.updated_count row + ETL.error_count row
              = 50)%nat
          /\ size db' = (size db + ETL.inserted_count row)%nat)
  /\ (forall (World : Type) (browser : forall A, Op A -> World -> outcome A * World)
             (node : NodeEnv)
             (db_error : ETL.DbCall -> gmap string Proceso -> option string)
             (fuel : nat) (params : ETL.JobParams) (N : Z) (results : list Proceso)
             (st st1 : State) (db : gmap string Proceso) (n : nat),
        ETL.maxProcesses params = Some N -> (1 <= N)%Z ->
        ETL.scrape node browser fuel params st = (Normal results, st1) ->
        (n < length results)%nat ->
        ETL.limitReached (ETL.orNumber (ETL.maxProcesses params) None)
          (ETL.newProcessesInserted
             (ETL.persistAll node db_error (ETL.orNumber (ETL.maxProcesses params) None)
                (take n results) db))
        = false).
Proof.
  assert (Hscrape : exists st1,
            ETL.scrape Paged.node Paged.browser 3 (Paged.job (Some 50%Z))
              (Paged.start (Paged.source 40 3))
            = (Normal (Paged.scrapedBy 3 (Some 50%Z) (Paged.source 40 3)), st1)
            /\ take 3 (reverse (log st1))
               = [ (Info, "Procesos por página promedio: 40.0");
                   (Info, "Total de procesos extraídos: 80");
                   (Info, "Total de páginas procesadas: 2") ]).
  { eexists. split; [vm_compute; reflexivity|reflexivity]. }
  destruct Hscrape as (st1 & Hscrape & Hlog).
  assert (Hlen : length (Paged.scrapedBy 3 (Some 50%Z) (Paged.source 40 3)) = 50%nat)
    by (vm_compute; reflexivity).
  split; [reflexivity|]. split; [|split; [|split; [|split]]].
  - cbv zeta. split; [reflexivity|]. split.
    + intros k Hk.
      destruct k as [|[|[|k]]]; [| | |lia];
        (split; [vm_compute; reflexivity|]);
        (split; [vm_compute; reflexivity|vm_compute; reflexivity]).
    + exists (Paged.scrapedBy 3 (Some 50%Z) (Paged.source 40 3)), st1.
      split; [exact Hscrape|]. split; [exact Hlog|].
      split; [vm_compute; reflexivity|]. split; [exact Hlen|].
      vm_compute. reflexivity.
  - eexists _, _. split; [vm_compute; reflexivity|].
    split; [reflexivity|]. split; [reflexivity|]. vm_compute. reflexivity.
  - destruct (performScraping_completed Paged.browser Paged.node Paged.accepts
                Paged.exports (fun _ _ => ex_intro _ true eq_refl) 3
                (Paged.job (Some 50%Z)) before _ _ _ Hscrape) as [st' Hrun].
    eexists _, _, _, st'.
    split; [vm_compute; reflexivity|]. split; [reflexivity|].
    split; [vm_compute; reflexivity|]. split; [exact Hrun|].
    split; [reflexivity|]. split; [vm_compute; reflexivity|].
    split; [vm_compute; reflexivity|]. split; [vm_compute; reflexivity|].
    split; [vm_compute; reflexivity|]. split; [vm_compute; reflexivity|].
    intros Heq. apply (f_equal descripcion_objeto) in Heq. vm_compute in Heq.
    discriminate Heq.
  - intros db_error exportService db exports_return.
    destruct (performScraping_completed Paged.browser Paged.node db_error exportService
                exports_return 3 (Paged.job (Some 50%Z)) db _ _ _ Hscrape) as [st' Hrun].
    change (ETL.orNumber (ETL.maxProcesses (Paged.job (Some 50%Z))) None)
      with (Some 50%Z) in Hrun.
    revert Hrun. generalize Hlen.
    generalize (Paged.scrapedBy 3 (Some 50%Z) (Paged.source 40 3)).
    clear Hscrape Hlen. intros results Hlen Hrun.
    eexists _, _, st'. split; [exact Hrun|]. split; [reflexivity|].
    cbn [ETL.completedLog ETL.inserted_count ETL.updated_count ETL.error_count].
    unfold ETL.persistAll.
    destruct (inv_loop Paged.node db_error 50 ltac:(lia) db results (ETL.persistStart db)
                (inv_start 50 ltac:(lia) db)) as (Hle & Hsaved & Hsize).
    destruct (counted_loop Paged.node db_error 50 ltac:(lia) results (ETL.persistStart db))
      as [Hsum _]; [simpl; lia|].
    cbv zeta in Hsum. simpl in Hsum. rewrite Hlen in Hsum.
    split; [lia|]. split; [lia|done].
  - intros World browser node db_error fuel params N results st st2 db n.
    apply limit_never_reached.
Qed.
